(** * Weather prediction service: feature inference and offline pipeline

    A shallow embedding of [app.py] (the vocabulary tables, the parsing
    helpers, [_infer_missing_features] and
    [_build_feature_vector_from_inferred]) and of the step sequencing of
    [src/data_processing.py] ([DataProcessing.run] and its four steps).

    Python values are modelled as the code has them:
    - [float] is IEEE 754 binary64, here [spec_float] with the operations of
      the Standard Library's [SpecFloat] at precision 53 and [emax] 1024;
    - [int] is [Z];
    - [dict] with string keys is [gmap string _];
    - a raised exception is the [Raise] case of the [result] monad. *)

From Stdlib Require Import ZArith Lia Ascii String List SpecFloat.
From stdpp Require Import base option list strings gmap.

Local Open Scope string_scope.
Local Open Scope Z_scope.

(** ** Exceptions and the error monad *)

(** The text of an exception.  The f-strings of [app.py] that print a float
    are kept unrendered. *)
Inductive message :=
| Text (s : string)
| NotNumeric (name : string)
| OutOfRange (name : string) (x : spec_float) (lo hi : Z).

(** Exception objects.  [CustomException] carries the message it was built
    from, the [error_detail] argument of its constructor, the cause set by
    [raise ... from e] and the context that Python records when an exception
    is raised inside an [except] block. *)
Inductive exn :=
| ValueError (m : message)
| OverflowError (m : message)
| KeyError (key : string)
| LibraryError (cls : string) (m : message)
| CustomException (error_message : message) (error_detail : option exn)
                  (cause : option exn) (context : option exn).

Inductive result (A : Type) :=
| Ok (a : A)
| Raise (e : exn).
Arguments Ok {A} a.
Arguments Raise {A} e.

#[global] Instance result_ret : MRet result := fun A a => Ok a.
#[global] Instance result_bind : MBind result := fun A B f m =>
  match m with
  | Ok a => f a
  | Raise e => Raise e
  end.

Definition is_custom (e : exn) : bool :=
  match e with
  | CustomException _ _ _ _ => true
  | _ => false
  end.

(** ** Python floats *)

Module Float.

Abbreviation float := spec_float.

Definition prec : Z := 53.
Definition emax : Z := 1024.

Definition add : float -> float -> float := SFadd prec emax.
Definition sub : float -> float -> float := SFsub prec emax.
Definition mul : float -> float -> float := SFmul prec emax.
Definition div : float -> float -> float := SFdiv prec emax.
Definition ltb : float -> float -> bool := SFltb.
Definition leb : float -> float -> bool := SFleb.
Definition eqb : float -> float -> bool := SFeqb.
Definition gtb (x y : float) : bool := ltb y x.
Definition valid : float -> bool := valid_binary prec emax.

(** The float nearest to an integer (round to nearest, ties to even). *)
Definition of_Z (z : Z) : float := binary_normalize prec emax z 0 false.

(** The float nearest to [n / 10^k]: how a decimal literal of the source
    is read.  Both operands are exact for the literals used here, so the
    quotient is the correctly rounded value. *)
Definition decimal (n : Z) (k : Z) : float := div (of_Z n) (of_Z (10 ^ k)).

Definition is_nan (x : float) : bool :=
  match x with S754_nan => true | _ => false end.

Definition is_infinity (x : float) : bool :=
  match x with S754_infinity _ => true | _ => false end.

(** Zero or a finite non-zero number. *)
Definition is_finite (x : float) : bool :=
  match x with S754_zero _ | S754_finite _ _ _ => true | _ => false end.

(** [m / d] rounded to the nearest integer, ties to even. *)
Definition round_half_even (m : Z) (d : Z) : Z :=
  let q := m / d in
  let r := m mod d in
  match 2 * r ?= d with
  | Lt => q
  | Gt => q + 1
  | Eq => if Z.even q then q else q + 1
  end.

(** The integer nearest to a finite float, ties to even, sign apart. *)
Definition nearest_integer (m : positive) (e : Z) : Z :=
  match e with
  | Zneg p => round_half_even (Zpos m) (2 ^ Zpos p)
  | _ => Zpos m * 2 ^ e
  end.

(** A key that orders the floats as [SFcompare] does: the class by sign,
    then exponent and mantissa, both negated for negative numbers.  [None]
    for NaN, which compares with nothing. *)
Definition key (x : float) : option (Z * Z * Z) :=
  match x with
  | S754_nan => None
  | S754_infinity true => Some (-2, 0, 0)
  | S754_infinity false => Some (2, 0, 0)
  | S754_zero _ => Some (0, 0, 0)
  | S754_finite true m e => Some (-1, - e, Zneg m)
  | S754_finite false m e => Some (1, e, Zpos m)
  end.

Definition lt3 (a b : Z * Z * Z) : Prop :=
  a.1.1 < b.1.1 \/
  (a.1.1 = b.1.1 /\ (a.1.2 < b.1.2 \/ (a.1.2 = b.1.2 /\ a.2 < b.2))).

(** A mantissa that is non-negative and has at most [D] binary digits. *)
Definition small (D : Z) (m : Z) : Prop := 0 <= m /\ Zdigits2 m <= D.

(** Zero, or a finite number with a mantissa of at most 53 digits and an
    exponent of at most [E]. *)
Definition within (E : Z) (x : float) : bool :=
  match x with
  | S754_zero _ => true
  | S754_finite _ m e => (Zpos (digits2_pos m) <=? 53) && (e <=? E)
  | _ => false
  end.

End Float.

Import Float.

(** ** Python builtins used by the code *)

(** [int(x)] for an [int] operand of a float operation; Python raises
    [OverflowError] when the integer is too large for a float. *)
Definition float_of_int (z : Z) : result float :=
  let x := Float.of_Z z in
  if Float.is_infinity x
  then Raise (OverflowError (Text "int too large to convert to float"))
  else Ok x.

(** [round(x)] with one argument: the nearest [int], ties to even. *)
Definition py_round (x : float) : result Z :=
  match x with
  | S754_nan => Raise (ValueError (Text "cannot convert float NaN to integer"))
  | S754_infinity _ =>
      Raise (OverflowError (Text "cannot convert float infinity to integer"))
  | S754_zero _ => Ok 0
  | S754_finite s m e => Ok (cond_Zopp s (Float.nearest_integer m e))
  end.

(** [round(x, 1)]: the decimal with one fractional digit nearest to [x]
    (ties to even), read back as a float. *)
Definition py_round_1 (x : float) : float :=
  match x with
  | S754_finite s m (Zneg p) =>
      match Float.round_half_even (10 * Zpos m) (2 ^ Zpos p) with
      | Zpos n => Float.div (S754_finite s n 0) (Float.of_Z 10)
      | _ => S754_zero s
      end
  | _ => x
  end.

(** [max(a, b)] and [min(a, b)] keep the first argument unless the second
    is strictly greater (resp. smaller). *)
Definition py_max {A} (gt : A -> A -> bool) (a b : A) : A :=
  if gt b a then b else a.
Definition py_min {A} (lt : A -> A -> bool) (a b : A) : A :=
  if lt b a then b else a.

Definition fmax : float -> float -> float := py_max Float.gtb.
Definition fmin : float -> float -> float := py_min Float.ltb.
Definition imax : Z -> Z -> Z := py_max Z.gtb.
Definition imin : Z -> Z -> Z := py_min Z.ltb.

(** [{x: i for i, x in enumerate(xs)}]: a later duplicate overwrites. *)
Definition enumerate_map (xs : list string) : gmap string Z :=
  foldl (fun m '(i, x) => <[x := Z.of_nat i]> m) ∅ (imap pair xs).

(** [d.get(key, default)]. *)
Definition dict_get {V} (d : gmap string V) (key : string) (dflt : V) : V :=
  default dflt (d !! key).

(** [d[key]]. *)
Definition dict_item {V} (d : gmap string V) (key : string) : result V :=
  match d !! key with
  | Some v => Ok v
  | None => Raise (KeyError key)
  end.

(** ** [app.py]: vocabulary tables *)

Definition WIND_DIRS : list string :=
  [ "N"; "NNE"; "NE"; "ENE"; "E"; "ESE"; "SE"; "SSE";
    "S"; "SSW"; "SW"; "WSW"; "W"; "WNW"; "NW"; "NNW" ].

Definition WIND_DIR_MAP : gmap string Z := enumerate_map WIND_DIRS.

Definition YES_NO_MAP : gmap string Z := <["Yes" := 1]> (<["No" := 0]> ∅).

Definition LOCATIONS : list string :=
  [ "Adelaide"; "Albury"; "AliceSprings"; "BadgerysCreek"; "Ballarat"; "Bendigo";
    "Brisbane"; "Cairns"; "Canberra"; "Cobar"; "CoffsHarbour"; "Dartmoor"; "Darwin";
    "GoldCoast"; "Hobart"; "Katherine"; "Launceston"; "Melbourne"; "MelbourneAirport";
    "Mildura"; "Moree"; "MountGambier"; "MountGinini"; "Nhil"; "NorahHead";
    "NorfolkIsland"; "Nuriootpa"; "PearceRAAF"; "Penrith"; "Perth"; "PerthAirport";
    "Portland"; "Richmond"; "Sale"; "SalmonGums"; "Sydney"; "SydneyAirport";
    "Townsville"; "Tuggeranong"; "Uluru"; "WaggaWagga"; "Walpole"; "Watsonia";
    "Williamtown"; "Witchcliffe"; "Wollongong"; "Woomera" ].

Definition LOCATION_MAP : gmap string Z := enumerate_map LOCATIONS.

Definition PREVAILING_BY_LOCATION : gmap string string :=
  list_to_map
    [ ("Sydney", "NE"); ("SydneyAirport", "NE"); ("Wollongong", "NE");
      ("Melbourne", "SW"); ("MelbourneAirport", "SW"); ("Geelong", "SW");
      ("Perth", "SW"); ("PerthAirport", "SW");
      ("Brisbane", "SE"); ("GoldCoast", "SE"); ("Cairns", "SE"); ("Townsville", "SE");
      ("Hobart", "W"); ("Launceston", "W");
      ("Darwin", "NW"); ("Katherine", "NW") ].

(** Strictly increasing in the order of [String.compare] (code points). *)
Fixpoint strictly_sorted (xs : list string) : bool :=
  match xs with
  | x :: ((y :: _) as rest) => String.ltb x y && strictly_sorted rest
  | _ => true
  end.

(** ** [app.py]: ranges, defaults, parsing and inference *)

Record range := { r_min : Z; r_max : Z; r_step : float }.

#[global] Instance range_inhabited : Inhabited range :=
  populate {| r_min := 0; r_max := 0; r_step := S754_zero false |}.

Definition RANGES : gmap string range :=
  list_to_map
    [ ("MinTemp",      {| r_min := -10; r_max := 45;  r_step := Float.decimal 1 1 |});
      ("MaxTemp",      {| r_min := -10; r_max := 50;  r_step := Float.decimal 1 1 |});
      ("Rainfall",     {| r_min := 0;   r_max := 200; r_step := Float.decimal 1 1 |});
      ("WindSpeed3pm", {| r_min := 0;   r_max := 100; r_step := Float.of_Z 1 |});
      ("Humidity3pm",  {| r_min := 0;   r_max := 100; r_step := Float.of_Z 1 |}) ].

Record date := { year : Z; month : Z; day : Z }.

(** A value stored in the feature dictionary. *)
Inductive value :=
| VInt (z : Z)
| VFloat (x : float).

(** [float(v)] as [np.array(..., dtype=float)] applies it to an entry. *)
Definition value_to_float (v : value) : result float :=
  match v with
  | VInt z => float_of_int z
  | VFloat x => Ok x
  end.

Definition SUNSHINE_BY_SEASON : gmap string float :=
  list_to_map
    [ ("summer", Float.of_Z 9); ("autumn", Float.of_Z 7);
      ("winter", Float.of_Z 5); ("spring", Float.of_Z 8) ].

(** The order in which [_build_feature_vector_from_inferred] reads the
    dictionary. *)
Definition FEATURE_KEYS : list string :=
  [ "Location"; "MinTemp"; "MaxTemp"; "Rainfall";
    "Evaporation"; "Sunshine"; "WindGustDir"; "WindGustSpeed";
    "WindDir9am"; "WindDir3pm"; "WindSpeed9am"; "WindSpeed3pm";
    "Humidity9am"; "Humidity3pm"; "Pressure9am"; "Pressure3pm";
    "Cloud9am"; "Cloud3pm"; "Temp9am"; "Temp3pm";
    "RainToday"; "Year"; "Month"; "Day" ].

Section App.

(** Builtins of the Python runtime, outside the repository: [float(s)] on a
    string ([None] when it raises [ValueError]), [date.fromisoformat(s)]
    (likewise), and the string [date.today().isoformat()] that the module
    computes once when it is imported. *)
Variable py_float : string -> option float.
Variable fromisoformat : string -> option date.
Variable today_iso : string.

(** [DEFAULTS], each entry as [str()] renders it where the code uses it:
    [str(13.0)] is ["13.0"], [str(55)] is ["55"]. *)
Definition DEFAULTS : gmap string string :=
  list_to_map
    [ ("Location", "Sydney");
      ("Date", today_iso);
      ("MinTemp", "13.0");
      ("MaxTemp", "23.0");
      ("Humidity3pm", "55");
      ("WindSpeed3pm", "20");
      ("Rainfall", "0.0") ].

Definition _parse_float (name value : string) : result float :=
  match py_float value with
  | Some x => Ok x
  | None =>
      let e := ValueError (Text "could not convert string to float") in
      Raise (CustomException (NotNumeric name) None (Some e) (Some e))
  end.

(** The bounds are Python [int]s; comparing a float with a small [int] is
    exact, as is converting the [int] first. *)
Definition _parse_float_in_range (name value : string) (lo hi : Z) : result float :=
  x ← _parse_float name value;
  if Float.ltb x (Float.of_Z lo) || Float.gtb x (Float.of_Z hi)
  then Raise (CustomException (OutOfRange name x lo hi) None None None)
  else Ok x.

Definition _parse_int_in_range (name value : string) (lo hi : Z) : result Z :=
  x ← _parse_float_in_range name value lo hi;
  py_round x.

Definition _parse_date (value : string) : result date :=
  match fromisoformat value with
  | Some d => Ok d
  | None =>
      let e := ValueError (Text "Invalid isoformat string") in
      Raise (CustomException (Text "Date: invalid format (expected YYYY-MM-DD).")
               None (Some e) (Some e))
  end.

Definition _season_of (month : Z) : string :=
  if bool_decide (month ∈ [12; 1; 2]) then "summer"
  else if bool_decide (month ∈ [3; 4; 5]) then "autumn"
  else if bool_decide (month ∈ [6; 7; 8]) then "winter"
  else "spring".

Definition _prevailing_dir_for_location (loc : string) : string :=
  dict_get PREVAILING_BY_LOCATION loc "SW".

Definition _infer_missing_features (form : gmap string string)
  : result (gmap string value) :=
  (* Parse minimal inputs *)
  let loc := dict_get form "Location" (DEFAULTS !!! "Location") in
  date ← _parse_date (dict_get form "Date" (DEFAULTS !!! "Date"));
  min_temp ← _parse_float_in_range
    "MinTemp" (dict_get form "MinTemp" (DEFAULTS !!! "MinTemp"))
    (r_min (RANGES !!! "MinTemp")) (r_max (RANGES !!! "MinTemp"));
  max_temp ← _parse_float_in_range
    "MaxTemp" (dict_get form "MaxTemp" (DEFAULTS !!! "MaxTemp"))
    (r_min (RANGES !!! "MaxTemp")) (r_max (RANGES !!! "MaxTemp"));
  hum_3pm ← _parse_int_in_range
    "Humidity3pm" (dict_get form "Humidity3pm" (DEFAULTS !!! "Humidity3pm"))
    (r_min (RANGES !!! "Humidity3pm")) (r_max (RANGES !!! "Humidity3pm"));
  spd_3pm ← _parse_int_in_range
    "WindSpeed3pm" (dict_get form "WindSpeed3pm" (DEFAULTS !!! "WindSpeed3pm"))
    (r_min (RANGES !!! "WindSpeed3pm")) (r_max (RANGES !!! "WindSpeed3pm"));
  rainfall ← _parse_float_in_range
    "Rainfall" (dict_get form "Rainfall" (DEFAULTS !!! "Rainfall"))
    (r_min (RANGES !!! "Rainfall")) (r_max (RANGES !!! "Rainfall"));
  (* Calendar fields *)
  let season := _season_of (month date) in
  (* Temperature heuristics *)
  let temp3pm :=
    fmin max_temp
      (fmax min_temp
         (Float.div (Float.add min_temp (Float.mul (Float.decimal 7 1) max_temp))
            (Float.decimal 17 1))) in
  let temp9am :=
    fmax min_temp
      (fmin max_temp
         (Float.add (Float.mul (Float.decimal 6 1) min_temp)
            (Float.mul (Float.decimal 4 1) max_temp))) in
  (* Sunshine hours by season *)
  let sunshine := dict_get SUNSHINE_BY_SEASON season (Float.of_Z 7) in
  (* Cloud (oktas 0..8) from humidity *)
  hum_f ← float_of_int hum_3pm;
  cloud3pm ← py_round (Float.mul (Float.div hum_f (Float.of_Z 100)) (Float.of_Z 8));
  let cloud3pm := imax 0 (imin 8 cloud3pm) in
  let cloud9am := cloud3pm in
  (* Pressure heuristic *)
  hum_off ← float_of_int (hum_3pm - 50);
  let pressure3pm :=
    py_round_1 (Float.sub (Float.of_Z 1015) (Float.mul (Float.decimal 8 2) hum_off)) in
  let pressure9am := pressure3pm in
  (* Wind directions: use prevailing for location *)
  let dir3pm := _prevailing_dir_for_location loc in
  (* Gust speed, bounded *)
  let gust_speed := imin 150 (imax (spd_3pm + 20) spd_3pm) in
  (* 9am wind a little lighter *)
  let spd_9am := imax 0 (spd_3pm - 3) in
  (* Evaporation *)
  let evaporation :=
    fmax (S754_zero false)
      (Float.add (Float.mul (Float.decimal 12 2) sunshine)
         (Float.mul (Float.decimal 3 2) (Float.sub max_temp min_temp))) in
  (* RainToday derived from rainfall threshold *)
  let rain_today := if Float.gtb rainfall (Float.decimal 2 1) then "Yes" else "No" in
  (* Encode categoricals *)
  let loc_enc := dict_get LOCATION_MAP loc 0 in
  sw ← dict_item WIND_DIR_MAP "SW";
  let dir3pm_enc := dict_get WIND_DIR_MAP dir3pm sw in
  let dir9am_enc := dir3pm_enc in
  let gust_dir_enc := dir3pm_enc in
  rain_today_enc ← dict_item YES_NO_MAP rain_today;
  (* Assemble all inferred fields *)
  Ok (list_to_map
        [ ("Location", VInt loc_enc);
          ("MinTemp", VFloat min_temp);
          ("MaxTemp", VFloat max_temp);
          ("Rainfall", VFloat rainfall);
          ("Evaporation", VFloat evaporation);
          ("Sunshine", VFloat sunshine);
          ("WindGustDir", VInt gust_dir_enc);
          ("WindGustSpeed", VInt gust_speed);
          ("WindDir9am", VInt dir9am_enc);
          ("WindDir3pm", VInt dir3pm_enc);
          ("WindSpeed9am", VInt spd_9am);
          ("WindSpeed3pm", VInt spd_3pm);
          ("Humidity9am", VInt hum_3pm);
          ("Humidity3pm", VInt hum_3pm);
          ("Pressure9am", VFloat pressure9am);
          ("Pressure3pm", VFloat pressure3pm);
          ("Cloud9am", VInt cloud9am);
          ("Cloud3pm", VInt cloud3pm);
          ("Temp9am", VFloat temp9am);
          ("Temp3pm", VFloat temp3pm);
          ("RainToday", VInt rain_today_enc);
          ("Year", VInt (year date));
          ("Month", VInt (month date));
          ("Day", VInt (day date)) ]).

(** The single row of the array [np.array([ordered], dtype=float)]: the
    entries are read in the order of [FEATURE_KEYS], a missing key raises
    [KeyError], then each entry is converted to a float. *)
Definition _build_feature_vector_from_inferred (vals : gmap string value)
  : result (list (list float)) :=
  ordered ← mapM (dict_item vals) FEATURE_KEYS;
  mapM (mapM value_to_float) [ordered].

End App.

(** ** Reference points of the specification *)

(** [x] clamped into [[lo, hi]]. *)
Definition clamp (lo hi x : float) : float :=
  if Float.ltb x lo then lo else if Float.ltb hi x then hi else x.

(** [round(h / 100 * 8)] in exact arithmetic, clamped to [[0, 8]]. *)
Definition okta_of_humidity (h : Z) : Z :=
  Z.max 0 (Z.min 8 (Float.round_half_even (h * 8) 100)).

(** The schema order as the specification lists it. *)
Definition SCHEMA_ORDER : list string :=
  [ "location"; "minTemp"; "maxTemp"; "rainfall"; "evaporation"; "sunshine";
    "windGustDir"; "windGustSpeed"; "windDir9am"; "windDir3pm";
    "windSpeed9am"; "windSpeed3pm"; "humidity9am"; "humidity3pm";
    "pressure9am"; "pressure3pm"; "cloud9am"; "cloud3pm"; "temp9am";
    "temp3pm"; "rainToday"; "year"; "month"; "day" ].

(** The dictionary key of a schema field: its name with a capital initial. *)
Definition key_of_field (field : string) : string :=
  match field with
  | String c rest =>
      let n := Ascii.nat_of_ascii c in
      String (if (97 <=? n)%nat && (n <=? 122)%nat
              then Ascii.ascii_of_nat (n - 32) else c) rest
  | EmptyString => EmptyString
  end.

(** ** A reference runtime

    The builtins on the inputs the examples below use: [float()] on plain
    decimal numerals (optional sign, digits, optional fraction) and on
    ["nan"], and [date.fromisoformat] on [YYYY-MM-DD]. *)
Module Runtime.

Definition digit (c : Ascii.ascii) : option Z :=
  let n := Z.of_nat (Ascii.nat_of_ascii c) in
  if ((48 <=? n) && (n <=? 57))%Z then Some (n - 48) else None.

Fixpoint digits_value (s : string) (acc : Z) : option Z :=
  match s with
  | EmptyString => Some acc
  | String c rest =>
      match digit c with
      | Some d => digits_value rest (10 * acc + d)
      | None => None
      end
  end.

(** The text before the first ["."] and, when there is one, the text after. *)
Fixpoint split_point (s : string) : string * option string :=
  match s with
  | EmptyString => (EmptyString, None)
  | String c rest =>
      if Ascii.eqb c "."%char then (EmptyString, Some rest)
      else let '(a, b) := split_point rest in (String c a, b)
  end.

(** The float nearest to the numeral: the quotient of two integers is
    rounded once. *)
Definition unsigned_decimal (s : string) : option float :=
  let '(int_part, frac) := split_point s in
  let frac_part := default EmptyString frac in
  if String.eqb int_part EmptyString then None
  else
    match digits_value (int_part ++ frac_part) 0 with
    | Some (Zpos n) =>
        Some (Float.div (S754_finite false n 0)
                (S754_finite false
                   (Z.to_pos (10 ^ Z.of_nat (String.length frac_part))) 0))
    | Some _ => Some (S754_zero false)
    | None => None
    end.

Definition float_of_string (s : string) : option float :=
  let r :=
    match s with
    | "nan" => Some S754_nan
    | String "-" rest => SFopp <$> unsigned_decimal rest
    | String "+" rest => unsigned_decimal rest
    | _ => unsigned_decimal s
    end in
  match r with
  | Some x => if Float.valid x then Some x else None
  | None => None
  end.

Definition is_leap (y : Z) : bool :=
  (((y mod 4 =? 0) && negb (y mod 100 =? 0)) || (y mod 400 =? 0))%Z.

Definition days_in_month (y m : Z) : Z :=
  if bool_decide (m ∈ [4; 6; 9; 11]) then 30
  else if (m =? 2)%Z then (if is_leap y then 29 else 28)
  else 31.

Definition date_of_string (s : string) : option date :=
  match s with
  | String y1 (String y2 (String y3 (String y4 (String "-"
      (String m1 (String m2 (String "-" (String d1 (String d2 EmptyString))))))))) =>
      match digits_value (String y1 (String y2 (String y3 (String y4 EmptyString)))) 0,
            digits_value (String m1 (String m2 EmptyString)) 0,
            digits_value (String d1 (String d2 EmptyString)) 0 with
      | Some y, Some m, Some d =>
          if ((1 <=? y) && (1 <=? m) && (m <=? 12) && (1 <=? d)
              && (d <=? days_in_month y m))%Z
          then Some {| year := y; month := m; day := d |}
          else None
      | _, _, _ => None
      end
  | _ => None
  end.

(** The day the examples take as [date.today()]. *)
Definition today : string := "2024-07-15".

Definition infer := _infer_missing_features float_of_string date_of_string today.

End Runtime.

(** ** [src/data_processing.py]: the offline pipeline *)

Module DataProcessing.

Inductive log_record :=
| Info (msg : string)
| Error (msg : string) (e : exn).

Section Pipeline.

(** pandas, scikit-learn and joblib are outside the repository.  A frame
    operation that raises part-way leaves the frame as changed so far. *)
Variable DataFrame : Type.
Variable artefact : Type.
Variable read_csv : string -> result DataFrame.
Variable preprocess_frame : DataFrame -> DataFrame * option exn.
Variable fit_transform : string -> DataFrame -> result DataFrame.
Variable split_target : DataFrame -> result (DataFrame * DataFrame).
Variable train_test_split :
  DataFrame -> DataFrame -> result (artefact * artefact * artefact * artefact).
Variable joblib_dump : artefact -> string -> option exn.

(** [os.makedirs(path, exist_ok=True)]: the exception it raises, if any. *)
Variable makedirs : string -> option exn.

(** The object ([input_path], [output_path], [df]) together with what the
    run leaves behind: the log and the files written. *)
Record state := {
  input_path : string;
  output_path : string;
  df : option DataFrame;
  log : list log_record;
  files : list (string * artefact)
}.

(** The object that [__init__] leaves when it returns: the paths are
    stored, no frame is loaded yet, and the start is logged. *)
Definition created (input output : string) : state :=
  {| input_path := input; output_path := output; df := None;
     log := [Info "Data Processing initialised."]; files := [] |}.

(** [__init__]: [os.makedirs] runs before the start is logged; when it
    raises, the constructor raises and no object exists. *)
Definition init (input output : string) : result state :=
  match makedirs output with
  | Some e => Raise e
  | None => Ok (created input output)
  end.

Definition M (A : Type) : Type := state -> result A * state.

Definition ret {A} (a : A) : M A := fun s => (Ok a, s).
Definition raise {A} (e : exn) : M A := fun s => (Raise e, s).
Definition bind {A B} (m : M A) (f : A -> M B) : M B :=
  fun s =>
    match m s with
    | (Ok a, s') => f a s'
    | (Raise e, s') => (Raise e, s')
    end.

(** [try: body except Exception as e: handler e]. *)
Definition try_except {A} (body : M A) (handler : exn -> M A) : M A :=
  fun s =>
    match body s with
    | (Ok a, s') => (Ok a, s')
    | (Raise e, s') => handler e s'
    end.

Definition lift {A} (r : result A) : M A := fun s => (r, s).

Definition logger (r : log_record) : M unit :=
  fun s => (Ok tt, {| input_path := input_path s; output_path := output_path s;
                      df := df s; log := log s ++ [r]; files := files s |}).

Definition set_df (d : DataFrame) : M unit :=
  fun s => (Ok tt, {| input_path := input_path s; output_path := output_path s;
                      df := Some d; log := log s; files := files s |}).

Definition write_file (path : string) (a : artefact) : M unit :=
  fun s => (Ok tt, {| input_path := input_path s; output_path := output_path s;
                      df := df s; log := log s; files := files s ++ [(path, a)] |}).

Definition get_df : M (option DataFrame) := fun s => (Ok (df s), s).
Definition get_input_path : M string := fun s => (Ok (input_path s), s).
Definition get_output_path : M string := fun s => (Ok (output_path s), s).

Notation "x <- m ;; k" := (bind m (fun x => k))
  (at level 100, m at next level, right associativity).
Notation "m ;; k" := (bind m (fun _ => k))
  (at level 100, right associativity).

(** [raise CustomException(message, e)] inside [except Exception as e]:
    [e] is the [error_detail] argument and, the exception being raised
    while [e] is handled, also its context. *)
Definition reraise {A} (message : string) (e : exn) : M A :=
  raise (CustomException (Text message) (Some e) None (Some e)).

(** The guard every step but the first starts with. *)
Definition loaded_df : M DataFrame :=
  d <- get_df ;;
  match d with
  | Some d => ret d
  | None => raise (ValueError (Text "Dataframe is not loaded. Call `load_data()` first."))
  end.

(** The [try] block of [load_data]. *)
Definition load_data_body : M unit :=
  path <- get_input_path ;;
  d <- lift (read_csv path) ;;
  set_df d ;;
  logger (Info "Data loaded successfully. Shape: %s").

Definition load_data : M unit :=
  try_except load_data_body
    (fun e =>
       logger (Error "Error while loading data: %s" e) ;;
       reraise "Failed to load data" e).

(** The [try] block of [preprocess]. *)
Definition preprocess_body : M unit :=
  d <- loaded_df ;;
  let '(d', failure) := preprocess_frame d in
  set_df d' ;;
  match failure with
  | Some e => raise e
  | None => logger (Info "Basic data preprocessing completed.")
  end.

Definition preprocess : M unit :=
  try_except preprocess_body
    (fun e =>
       logger (Error "Error while preprocessing data: %s" e) ;;
       reraise "Failed to preprocess data" e).

Definition CATEGORICAL : list string :=
  [ "Location"; "WindGustDir"; "WindDir9am"; "WindDir3pm"; "RainToday"; "RainTomorrow" ].

Fixpoint encode_columns (cols : list string) : M unit :=
  match cols with
  | [] => ret tt
  | col :: rest =>
      d <- loaded_df ;;
      d' <- lift (fit_transform col d) ;;
      set_df d' ;;
      logger (Info "Label mapping for %s: %s") ;;
      encode_columns rest
  end.

(** The [try] block of [label_encode]. *)
Definition label_encode_body : M unit :=
  _ <- loaded_df ;;
  encode_columns CATEGORICAL ;;
  logger (Info "Label encoding completed.").

Definition label_encode : M unit :=
  try_except label_encode_body
    (fun e =>
       logger (Error "Error while label encoding data: %s" e) ;;
       reraise "Failed to label encode data" e).

Fixpoint dump_all (parts : list (artefact * string)) : M unit :=
  match parts with
  | [] => ret tt
  | (a, name) :: rest =>
      dir <- get_output_path ;;
      let path := dir ++ "/" ++ name in
      match joblib_dump a path with
      | Some e => raise e
      | None => write_file path a ;; dump_all rest
      end
  end.

(** The [try] block of [split_data]. *)
Definition split_data_body : M unit :=
  d <- loaded_df ;;
  xy <- lift (split_target d) ;;
  logger (Info "Feature columns: %s") ;;
  parts <- lift (train_test_split xy.1 xy.2) ;;
  let '(X_train, X_test, y_train, y_test) := parts in
  dump_all [ (X_train, "X_train.pkl"); (X_test, "X_test.pkl");
             (y_train, "y_train.pkl"); (y_test, "y_test.pkl") ] ;;
  logger (Info "Data split and persistence completed successfully.").

Definition split_data : M unit :=
  try_except split_data_body
    (fun e =>
       logger (Error "Error while splitting data: %s" e) ;;
       reraise "Failed to split data" e).

Definition run : M unit :=
  load_data ;;
  preprocess ;;
  label_encode ;;
  split_data ;;
  logger (Info "Data processing completed.").

(** The steps of [run] in order, each with the message of its wrapper. *)
Definition STEPS : list (M unit * string) :=
  [ (load_data, "Failed to load data");
    (preprocess, "Failed to preprocess data");
    (label_encode, "Failed to label encode data");
    (split_data, "Failed to split data") ].

(** The [try] block of each step, with the text of the error record that
    its [except] block logs. *)
Definition TRY_BLOCKS : list (M unit * string) :=
  [ (load_data_body, "Error while loading data: %s");
    (preprocess_body, "Error while preprocessing data: %s");
    (label_encode_body, "Error while label encoding data: %s");
    (split_data_body, "Error while splitting data: %s") ].

(** Running a prefix of the steps, stopping at the first that raises. *)
Fixpoint run_steps (steps : list (M unit * string)) : M unit :=
  match steps with
  | [] => ret tt
  | (step, _) :: rest => step ;; run_steps rest
  end.

End Pipeline.

End DataProcessing.

(** A run of the pipeline on stand-ins for the libraries: frames are lists
    of column names, the CSV loads, and preprocessing fails on a missing
    [Date] column. *)
Module PipelineSample.

Definition read_csv (path : string) : result (list string) :=
  Ok ["Location"; "MinTemp"; "RainTomorrow"].

Definition preprocess_frame (d : list string) : list string * option exn :=
  if bool_decide ("Date" ∈ d) then (d, None) else (d, Some (KeyError "Date")).

Definition fit_transform (col : string) (d : list string) : result (list string) :=
  if bool_decide (col ∈ d) then Ok d else Raise (KeyError col).

Definition split_target (d : list string) : result (list string * list string) :=
  if bool_decide ("RainTomorrow" ∈ d)
  then Ok (filter (fun c => c <> "RainTomorrow") d, ["RainTomorrow"])
  else Raise (KeyError "RainTomorrow").

Definition train_test_split (x y : list string)
  : result (list string * list string * list string * list string) :=
  Ok (x, x, y, y).

Definition joblib_dump (a : list string) (path : string) : option exn := None.

Definition STEPS :=
  DataProcessing.STEPS (list string) (list string) read_csv preprocess_frame
    fit_transform split_target train_test_split joblib_dump.

Definition run :=
  DataProcessing.run (list string) (list string) read_csv preprocess_frame
    fit_transform split_target train_test_split joblib_dump.

Definition start : DataProcessing.state (list string) (list string) :=
  DataProcessing.created (list string) (list string)
    "artifacts/raw/data.csv" "artifacts/processed".

End PipelineSample.

(** ** [app.py]: the route *)

Inductive http_method := GET | POST.

(** What [index] hands to the template: the prediction, the error (the
    exception whose [str] is shown) and the inputs to show in the form.
    [ranges] and [choices] are the constants [RANGES] and [LOCATIONS]. *)
Record page := {
  prediction : option string;
  error : option exn;
  inputs : gmap string string
}.


(** [for k in inputs: if k in request.form and request.form[k]:
       inputs[k] = request.form[k]]. *)
Definition reflect_posted (form inputs : gmap string string) : gmap string string :=
  foldl
    (fun acc k =>
       match form !! k with
       | Some v => if bool_decide (v <> EmptyString) then <[k := v]> acc else acc
       | None => acc
       end)
    inputs (map_to_list inputs).*1.

Section Route.

Variable py_float : string -> option float.
Variable fromisoformat : string -> option date.
Variable today_iso : string.

(** [int(model.predict(X)[0])] of the loaded model. *)
Variable predict : list (list float) -> result Z.

Definition index (method : http_method) (form : gmap string string) : page :=
  let inputs := DEFAULTS today_iso in
  match method with
  | GET => {| prediction := None; error := None; inputs := inputs |}
  | POST =>
      match
        inferred ← _infer_missing_features py_float fromisoformat today_iso form;
        _build_feature_vector_from_inferred inferred
      with
      | Raise e => {| prediction := None; error := Some e; inputs := inputs |}
      | Ok X =>
          let inputs := reflect_posted form inputs in
          match predict X with
          | Raise e => {| prediction := None; error := Some e; inputs := inputs |}
          | Ok y_pred =>
              {| prediction :=
                   Some (if y_pred =? 1 then "Rain Tomorrow: Yes"
                         else "Rain Tomorrow: No");
                 error := None;
                 inputs := inputs |}
          end
      end
  end.

End Route.

(** Further stand-ins for the libraries: a CSV that holds every column the
    steps read, and a disk that refuses the second file. *)
Module PipelineRuns.

Definition read_csv (path : string) : result (list string) :=
  Ok [ "Date"; "Location"; "WindGustDir"; "WindDir9am"; "WindDir3pm";
       "RainToday"; "RainTomorrow" ].

Definition joblib_dump_refusing (a : list string) (path : string) : option exn :=
  if String.eqb path "artifacts/processed/X_test.pkl"
  then Some (LibraryError "OSError" (Text "No space left on device"))
  else None.

Definition run :=
  DataProcessing.run (list string) (list string) read_csv
    PipelineSample.preprocess_frame PipelineSample.fit_transform
    PipelineSample.split_target PipelineSample.train_test_split
    PipelineSample.joblib_dump.

Definition split_data_refused :=
  DataProcessing.split_data (list string) (list string)
    PipelineSample.split_target PipelineSample.train_test_split
    joblib_dump_refusing.

(** The state after the first three steps of [run]. *)
Definition encoded : DataProcessing.state (list string) (list string) :=
  (DataProcessing.run_steps (list string) (list string)
     (take 3 (DataProcessing.STEPS (list string) (list string) read_csv
                PipelineSample.preprocess_frame PipelineSample.fit_transform
                PipelineSample.split_target PipelineSample.train_test_split
                PipelineSample.joblib_dump))
     PipelineSample.start).2.

End PipelineRuns.

(** ** [src/model_training.py]: training and evaluation *)

Module ModelTraining.

Section Training.

(** joblib, XGBoost and scikit-learn are outside the repository.  [fit]
    changes the classifier in place, so a fit that raises leaves the
    classifier as changed so far.  The scores are only logged: a metric is
    modelled by the exception it raises, if any. *)
Variable artefact : Type.
Variable classifier : Type.
Variable predictions : Type.
Variable XGBClassifier : result classifier.
Variable makedirs : string -> option exn.
Variable joblib_load : string -> result artefact.
Variable fit :
  classifier -> option artefact -> option artefact -> classifier * option exn.
Variable joblib_dump : classifier -> string -> option exn.
Variable score : classifier -> option artefact -> option artefact -> option exn.
Variable predict : classifier -> option artefact -> result predictions.
Variable accuracy_score : option artefact -> predictions -> option exn.
Variable precision_score : option artefact -> predictions -> option exn.
Variable recall_score : option artefact -> predictions -> option exn.
Variable f1_score : option artefact -> predictions -> option exn.

(** The object together with what the run leaves behind: the log and the
    model files written. *)
Record state := {
  input_path : string;
  output_path : string;
  model : classifier;
  X_train : option artefact;
  X_test : option artefact;
  y_train : option artefact;
  y_test : option artefact;
  log : list DataProcessing.log_record;
  files : list (string * classifier)
}.

(** The object that [__init__] leaves when it returns: the paths and the
    fresh classifier are stored, no split is loaded yet, and the start is
    logged. *)
Definition created (m : classifier) (input output : string) : state :=
  {| input_path := input; output_path := output; model := m;
     X_train := None; X_test := None; y_train := None; y_test := None;
     log := [DataProcessing.Info "Model Training initialised."]; files := [] |}.

(** [__init__]: [xgb.XGBClassifier()] and then [os.makedirs] run before
    the start is logged; when one of them raises, the constructor raises
    and no object exists. *)
Definition init (input output : string) : result state :=
  m ← XGBClassifier;
  match makedirs output with
  | Some e => Raise e
  | None => Ok (created m input output)
  end.

Definition M (A : Type) : Type := state -> result A * state.

Definition ret {A} (a : A) : M A := fun s => (Ok a, s).
Definition raise {A} (e : exn) : M A := fun s => (Raise e, s).
Definition bind {A B} (m : M A) (f : A -> M B) : M B :=
  fun s =>
    match m s with
    | (Ok a, s') => f a s'
    | (Raise e, s') => (Raise e, s')
    end.

(** [try: body except Exception as e: handler e]. *)
Definition try_except {A} (body : M A) (handler : exn -> M A) : M A :=
  fun s =>
    match body s with
    | (Ok a, s') => (Ok a, s')
    | (Raise e, s') => handler e s'
    end.

Definition lift {A} (r : result A) : M A := fun s => (r, s).

(** A library call whose value is not kept. *)
Definition call (failure : option exn) : M unit :=
  fun s => match failure with Some e => (Raise e, s) | None => (Ok tt, s) end.

Definition get : M state := fun s => (Ok s, s).

Definition logger (r : DataProcessing.log_record) : M unit :=
  fun s => (Ok tt, {| input_path := input_path s; output_path := output_path s;
                      model := model s;
                      X_train := X_train s; X_test := X_test s;
                      y_train := y_train s; y_test := y_test s;
                      log := log s ++ [r]; files := files s |}).

Definition set_model (m : classifier) : M unit :=
  fun s => (Ok tt, {| input_path := input_path s; output_path := output_path s;
                      model := m;
                      X_train := X_train s; X_test := X_test s;
                      y_train := y_train s; y_test := y_test s;
                      log := log s; files := files s |}).

Definition set_X_train (a : artefact) : M unit :=
  fun s => (Ok tt, {| input_path := input_path s; output_path := output_path s;
                      model := model s;
                      X_train := Some a; X_test := X_test s;
                      y_train := y_train s; y_test := y_test s;
                      log := log s; files := files s |}).

Definition set_X_test (a : artefact) : M unit :=
  fun s => (Ok tt, {| input_path := input_path s; output_path := output_path s;
                      model := model s;
                      X_train := X_train s; X_test := Some a;
                      y_train := y_train s; y_test := y_test s;
                      log := log s; files := files s |}).

Definition set_y_train (a : artefact) : M unit :=
  fun s => (Ok tt, {| input_path := input_path s; output_path := output_path s;
                      model := model s;
                      X_train := X_train s; X_test := X_test s;
                      y_train := Some a; y_test := y_test s;
                      log := log s; files := files s |}).

Definition set_y_test (a : artefact) : M unit :=
  fun s => (Ok tt, {| input_path := input_path s; output_path := output_path s;
                      model := model s;
                      X_train := X_train s; X_test := X_test s;
                      y_train := y_train s; y_test := Some a;
                      log := log s; files := files s |}).

Definition write_file (path : string) (m : classifier) : M unit :=
  fun s => (Ok tt, {| input_path := input_path s; output_path := output_path s;
                      model := model s;
                      X_train := X_train s; X_test := X_test s;
                      y_train := y_train s; y_test := y_test s;
                      log := log s; files := files s ++ [(path, m)] |}).

Notation "x <- m ;; k" := (bind m (fun x => k))
  (at level 100, m at next level, right associativity).
Notation "m ;; k" := (bind m (fun _ => k))
  (at level 100, right associativity).

(** [raise CustomException(message, e)] inside [except Exception as e]. *)
Definition reraise {A} (message : string) (e : exn) : M A :=
  raise (CustomException (Text message) (Some e) None (Some e)).

(** [joblib.load(os.path.join(self.input_path, name))]. *)
Definition load (name : string) : M artefact :=
  s <- get ;;
  lift (joblib_load (input_path s ++ "/" ++ name)).

(** The [try] block of [load_data]. *)
Definition load_data_body : M unit :=
  a <- load "X_train.pkl" ;; set_X_train a ;;
  a <- load "X_test.pkl" ;; set_X_test a ;;
  a <- load "y_train.pkl" ;; set_y_train a ;;
  a <- load "y_test.pkl" ;; set_y_test a ;;
  logger (DataProcessing.Info "Preprocessed data loaded successfully.").

Definition load_data : M unit :=
  try_except load_data_body
    (fun e =>
       logger (DataProcessing.Error "Error while loading data: %s" e) ;;
       reraise "Failed to load data" e).

(** The [try] block of [train_model]. *)
Definition train_model_body : M unit :=
  s <- get ;;
  let '(m, failure) := fit (model s) (X_train s) (y_train s) in
  set_model m ;;
  call failure ;;
  let model_path := output_path s ++ "/" ++ "model.pkl" in
  call (joblib_dump m model_path) ;;
  write_file model_path m ;;
  logger (DataProcessing.Info "Model trained and saved successfully at %s").

Definition train_model : M unit :=
  try_except train_model_body
    (fun e =>
       logger (DataProcessing.Error "Error while training model: %s" e) ;;
       reraise "Failed to train model" e).

(** The [try] block of [eval_model]. *)
Definition eval_model_body : M unit :=
  s <- get ;;
  call (score (model s) (X_train s) (y_train s)) ;;
  logger (DataProcessing.Info "Training model score: %.4f") ;;
  y_pred <- lift (predict (model s) (X_test s)) ;;
  call (accuracy_score (y_test s) y_pred) ;;
  call (precision_score (y_test s) y_pred) ;;
  call (recall_score (y_test s) y_pred) ;;
  call (f1_score (y_test s) y_pred) ;;
  logger (DataProcessing.Info
            "Evaluation Results — Accuracy: %.4f | Precision: %.4f | Recall: %.4f | F1-score: %.4f") ;;
  logger (DataProcessing.Info "Model evaluation completed successfully.").

Definition eval_model : M unit :=
  try_except eval_model_body
    (fun e =>
       logger (DataProcessing.Error "Error while evaluating model: %s" e) ;;
       reraise "Failed to evaluate model" e).

Definition run : M unit :=
  load_data ;;
  train_model ;;
  eval_model ;;
  logger (DataProcessing.Info "Model training and evaluation completed successfully.").

End Training.

End ModelTraining.

(** ** [pipeline/training_pipeline.py]: the two stages in sequence *)

Module TrainingPipeline.

(** What [joblib.load] finds under a path: the artefact that the last
    [joblib.dump] to that path stored, and for a path that was not written
    what the disk held before. *)
Definition read_back {artefact} (disk : string -> result artefact)
    (written : list (string * artefact)) (path : string) : result artefact :=
  match last (List.filter (fun p => String.eqb p.1 path) written) with
  | Some p => Ok p.2
  | None => disk path
  end.

Section Script.

Variable DataFrame : Type.
Variable artefact : Type.
Variable classifier : Type.
Variable predictions : Type.
Variable makedirs : string -> option exn.
Variable read_csv : string -> result DataFrame.
Variable preprocess_frame : DataFrame -> DataFrame * option exn.
Variable fit_transform : string -> DataFrame -> result DataFrame.
Variable split_target : DataFrame -> result (DataFrame * DataFrame).
Variable train_test_split :
  DataFrame -> DataFrame -> result (artefact * artefact * artefact * artefact).
Variable joblib_dump : artefact -> string -> option exn.
Variable disk : string -> result artefact.
Variable XGBClassifier : result classifier.
Variable fit :
  classifier -> option artefact -> option artefact -> classifier * option exn.
Variable joblib_dump_model : classifier -> string -> option exn.
Variable score : classifier -> option artefact -> option artefact -> option exn.
Variable predict : classifier -> option artefact -> result predictions.
Variable accuracy_score : option artefact -> predictions -> option exn.
Variable precision_score : option artefact -> predictions -> option exn.
Variable recall_score : option artefact -> predictions -> option exn.
Variable f1_score : option artefact -> predictions -> option exn.

(** How the block under [if __name__ == "__main__"] ends: the processor
    and the trainer, each if its constructor returned, and the exception
    that ended the script, if any. *)
Record outcome := {
  processor : option (DataProcessing.state DataFrame artefact);
  trainer : option (ModelTraining.state artefact classifier);
  raised : option exn
}.

Definition main : outcome :=
  (* Stage 1: Data Preprocessing *)
  match DataProcessing.init DataFrame artefact makedirs
          "artifacts/raw/data.csv" "artifacts/processed" with
  | Raise e => {| processor := None; trainer := None; raised := Some e |}
  | Ok processor =>
      match DataProcessing.run DataFrame artefact read_csv preprocess_frame
              fit_transform split_target train_test_split joblib_dump processor with
      | (Raise e, processor) =>
          {| processor := Some processor; trainer := None; raised := Some e |}
      | (Ok _, processor) =>
          (* Stage 2: Model Training & Evaluation *)
          match ModelTraining.init artefact classifier XGBClassifier makedirs
                  "artifacts/processed" "artifacts/models" with
          | Raise e =>
              {| processor := Some processor; trainer := None; raised := Some e |}
          | Ok trainer =>
              match ModelTraining.run artefact classifier predictions
                      (read_back disk (DataProcessing.files DataFrame artefact processor))
                      fit joblib_dump_model score predict
                      accuracy_score precision_score recall_score f1_score trainer with
              | (Raise e, trainer) =>
                  {| processor := Some processor; trainer := Some trainer;
                     raised := Some e |}
              | (Ok _, trainer) =>
                  {| processor := Some processor; trainer := Some trainer;
                     raised := None |}
              end
          end
      end
  end.

End Script.

End TrainingPipeline.

(** Stand-ins for the training libraries: a classifier is the list of
    columns it was fitted on. *)
Module TrainingSample.

Definition makedirs (path : string) : option exn := None.

(** A disk on which no directory can be created. *)
Definition makedirs_refused (path : string) : option exn :=
  Some (LibraryError "PermissionError" (Text "Permission denied")).

Definition disk (path : string) : result (list string) :=
  Raise (LibraryError "FileNotFoundError" (Text "No such file or directory")).

Definition fit (m : list string) (X y : option (list string))
  : list string * option exn :=
  match X, y with
  | Some x, Some _ => (x, None)
  | _, _ => (m, Some (ValueError (Text "Found array with 0 sample(s)")))
  end.

Definition joblib_dump (m : list string) (path : string) : option exn := None.

Definition score (m : list string) (X y : option (list string)) : option exn := None.

Definition predict (m : list string) (X : option (list string)) : result unit := Ok tt.

Definition metric (y : option (list string)) (y_pred : unit) : option exn := None.

Definition run (joblib_load : string -> result (list string)) :=
  ModelTraining.run (list string) (list string) unit joblib_load
    fit joblib_dump score predict metric metric metric metric.

Definition start : ModelTraining.state (list string) (list string) :=
  ModelTraining.created (list string) (list string) []
    "artifacts/processed" "artifacts/models".

Definition main (makedirs : string -> option exn)
    (read_csv : string -> result (list string)) :=
  TrainingPipeline.main (list string) (list string) (list string) unit
    makedirs read_csv PipelineSample.preprocess_frame PipelineSample.fit_transform
    PipelineSample.split_target PipelineSample.train_test_split
    PipelineSample.joblib_dump disk (Ok []) fit joblib_dump score predict
    metric metric metric metric.

End TrainingSample.
Local Open Scope Z_scope.

(** * Properties *)

(** ** The order on floats *)

Module FloatOrder.

Lemma compare_finite_cases (m1 m2 : positive) (e1 e2 : Z) :
  (e1 < e2 /\ (e1 ?= e2) = Lt) \/
  (e2 < e1 /\ (e1 ?= e2) = Gt) \/
  (e1 = e2 /\ (e1 ?= e2) = Eq /\
     ((Zpos m1 < Zpos m2 /\ Pos.compare_cont Eq m1 m2 = Lt) \/
      (Zpos m2 < Zpos m1 /\ Pos.compare_cont Eq m1 m2 = Gt) \/
      (m1 = m2 /\ Pos.compare_cont Eq m1 m2 = Eq))).
Proof.
  change (Pos.compare_cont Eq m1 m2) with (Pos.compare m1 m2).
  destruct (Z.compare_spec e1 e2) as [He|He|He].
  - right; right. split; [exact He | split; [reflexivity |]].
    destruct (Pos.compare_spec m1 m2) as [Hm|Hm|Hm].
    + right; right. split; [exact Hm | reflexivity].
    + left. split; [lia | reflexivity].
    + right; left. split; [lia | reflexivity].
  - left. split; [exact He | reflexivity].
  - right; left. split; [exact He | reflexivity].
Qed.

Ltac finite_cases m1 e1 m2 e2 :=
  destruct (compare_finite_cases m1 m2 e1 e2)
    as [[? ->]|[[? ->]|(? & -> & [[? ->]|[[? ->]|[? ->]]])]].

Lemma ltb_iff (x y : float) :
  Float.ltb x y = true <->
  match key x, key y with Some a, Some b => lt3 a b | _, _ => False end.
Proof.
  unfold Float.ltb, SFltb, lt3.
  destruct x as [[]|[]| |[] m1 e1], y as [[]|[]| |[] m2 e2]; simpl;
    try (split; [discriminate | lia]); try (split; [lia | reflexivity]);
    try (split; [intros _; lia | reflexivity]);
    finite_cases m1 e1 m2 e2;
    simpl; split; try discriminate; try reflexivity; try lia.
Qed.

Ltac close_cases :=
  split; intros;
  repeat match goal with H : _ \/ _ |- _ => destruct H | H : _ /\ _ |- _ => destruct H end;
  simplify_eq; try reflexivity; try discriminate; try lia;
  try solve [left; lia]; try solve [right; f_equal; lia];
  try solve [right; congruence]; try congruence.

Lemma leb_iff (x y : float) :
  Float.leb x y = true <->
  match key x, key y with Some a, Some b => lt3 a b \/ a = b | _, _ => False end.
Proof.
  unfold Float.leb, SFleb, lt3.
  destruct x as [[]|[]| |[] m1 e1], y as [[]|[]| |[] m2 e2]; simpl;
    try solve [close_cases];
    finite_cases m1 e1 m2 e2; simpl; close_cases.
Qed.

Lemma eqb_iff (x y : float) :
  Float.eqb x y = true <->
  match key x, key y with Some a, Some b => a = b | _, _ => False end.
Proof.
  unfold Float.eqb, SFeqb.
  destruct x as [[]|[]| |[] m1 e1], y as [[]|[]| |[] m2 e2]; simpl;
    try solve [close_cases];
    finite_cases m1 e1 m2 e2; simpl; close_cases.
Qed.

Lemma is_nan_key (x : float) : Float.is_nan x = false <-> is_Some (key x).
Proof.
  destruct x as [[]|[]| |[] m e]; simpl; split; intros H;
    try reflexivity; try discriminate; eauto; destruct H; discriminate.
Qed.

Lemma triple_eq_iff (a1 a2 a3 b1 b2 b3 : Z) :
  (a1, a2, a3) = (b1, b2, b3) <-> a1 = b1 /\ a2 = b2 /\ a3 = b3.
Proof. split; [intros; simplify_eq; auto | intros (-> & -> & ->); reflexivity]. Qed.

(** Turn comparisons in the context and the goal into statements about keys
    and let [lia] finish. *)
Ltac by_key :=
  repeat match goal with
    | H : Float.ltb _ _ = true |- _ => apply ltb_iff in H
    | H : Float.leb _ _ = true |- _ => apply leb_iff in H
    | H : Float.eqb _ _ = true |- _ => apply eqb_iff in H
    | H : Float.gtb _ _ = true |- _ => unfold Float.gtb in H
    | H : Float.gtb _ _ = false |- _ => unfold Float.gtb in H
    | H : Float.ltb _ _ = false |- _ => apply not_true_iff_false in H; rewrite ltb_iff in H
    | H : Float.leb _ _ = false |- _ => apply not_true_iff_false in H; rewrite leb_iff in H
    | H : Float.is_nan _ = false |- _ => apply is_nan_key in H; destruct H as [? H]
    end;
  repeat match goal with
    | |- Float.gtb _ _ = _ => unfold Float.gtb
    | |- Float.ltb _ _ = true => apply ltb_iff
    | |- Float.leb _ _ = true => apply leb_iff
    | |- Float.eqb _ _ = true => apply eqb_iff
    | |- Float.ltb _ _ = false => apply not_true_iff_false; rewrite ltb_iff
    | |- Float.is_nan _ = false => apply is_nan_key
    end;
  repeat match goal with
    | H : context [key ?x] |- _ => destruct (key x) as [[[? ?] ?]|]
    | |- context [key ?x] => destruct (key x) as [[[? ?] ?]|]
    end;
  unfold lt3 in *; cbn [fst snd] in *; simplify_eq; eauto;
  rewrite ?triple_eq_iff in *; try lia.

Lemma ltb_irrefl x : Float.ltb x x = false.
Proof. by_key. Qed.

Lemma ltb_asym x y : Float.ltb x y = true -> Float.ltb y x = false.
Proof. intros; by_key. Qed.

Lemma ltb_trans x y z :
  Float.ltb x y = true -> Float.ltb y z = true -> Float.ltb x z = true.
Proof. intros; by_key. Qed.

Lemma leb_ltb_trans x y z :
  Float.leb x y = true -> Float.ltb y z = true -> Float.ltb x z = true.
Proof. intros; by_key. Qed.

Lemma ltb_leb x y : Float.ltb x y = true -> Float.leb x y = true.
Proof. intros; by_key. Qed.

Lemma leb_refl x : Float.is_nan x = false -> Float.leb x x = true.
Proof. intros; by_key. Qed.

Lemma eqb_refl x : Float.is_nan x = false -> Float.eqb x x = true.
Proof. intros; by_key. Qed.

Lemma leb_not_nan x y :
  Float.leb x y = true -> Float.is_nan x = false /\ Float.is_nan y = false.
Proof. intros; split; by_key. Qed.

Lemma not_ltb_leb x y :
  Float.is_nan x = false -> Float.is_nan y = false ->
  Float.ltb x y = false -> Float.leb y x = true.
Proof. intros; by_key. Qed.

Lemma leb_antisym_eqb x y :
  Float.leb x y = true -> Float.ltb x y = false -> Float.eqb y x = true.
Proof. intros; by_key. Qed.

End FloatOrder.

(** ** Rounding never yields NaN, and stays finite below the overflow
    threshold *)

Module FloatRound.

Lemma digits2_pos_bounds (p : positive) :
  2 ^ (Zpos (digits2_pos p) - 1) <= Zpos p < 2 ^ Zpos (digits2_pos p).
Proof.
  induction p as [p IH|p IH|]; simpl digits2_pos.
  - rewrite Pos2Z.inj_succ, Z.pow_succ_r by lia.
    replace (Z.succ (Zpos (digits2_pos p)) - 1)
      with (Z.succ (Zpos (digits2_pos p) - 1)) by lia.
    rewrite Z.pow_succ_r by lia. lia.
  - rewrite Pos2Z.inj_succ, Z.pow_succ_r by lia.
    replace (Z.succ (Zpos (digits2_pos p)) - 1)
      with (Z.succ (Zpos (digits2_pos p) - 1)) by lia.
    rewrite Z.pow_succ_r by lia. lia.
  - simpl. lia.
Qed.

Lemma digits2_pos_le (p : positive) (k : Z) :
  0 <= k -> Zpos p < 2 ^ k -> Zpos (digits2_pos p) <= k.
Proof.
  intros Hk Hp.
  destruct (Z_le_gt_dec (Zpos (digits2_pos p)) k) as [|Hgt]; [assumption|].
  pose proof (digits2_pos_bounds p) as [Hlo _].
  assert (2 ^ k <= 2 ^ (Zpos (digits2_pos p) - 1))
    by (apply Z.pow_le_mono_r; lia).
  lia.
Qed.

Lemma Zdigits2_nonneg (m : Z) : 0 <= Zdigits2 m.
Proof. destruct m; simpl; lia. Qed.

Lemma Zdigits2_mul (a b : positive) :
  Zdigits2 (Zpos (a * b)) <= Zpos (digits2_pos a) + Zpos (digits2_pos b).
Proof.
  simpl. apply digits2_pos_le; [lia|].
  rewrite Z.pow_add_r by lia.
  pose proof (digits2_pos_bounds a) as [_ Ha].
  pose proof (digits2_pos_bounds b) as [_ Hb].
  rewrite Pos2Z.inj_mul. nia.
Qed.

Lemma Zdigits2_succ (m : Z) : 0 <= m -> Zdigits2 (m + 1) <= Zdigits2 m + 1.
Proof.
  intros Hm. destruct m as [|p|p]; [simpl; lia| |lia].
  change (Zpos p + 1) with (Zpos (p + 1)). rewrite Pos.add_1_r. simpl.
  induction p as [p IH|p IH|]; simpl in *; lia.
Qed.

Lemma shr_1_small D r : small D (shr_m r) -> small D (shr_m (shr_1 r)).
Proof.
  unfold small. destruct r as [m r s]; destruct m as [|[p|p|]|[p|p|]];
    simpl; lia.
Qed.

Lemma iter_pos_invariant {A} (P : A -> Prop) (f : A -> A) :
  (forall x, P x -> P (f x)) -> forall n x, P x -> P (SpecFloat.iter_pos f n x).
Proof.
  intros Hf. induction n as [n IH|n IH|]; intros x Hx; simpl; auto.
Qed.

Lemma shr_small D r e n : small D (shr_m r) -> small D (shr_m (shr r e n).1).
Proof.
  intros Hr. destruct n as [|p|p]; simpl; try assumption.
  apply (iter_pos_invariant (fun r => small D (shr_m r))); [|assumption].
  apply shr_1_small.
Qed.

Lemma shr_exponent r e n : (shr r e n).2 = Z.max e (e + n).
Proof. destruct n; simpl; lia. Qed.

Lemma shr_m_of_loc m l : shr_m (shr_record_of_loc m l) = m.
Proof. destruct l as [|[]]; reflexivity. Qed.

Lemma shr_fexp_small D m e l :
  small D m -> small D (shr_m (shr_fexp prec emax m e l).1).
Proof.
  intros Hm. unfold shr_fexp. apply shr_small. rewrite shr_m_of_loc. exact Hm.
Qed.

Lemma shr_fexp_exponent D m e l :
  small D m ->
  (shr_fexp prec emax m e l).2 <= Z.max e (Z.max (D + e - 53) (-1074)).
Proof.
  intros [_ Hm]. unfold shr_fexp. rewrite shr_exponent.
  unfold fexp, SpecFloat.emin, prec, emax. lia.
Qed.

Lemma round_nearest_even_small D m l :
  small D m -> small (D + 1) (round_nearest_even m l).
Proof.
  intros [Hm HD]. pose proof (Zdigits2_succ m Hm). unfold small.
  destruct l as [|[]]; simpl; [lia| |lia|lia].
  destruct (Z.even m); lia.
Qed.

Lemma binary_round_aux_not_nan sx mx ex lx :
  0 <= mx -> Float.is_nan (binary_round_aux prec emax sx mx ex lx) = false.
Proof.
  intros Hm. unfold binary_round_aux.
  pose proof (shr_fexp_small (Zdigits2 mx) mx ex lx (conj Hm (Z.le_refl _))) as H1.
  destruct (shr_fexp prec emax mx ex lx) as [mrs' e'] eqn:E1. simpl in H1.
  pose proof (round_nearest_even_small _ _ (loc_of_shr_record mrs') H1) as H2.
  pose proof (shr_fexp_small _ _ e' loc_Exact H2) as H3.
  destruct (shr_fexp prec emax _ e' loc_Exact) as [mrs'' e''] eqn:E2. simpl in H3.
  destruct H3 as [H3 _]. destruct (shr_m mrs''); [reflexivity| |lia].
  destruct (e'' <=? emax - prec); reflexivity.
Qed.

(** A mantissa of at most [D] digits at an exponent well below the top
    rounds to zero or to a finite number. *)
Lemma binary_round_aux_finite D sx mx ex lx :
  small D mx -> 0 <= D <= 1000 -> 2 * D + ex <= 900 ->
  Float.is_finite (binary_round_aux prec emax sx mx ex lx) = true.
Proof.
  intros Hm HD Hex. unfold binary_round_aux.
  pose proof (shr_fexp_small D mx ex lx Hm) as H1.
  pose proof (shr_fexp_exponent D mx ex lx Hm) as X1.
  destruct (shr_fexp prec emax mx ex lx) as [mrs' e'] eqn:E1. simpl in H1, X1.
  pose proof (round_nearest_even_small _ _ (loc_of_shr_record mrs') H1) as H2.
  pose proof (shr_fexp_small _ _ e' loc_Exact H2) as H3.
  pose proof (shr_fexp_exponent _ _ e' loc_Exact H2) as X3.
  destruct (shr_fexp prec emax _ e' loc_Exact) as [mrs'' e''] eqn:E2.
  simpl in H3, X3. destruct H3 as [H3 _].
  destruct (shr_m mrs''); [reflexivity| |lia].
  replace (e'' <=? emax - prec) with true; [reflexivity|].
  symmetry. apply Z.leb_le. unfold emax, prec. lia.
Qed.

End FloatRound.

(** ** Arithmetic on finite operands *)

Module FloatArith.

Import FloatOrder FloatRound.

Lemma within_finite E x : within E x = true -> Float.is_finite x = true.
Proof. destruct x; simpl; congruence. Qed.

Lemma finite_not_nan x : Float.is_finite x = true -> Float.is_nan x = false.
Proof. destruct x; simpl; congruence. Qed.

Lemma within_mono E E' x : E <= E' -> within E x = true -> within E' x = true.
Proof.
  intros HE. destruct x as [| | |s m e]; simpl; try congruence.
  rewrite !andb_true_iff, !Z.leb_le. lia.
Qed.

Lemma mul_not_nan x y :
  Float.is_finite x = true -> Float.is_finite y = true ->
  Float.is_nan (Float.mul x y) = false.
Proof.
  destruct x as [| | |sx mx ex], y as [| | |sy my ey]; simpl; try congruence.
  intros _ _. apply binary_round_aux_not_nan. lia.
Qed.

Lemma mul_within E1 E2 x y :
  within E1 x = true -> within E2 y = true -> E1 + E2 <= 600 ->
  Float.is_finite (Float.mul x y) = true.
Proof.
  destruct x as [| | |sx mx ex], y as [| | |sy my ey]; simpl; try congruence.
  rewrite !andb_true_iff, !Z.leb_le. intros [Hx Hex] [Hy Hey] HE.
  apply (binary_round_aux_finite 106); [|lia|lia].
  split; [lia|]. pose proof (Zdigits2_mul mx my). lia.
Qed.

Lemma binary_normalize_not_nan m e :
  Float.is_nan (binary_normalize prec emax m e false) = false.
Proof.
  destruct m as [|p|p]; simpl; [reflexivity| |];
    unfold binary_round;
    destruct (shl_align _ _ _) as [mz ez];
    apply binary_round_aux_not_nan; lia.
Qed.

Lemma add_not_nan x y :
  Float.is_finite x = true -> Float.is_nan y = false ->
  Float.is_nan (Float.add x y) = false.
Proof.
  destruct x as [[]| | |sx mx ex], y as [[]|[]| |sy my ey]; simpl; try congruence.
  intros _ _. apply binary_normalize_not_nan.
Qed.

Lemma add_not_nan_l x y :
  Float.is_nan x = false -> Float.is_finite y = true ->
  Float.is_nan (Float.add x y) = false.
Proof.
  destruct x as [[]|[]| |sx mx ex], y as [[]| | |sy my ey]; simpl; try congruence.
  intros _ _. apply binary_normalize_not_nan.
Qed.

Lemma div_eucl_nonneg a b q r :
  0 <= a -> 0 < b -> Z.div_eucl a b = (q, r) -> 0 <= q.
Proof.
  intros Ha Hb H.
  assert (q = a / b) as -> by (unfold Z.div; rewrite H; reflexivity).
  apply Z.div_pos; lia.
Qed.

Lemma div_not_nan x s m e :
  Float.is_nan x = false ->
  Float.is_nan (Float.div x (S754_finite s m e)) = false.
Proof.
  destruct x as [sx|sx| |sx mx ex]; simpl; try congruence. intros _.
  unfold SFdiv_core_binary.
  set (m' := match _ - _ - _ with Z0 => _ | Zpos _ => _ | Zneg _ => _ end).
  assert (0 <= m') as Hm'.
  { subst m'. destruct (_ - _ - _) eqn:E; try lia. apply Z.shiftl_nonneg. lia. }
  destruct (Z.div_eucl m' (Zpos m)) as [q r] eqn:Eq.
  apply binary_round_aux_not_nan. eapply div_eucl_nonneg; [exact Hm'| |exact Eq]. lia.
Qed.

(** A valid float that passed a range check between a negative and a
    positive bound is zero or finite, with exponent at most that of the
    bounds. *)
Lemma in_range_within E x ml el mh eh :
  Float.valid x = true -> Float.is_nan x = false ->
  Float.ltb x (S754_finite true ml el) = false ->
  Float.gtb x (S754_finite false mh eh) = false ->
  el <= E -> eh <= E ->
  within E x = true.
Proof.
  intros Hv Hn Hlo Hhi Hel Heh. unfold Float.gtb in Hhi.
  destruct x as [sx|[]| |[] m e]; try reflexivity; try discriminate;
    simpl in Hv; unfold bounded, canonical_mantissa, fexp, SpecFloat.emin in Hv;
    apply andb_true_iff in Hv as [Hc _]; apply Z.eqb_eq in Hc;
    simpl; apply andb_true_iff; rewrite !Z.leb_le;
    unfold prec, emax in Hc.
  - apply not_true_iff_false in Hlo. rewrite ltb_iff in Hlo.
    unfold lt3 in Hlo; simpl in Hlo. lia.
  - apply not_true_iff_false in Hhi. rewrite ltb_iff in Hhi.
    unfold lt3 in Hhi; simpl in Hhi. lia.
Qed.

(** The same between zero and a positive bound: negative numbers fail the
    check. *)
Lemma in_range_nonneg E x mh eh :
  Float.valid x = true -> Float.is_nan x = false ->
  Float.ltb x (S754_zero false) = false ->
  Float.gtb x (S754_finite false mh eh) = false ->
  eh <= E ->
  within E x = true /\ (forall s m e, x = S754_finite s m e -> s = false).
Proof.
  intros Hv Hn Hlo Hhi Heh. unfold Float.gtb in Hhi.
  destruct x as [sx|[]| |[] m e]; try discriminate;
    try (split; [reflexivity | intros; discriminate]).
  split; [|intros; congruence].
  simpl in Hv; unfold bounded, canonical_mantissa, fexp, SpecFloat.emin in Hv.
  apply andb_true_iff in Hv as [Hc _]; apply Z.eqb_eq in Hc.
  simpl; apply andb_true_iff; rewrite !Z.leb_le. unfold prec, emax in Hc.
  apply not_true_iff_false in Hhi. rewrite ltb_iff in Hhi.
  unfold lt3 in Hhi; simpl in Hhi. lia.
Qed.

Lemma round_half_even_bounds a d N :
  0 < d -> 0 <= a <= N * d ->
  0 <= Float.round_half_even a d <= N.
Proof.
  intros Hd Ha. unfold Float.round_half_even. cbv zeta.
  pose proof (Z.div_mod a d ltac:(lia)) as Hdm.
  pose proof (Z.mod_pos_bound a d Hd) as Hr.
  assert (0 <= a / d) by (apply Z.div_pos; lia).
  assert (a / d <= N) by (apply Z.div_le_upper_bound; lia).
  destruct (Z.eq_dec (a / d) N) as [Hq|Hq].
  - assert (a mod d = 0) as Hz by nia.
    rewrite Hz.
    assert ((2 * 0 ?= d) = Lt) as -> by (apply Z.compare_lt_iff; lia). lia.
  - destruct (2 * (a mod d) ?= d); [destruct (Z.even (a / d))| |]; lia.
Qed.

(** [round(x)] of a valid float that passed the check against [[0, 100]]. *)
Lemma py_round_percent x n :
  Float.valid x = true ->
  Float.ltb x (Float.of_Z 0) = false ->
  Float.gtb x (Float.of_Z 100) = false ->
  py_round x = Ok n ->
  0 <= n <= 100.
Proof.
  intros Hv Hlo Hhi Hr.
  assert (Float.is_nan x = false) as Hn by (destruct x; simpl in *; congruence).
  change (Float.of_Z 0) with (S754_zero false) in Hlo.
  change (Float.of_Z 100) with (S754_finite false 7036874417766400 (-46)) in Hhi.
  destruct (in_range_nonneg (-46) x _ _ Hv Hn Hlo Hhi ltac:(lia)) as [Hw Hs].
  destruct x as [sx| | |s m e]; simpl in Hr; simplify_eq; [lia|].
  pose proof (Hs _ _ _ eq_refl) as ->. simpl cond_Zopp.
  simpl in Hw. apply andb_true_iff in Hw as [Hd He].
  apply Z.leb_le in Hd, He.
  destruct e as [|p|p]; try lia. simpl Float.nearest_integer.
  apply round_half_even_bounds; [apply Z.pow_pos_nonneg; lia|].
  split; [lia|].
  pose proof (digits2_pos_bounds m) as [_ Hm].
  assert (2 ^ Zpos (digits2_pos m) <= 2 ^ 53) by (apply Z.pow_le_mono_r; lia).
  destruct (Z.eq_dec (Zpos p) 46) as [Hp|Hp].
  - rewrite Hp. unfold Float.gtb in Hhi.
    apply not_true_iff_false in Hhi. rewrite ltb_iff in Hhi.
    unfold lt3 in Hhi; simpl in Hhi.
    assert (p = 46%positive) as -> by lia.
    change (2 ^ 46) with 70368744177664. lia.
  - assert (2 ^ 47 <= 2 ^ Zpos p) by (apply Z.pow_le_mono_r; lia).
    change (2 ^ 53) with (64 * 2 ^ 47) in *. lia.
Qed.

End FloatArith.

(** ** The error monad *)

Lemma bind_Ok_inv {A B} (m : result A) (f : A -> result B) (b : B) :
  m ≫= f = Ok b -> exists a, m = Ok a /\ f a = Ok b.
Proof. destruct m as [a|e]; [eauto | discriminate]. Qed.

Lemma Ok_inj {A} (a b : A) : Ok a = Ok b -> a = b.
Proof. congruence. Qed.

Lemma bind_Ok {A B} (a : A) (f : A -> result B) : Ok a ≫= f = f a.
Proof. reflexivity. Qed.

Lemma bind_Raise {A B} (e : exn) (f : A -> result B) : Raise e ≫= f = Raise e.
Proof. reflexivity. Qed.

Lemma mapM_Ok_Forall2 {A B} (f : A -> result B) (xs : list A) (ys : list B) :
  mapM f xs = Ok ys -> Forall2 (fun x y => f x = Ok y) xs ys.
Proof.
  revert ys. induction xs as [|x xs IH]; intros ys H; simpl in H.
  - injection H as <-. constructor.
  - apply bind_Ok_inv in H as (y & Hy & H).
    apply bind_Ok_inv in H as (ys' & Hys & H).
    injection H as <-. constructor; auto.
Qed.

Lemma imax_max a b : imax a b = Z.max a b.
Proof. unfold imax, py_max. destruct (Z.gtb_spec b a); lia. Qed.

Lemma imin_min a b : imin a b = Z.min a b.
Proof. unfold imin, py_min. destruct (Z.ltb_spec b a); lia. Qed.

(** ** The derivations from humidity, for each of the 101 values *)

Lemma humidity_checks :
  forallb
    (fun h =>
       match float_of_int h, float_of_int (h - 50) with
       | Ok f, Ok _ =>
           match py_round (Float.mul (Float.div f (Float.of_Z 100)) (Float.of_Z 8)) with
           | Ok c => imax 0 (imin 8 c) =? okta_of_humidity h
           | Raise _ => false
           end
       | _, _ => false
       end)
    (seqZ 0 101) = true.
Proof. vm_compute. reflexivity. Qed.

Lemma humidity_derivations (h : Z) :
  0 <= h <= 100 ->
  exists f g c,
    float_of_int h = Ok f /\
    float_of_int (h - 50) = Ok g /\
    py_round (Float.mul (Float.div f (Float.of_Z 100)) (Float.of_Z 8)) = Ok c /\
    imax 0 (imin 8 c) = okta_of_humidity h.
Proof.
  intros Hh. pose proof humidity_checks as H.
  rewrite forallb_forall in H. specialize (H h).
  destruct (float_of_int h) as [f|]; [|discriminate H; apply list_elem_of_In, elem_of_seqZ; lia].
  destruct (float_of_int (h - 50)) as [g|]; [|discriminate H; apply list_elem_of_In, elem_of_seqZ; lia].
  destruct (py_round _) as [c|] eqn:Hc; [|discriminate H; apply list_elem_of_In, elem_of_seqZ; lia].
  exists f, g, c. split; [reflexivity|]. split; [reflexivity|]. split; [exact Hc|].
  apply Z.eqb_eq, H, list_elem_of_In, elem_of_seqZ. lia.
Qed.

Lemma okta_of_humidity_range (h : Z) : 0 <= okta_of_humidity h <= 8.
Proof. unfold okta_of_humidity. lia. Qed.

(** ** The reference runtime *)

Lemma Runtime_float_valid (s : string) (x : float) :
  Runtime.float_of_string s = Some x -> Float.valid x = true.
Proof.
  unfold Runtime.float_of_string.
  destruct (match s with "nan" => _ | _ => _ end) as [y|]; [|discriminate].
  destruct (Float.valid y) eqn:Hy; [|discriminate].
  intros H. injection H as <-. exact Hy.
Qed.

(** ** [app.py]: parsing and inference *)

Section AppProps.

Variable py_float : string -> option float.
Variable fromisoformat : string -> option date.
Variable today_iso : string.

(** [float()] returns binary64 numbers. *)
Hypothesis py_float_valid :
  forall s x, py_float s = Some x -> Float.valid x = true.

Abbreviation parse_float_in_range := (_parse_float_in_range py_float).
Abbreviation parse_int_in_range := (_parse_int_in_range py_float).
Abbreviation parse_date := (_parse_date fromisoformat).
Abbreviation infer := (_infer_missing_features py_float fromisoformat today_iso).

Lemma parse_float_in_range_inv name value lo hi x :
  parse_float_in_range name value lo hi = Ok x ->
  py_float value = Some x /\
  Float.ltb x (Float.of_Z lo) = false /\ Float.gtb x (Float.of_Z hi) = false.
Proof.
  unfold _parse_float_in_range, _parse_float. intros H.
  destruct (py_float value) as [y|]; [|discriminate].
  rewrite bind_Ok in H.
  destruct (Float.ltb y (Float.of_Z lo)) eqn:Hlo; [discriminate|].
  destruct (Float.gtb y (Float.of_Z hi)) eqn:Hhi; [discriminate|].
  simpl in H. simplify_eq. auto.
Qed.

Lemma parse_float_above_range name value lo hi x :
  py_float value = Some x -> Float.gtb x (Float.of_Z hi) = true ->
  parse_float_in_range name value lo hi
  = Raise (CustomException (OutOfRange name x lo hi) None None None).
Proof.
  intros Hx Hhi. unfold _parse_float_in_range, _parse_float.
  rewrite Hx, bind_Ok, Hhi, orb_true_r. reflexivity.
Qed.

Lemma parse_int_in_range_inv name value lo hi n :
  parse_int_in_range name value lo hi = Ok n ->
  exists x, parse_float_in_range name value lo hi = Ok x /\ py_round x = Ok n.
Proof. unfold _parse_int_in_range. apply bind_Ok_inv. Qed.

(** A percentage that parses is an integer of [[0, 100]]. *)
Lemma parse_percent name value n :
  parse_int_in_range name value 0 100 = Ok n -> 0 <= n <= 100.
Proof.
  intros H. apply parse_int_in_range_inv in H as (x & Hx & Hn).
  apply parse_float_in_range_inv in Hx as (Hp & Hlo & Hhi).
  eapply FloatArith.py_round_percent; eauto.
Qed.

(** Invert a successful run of the inference, one bind at a time. *)
Ltac invert_infer H :=
  let date := fresh "date" in
  let min_temp := fresh "min_temp" in
  let max_temp := fresh "max_temp" in
  let hum_3pm := fresh "hum_3pm" in
  let spd_3pm := fresh "spd_3pm" in
  let rainfall := fresh "rainfall" in
  let hum_f := fresh "hum_f" in
  let cloud := fresh "cloud" in
  let hum_off := fresh "hum_off" in
  let sw := fresh "sw" in
  let rain_enc := fresh "rain_enc" in
  let Hdate := fresh "Hdate" in
  let Hmin := fresh "Hmin" in
  let Hmax := fresh "Hmax" in
  let Hhum := fresh "Hhum" in
  let Hspd := fresh "Hspd" in
  let Hrain := fresh "Hrain" in
  let Hhum_f := fresh "Hhum_f" in
  let Hcloud := fresh "Hcloud" in
  let Hhum_off := fresh "Hhum_off" in
  let Hsw := fresh "Hsw" in
  let Hrain_enc := fresh "Hrain_enc" in
  unfold _infer_missing_features in H; cbv zeta in H;
  apply bind_Ok_inv in H as (date & Hdate & H);
  apply bind_Ok_inv in H as (min_temp & Hmin & H);
  apply bind_Ok_inv in H as (max_temp & Hmax & H);
  apply bind_Ok_inv in H as (hum_3pm & Hhum & H);
  apply bind_Ok_inv in H as (spd_3pm & Hspd & H);
  apply bind_Ok_inv in H as (rainfall & Hrain & H);
  apply bind_Ok_inv in H as (hum_f & Hhum_f & H);
  apply bind_Ok_inv in H as (cloud & Hcloud & H);
  apply bind_Ok_inv in H as (hum_off & Hhum_off & H);
  apply bind_Ok_inv in H as (sw & Hsw & H);
  apply bind_Ok_inv in H as (rain_enc & Hrain_enc & H);
  apply Ok_inj in H; subst.

(** C3. The rainfall that passed validation decides [RainToday]: the code
    is 1 exactly when it is greater than 0.2 and 0 otherwise; a rainfall
    equal to 0.2 gives code 0. *)
Theorem C3_rain_today_threshold (form : gmap string string) (vals : gmap string value) :
  infer form = Ok vals ->
  exists rainfall code,
    parse_float_in_range "Rainfall" (dict_get form "Rainfall" "0.0") 0 200 = Ok rainfall /\
    vals !! "Rainfall" = Some (VFloat rainfall) /\
    vals !! "RainToday" = Some (VInt code) /\
    (code = 1 <-> Float.gtb rainfall (Float.decimal 2 1) = true) /\
    (code = 0 <-> Float.gtb rainfall (Float.decimal 2 1) = false) /\
    (Float.eqb rainfall (Float.decimal 2 1) = true -> code = 0).
Proof.
  intros H. invert_infer H. exists rainfall, rain_enc.
  split; [exact Hrain|]. split; [reflexivity|]. split; [reflexivity|].
  assert (rain_enc = if Float.gtb rainfall (Float.decimal 2 1) then 1 else 0) as ->.
  { destruct (Float.gtb rainfall (Float.decimal 2 1));
      vm_compute in Hrain_enc; congruence. }
  destruct (Float.gtb rainfall (Float.decimal 2 1)) eqn:Hgt.
  - split; [tauto|]. split; [split; discriminate|].
    intros Heq. unfold Float.gtb in Hgt. exfalso.
    revert Hgt Heq. generalize (Float.decimal 2 1). intros c Hgt Heq.
    FloatOrder.by_key.
  - split; [split; discriminate|]. tauto.
Qed.

(** C8. The inferred feature set carries the parsed 3pm humidity in both
    humidity fields. *)
Theorem C8_humidity9am_copies_humidity3pm (form : gmap string string) (vals : gmap string value) :
  infer form = Ok vals ->
  exists h,
    parse_int_in_range "Humidity3pm" (dict_get form "Humidity3pm" "55") 0 100 = Ok h /\
    vals !! "Humidity3pm" = Some (VInt h) /\
    vals !! "Humidity9am" = Some (VInt h).
Proof.
  intros H. invert_infer H. exists hum_3pm.
  split; [exact Hhum|]. split; reflexivity.
Qed.

(** C5. The cloud fields: for every humidity of [[0, 100]] the expression
    of the code gives [round(h / 100 * 8)] clamped to [[0, 8]]; in every
    inferred feature set the humidity is the one parsed from the form (or
    from the default) and lies in [[0, 100]], [Cloud3pm] is that value of
    it, [Cloud9am] is the same, and both lie in [[0, 8]]. *)
Theorem C5_cloud_from_humidity :
  (forall h, 0 <= h <= 100 ->
     exists f c,
       float_of_int h = Ok f /\
       py_round (Float.mul (Float.div f (Float.of_Z 100)) (Float.of_Z 8)) = Ok c /\
       imax 0 (imin 8 c) = okta_of_humidity h) /\
  (forall (form : gmap string string) (vals : gmap string value),
     infer form = Ok vals ->
     exists h c,
       parse_int_in_range "Humidity3pm" (dict_get form "Humidity3pm" "55") 0 100 = Ok h /\
       vals !! "Humidity3pm" = Some (VInt h) /\ 0 <= h <= 100 /\
       vals !! "Cloud3pm" = Some (VInt c) /\
       vals !! "Cloud9am" = Some (VInt c) /\
       c = okta_of_humidity h /\ 0 <= c <= 8).
Proof.
  split.
  - intros h Hh. destruct (humidity_derivations h Hh) as (f & g & c & Hf & _ & Hc & Ho).
    eauto.
  - intros form vals H. invert_infer H.
    pose proof (parse_percent _ _ _ Hhum) as Hh.
    destruct (humidity_derivations hum_3pm Hh) as (f & g & c & Hf & _ & Hc & Ho).
    rewrite Hf in Hhum_f. injection Hhum_f as <-.
    rewrite Hc in Hcloud. injection Hcloud as <-.
    exists hum_3pm, (imax 0 (imin 8 c)).
    split; [exact Hhum|].
    split; [reflexivity|]. split; [exact Hh|].
    split; [reflexivity|]. split; [reflexivity|].
    split; [exact Ho|]. rewrite Ho. apply okta_of_humidity_range.
Qed.

(** C6, as the code has it. In every inferred feature set the 3pm wind
    speed [w] is the one parsed from the form (or from the default) and
    lies in [[0, 100]]; the gust speed is
    [min(150, max(w + 20, w))], which is [w + 20] and at most 120, so the
    cap of 150 is never reached; the 9am wind speed is [max(0, w - 3)],
    never negative.  A supplied wind speed above 100 yields no feature set. *)
Theorem C6_wind_speeds :
  (forall (form : gmap string string) (vals : gmap string value),
     infer form = Ok vals ->
     exists w,
       parse_int_in_range "WindSpeed3pm" (dict_get form "WindSpeed3pm" "20") 0 100 = Ok w /\
       vals !! "WindSpeed3pm" = Some (VInt w) /\ 0 <= w <= 100 /\
       vals !! "WindGustSpeed" = Some (VInt (Z.min 150 (Z.max (w + 20) w))) /\
       Z.min 150 (Z.max (w + 20) w) = w + 20 /\ w + 20 <= 120 /\
       vals !! "WindSpeed9am" = Some (VInt (Z.max 0 (w - 3))) /\
       0 <= Z.max 0 (w - 3)) /\
  (forall (form : gmap string string) (s : string) (x : float),
     form !! "WindSpeed3pm" = Some s -> py_float s = Some x ->
     Float.gtb x (Float.of_Z 100) = true ->
     forall vals, infer form <> Ok vals).
Proof.
  split.
  - intros form vals H. invert_infer H.
    pose proof (parse_percent _ _ _ Hspd) as Hw.
    exists spd_3pm. split; [exact Hspd|]. split; [reflexivity|]. split; [exact Hw|].
    split; [rewrite <- imin_min, <- imax_max; reflexivity|].
    split; [lia|]. split; [lia|].
    split; [rewrite <- imax_max; reflexivity|]. lia.
  - intros form s x Hs Hx Hgt vals H. invert_infer H.
    unfold _parse_int_in_range in Hspd.
    unfold dict_get in Hspd. rewrite Hs in Hspd. simpl default in Hspd.
    rewrite (parse_float_above_range _ _ _ _ _ Hx) in Hspd; [discriminate|].
    exact Hgt.
Qed.

(** *** Clamping with [min] and [max] *)

Lemma fmin_fmax_clamp (lo hi x : float) :
  Float.leb lo hi = true -> Float.is_nan x = false ->
  Float.eqb (fmin hi (fmax lo x)) (clamp lo hi x) = true /\
  Float.leb lo (fmin hi (fmax lo x)) = true /\
  Float.leb (fmin hi (fmax lo x)) hi = true.
Proof.
  intros Hle Hx. unfold fmin, fmax, py_min, py_max, clamp, Float.gtb.
  destruct (Float.ltb lo x) eqn:H1.
  - destruct (Float.ltb x hi) eqn:H2.
    + assert (Float.ltb x lo = false) as -> by (clear H2 Hle; FloatOrder.by_key).
      assert (Float.ltb hi x = false) as -> by (clear H1 Hle; FloatOrder.by_key).
      repeat split; FloatOrder.by_key.
    + assert (Float.ltb x lo = false) as -> by (clear H2 Hle; FloatOrder.by_key).
      destruct (Float.ltb hi x) eqn:H3; repeat split; FloatOrder.by_key.
  - destruct (Float.ltb lo hi) eqn:H2.
    + destruct (Float.ltb x lo) eqn:H3.
      * repeat split; FloatOrder.by_key.
      * assert (Float.ltb hi x = false) as -> by FloatOrder.by_key.
        repeat split; FloatOrder.by_key.
    + destruct (Float.ltb x lo) eqn:H3.
      * repeat split; FloatOrder.by_key.
      * assert (Float.ltb hi x = false) as -> by FloatOrder.by_key.
        repeat split; FloatOrder.by_key.
Qed.

Lemma fmax_fmin_clamp (lo hi x : float) :
  Float.leb lo hi = true -> Float.is_nan x = false ->
  Float.eqb (fmax lo (fmin hi x)) (clamp lo hi x) = true /\
  Float.leb lo (fmax lo (fmin hi x)) = true /\
  Float.leb (fmax lo (fmin hi x)) hi = true.
Proof.
  intros Hle Hx. unfold fmin, fmax, py_min, py_max, clamp, Float.gtb.
  destruct (Float.ltb x hi) eqn:H1.
  - destruct (Float.ltb lo x) eqn:H2.
    + assert (Float.ltb x lo = false) as -> by (clear H1 Hle; FloatOrder.by_key).
      assert (Float.ltb hi x = false) as -> by (clear H2 Hle; FloatOrder.by_key).
      repeat split; FloatOrder.by_key.
    + assert (Float.ltb hi x = false) as -> by (clear H2 Hle; FloatOrder.by_key).
      destruct (Float.ltb x lo) eqn:H3; repeat split; FloatOrder.by_key.
  - destruct (Float.ltb lo hi) eqn:H2.
    + destruct (Float.ltb x lo) eqn:H3.
      * exfalso. FloatOrder.by_key.
      * destruct (Float.ltb hi x) eqn:H4; repeat split; FloatOrder.by_key.
    + destruct (Float.ltb x lo) eqn:H3.
      * exfalso. FloatOrder.by_key.
      * destruct (Float.ltb hi x) eqn:H4; repeat split; FloatOrder.by_key.
Qed.

(** With the bounds the wrong way round the outer operation decides. *)
Lemma fmin_fmax_inverted (lo hi x : float) :
  Float.gtb lo hi = true -> fmin hi (fmax lo x) = hi.
Proof.
  intros Hgt. unfold fmin, fmax, py_min, py_max, Float.gtb in *.
  destruct (Float.ltb lo x) eqn:H1.
  - assert (Float.ltb x hi = false) as -> by FloatOrder.by_key. reflexivity.
  - assert (Float.ltb lo hi = false) as -> by (clear H1; FloatOrder.by_key). reflexivity.
Qed.

Lemma fmax_fmin_inverted (lo hi x : float) :
  Float.gtb lo hi = true -> fmax lo (fmin hi x) = lo.
Proof.
  intros Hgt. unfold fmin, fmax, py_min, py_max, Float.gtb in *.
  destruct (Float.ltb x hi) eqn:H1.
  - assert (Float.ltb lo x = false) as -> by FloatOrder.by_key. reflexivity.
  - assert (Float.ltb lo hi = false) as -> by (clear H1; FloatOrder.by_key). reflexivity.
Qed.

(** *** The temperature expressions are numbers *)

Lemma validated_temperature (x : float) (hi : Z) :
  hi = 45 \/ hi = 50 ->
  Float.valid x = true -> Float.is_nan x = false ->
  Float.ltb x (Float.of_Z (-10)) = false ->
  Float.gtb x (Float.of_Z hi) = false ->
  Float.within (-47) x = true.
Proof.
  intros [-> | ->] Hv Hn Hlo Hhi.
  - apply (FloatArith.in_range_within (-47) x 5629499534213120 (-49)
             6333186975989760 (-47)); auto; lia.
  - apply (FloatArith.in_range_within (-47) x 5629499534213120 (-49)
             7036874417766400 (-47)); auto; lia.
Qed.

Lemma div_by_finite_not_nan (x y : float) :
  Float.is_nan x = false ->
  match y with S754_finite _ _ _ => True | _ => False end ->
  Float.is_nan (Float.div x y) = false.
Proof.
  intros Hx Hy. destruct y as [| | |s m e]; try contradiction.
  apply FloatArith.div_not_nan. exact Hx.
Qed.

Lemma temp3pm_expression_not_nan (mn mx : float) :
  Float.within (-47) mn = true -> Float.within (-47) mx = true ->
  Float.is_nan
    (Float.div (Float.add mn (Float.mul (Float.decimal 7 1) mx)) (Float.decimal 17 1))
  = false.
Proof.
  intros Hmn Hmx. apply div_by_finite_not_nan; [|exact I].
  apply FloatArith.add_not_nan; [eapply FloatArith.within_finite; eauto|].
  apply FloatArith.mul_not_nan; [reflexivity|eapply FloatArith.within_finite; eauto].
Qed.

Lemma temp9am_expression_not_nan (mn mx : float) :
  Float.within (-47) mn = true -> Float.within (-47) mx = true ->
  Float.is_nan
    (Float.add (Float.mul (Float.decimal 6 1) mn) (Float.mul (Float.decimal 4 1) mx))
  = false.
Proof.
  intros Hmn Hmx.
  apply FloatArith.add_not_nan.
  - apply (FloatArith.mul_within (-53) (-47)); [reflexivity|exact Hmn|lia].
  - apply FloatArith.finite_not_nan.
    apply (FloatArith.mul_within (-53) (-47)); [reflexivity|exact Hmx|lia].
Qed.

(** C4. In every inferred feature set [MinTemp] and [MaxTemp] are the two
    temperatures parsed from the form (or from the defaults); when the
    minimum is at most the maximum, [Temp3pm] equals
    [(min + 0.7 * max) / 1.7] clamped into [[min, max]], [Temp9am] equals
    [0.6 * min + 0.4 * max] clamped into [[min, max]], and both lie in
    [[min, max]].  Equality is that of floats ([==]). *)
Theorem C4_temperatures_clamped (form : gmap string string) (vals : gmap string value) :
  infer form = Ok vals ->
  exists mn mx t3 t9,
    parse_float_in_range "MinTemp" (dict_get form "MinTemp" "13.0") (-10) 45 = Ok mn /\
    parse_float_in_range "MaxTemp" (dict_get form "MaxTemp" "23.0") (-10) 50 = Ok mx /\
    vals !! "MinTemp" = Some (VFloat mn) /\
    vals !! "MaxTemp" = Some (VFloat mx) /\
    vals !! "Temp3pm" = Some (VFloat t3) /\
    vals !! "Temp9am" = Some (VFloat t9) /\
    (Float.leb mn mx = true ->
     Float.eqb t3
       (clamp mn mx
          (Float.div (Float.add mn (Float.mul (Float.decimal 7 1) mx))
             (Float.decimal 17 1))) = true /\
     Float.eqb t9
       (clamp mn mx
          (Float.add (Float.mul (Float.decimal 6 1) mn)
             (Float.mul (Float.decimal 4 1) mx))) = true /\
     Float.leb mn t3 = true /\ Float.leb t3 mx = true /\
     Float.leb mn t9 = true /\ Float.leb t9 mx = true).
Proof.
  intros H. invert_infer H.
  eexists min_temp, max_temp, _, _.
  split; [exact Hmin|]. split; [exact Hmax|].
  split; [reflexivity|]. split; [reflexivity|].
  split; [reflexivity|]. split; [reflexivity|].
  intros Hle.
  destruct (FloatOrder.leb_not_nan _ _ Hle) as [Hnmin Hnmax].
  apply parse_float_in_range_inv in Hmin as (Hpmin & Hlomin & Himin).
  apply parse_float_in_range_inv in Hmax as (Hpmax & Hlomax & Himax).
  assert (Float.within (-47) min_temp = true) as Wmin
    by (apply (validated_temperature _ 45); eauto).
  assert (Float.within (-47) max_temp = true) as Wmax
    by (apply (validated_temperature _ 50); eauto).
  pose proof (temp3pm_expression_not_nan _ _ Wmin Wmax) as N3.
  pose proof (temp9am_expression_not_nan _ _ Wmin Wmax) as N9.
  destruct (fmin_fmax_clamp _ _ _ Hle N3) as (E3 & L3 & U3).
  destruct (fmax_fmin_clamp _ _ _ Hle N9) as (E9 & L9 & U9).
  auto 10.
Qed.

(** *** Validated inputs always give a feature set *)

Lemma infer_complete (form : gmap string string)
    (d : date) (mn mx : float) (h w : Z) (r : float) :
  parse_date (dict_get form "Date" today_iso) = Ok d ->
  parse_float_in_range "MinTemp" (dict_get form "MinTemp" "13.0") (-10) 45 = Ok mn ->
  parse_float_in_range "MaxTemp" (dict_get form "MaxTemp" "23.0") (-10) 50 = Ok mx ->
  parse_int_in_range "Humidity3pm" (dict_get form "Humidity3pm" "55") 0 100 = Ok h ->
  parse_int_in_range "WindSpeed3pm" (dict_get form "WindSpeed3pm" "20") 0 100 = Ok w ->
  parse_float_in_range "Rainfall" (dict_get form "Rainfall" "0.0") 0 200 = Ok r ->
  exists vals, infer form = Ok vals.
Proof.
  intros Hd Hmn Hmx Hh Hw Hr.
  pose proof (parse_percent _ _ _ Hh) as Hrange.
  destruct (humidity_derivations h Hrange) as (f & g & c & Hf & Hg & Hc & _).
  assert (parse_date (dict_get form "Date" (DEFAULTS today_iso !!! "Date")) = Ok d)
    as Hd' by exact Hd.
  assert (parse_float_in_range "MinTemp"
            (dict_get form "MinTemp" (DEFAULTS today_iso !!! "MinTemp"))
            (r_min (RANGES !!! "MinTemp")) (r_max (RANGES !!! "MinTemp")) = Ok mn)
    as Hmn' by exact Hmn.
  assert (parse_float_in_range "MaxTemp"
            (dict_get form "MaxTemp" (DEFAULTS today_iso !!! "MaxTemp"))
            (r_min (RANGES !!! "MaxTemp")) (r_max (RANGES !!! "MaxTemp")) = Ok mx)
    as Hmx' by exact Hmx.
  assert (parse_int_in_range "Humidity3pm"
            (dict_get form "Humidity3pm" (DEFAULTS today_iso !!! "Humidity3pm"))
            (r_min (RANGES !!! "Humidity3pm")) (r_max (RANGES !!! "Humidity3pm")) = Ok h)
    as Hh' by exact Hh.
  assert (parse_int_in_range "WindSpeed3pm"
            (dict_get form "WindSpeed3pm" (DEFAULTS today_iso !!! "WindSpeed3pm"))
            (r_min (RANGES !!! "WindSpeed3pm")) (r_max (RANGES !!! "WindSpeed3pm")) = Ok w)
    as Hw' by exact Hw.
  assert (parse_float_in_range "Rainfall"
            (dict_get form "Rainfall" (DEFAULTS today_iso !!! "Rainfall"))
            (r_min (RANGES !!! "Rainfall")) (r_max (RANGES !!! "Rainfall")) = Ok r)
    as Hr' by exact Hr.
  unfold _infer_missing_features. cbv zeta.
  rewrite Hd', bind_Ok, Hmn', bind_Ok, Hmx', bind_Ok, Hh', bind_Ok, Hw', bind_Ok,
    Hr', bind_Ok, Hf, bind_Ok, Hc, bind_Ok, Hg, bind_Ok.
  change (dict_item WIND_DIR_MAP "SW") with (@Ok Z 10). rewrite bind_Ok.
  destruct (Float.gtb r (Float.decimal 2 1)).
  - change (dict_item YES_NO_MAP "Yes") with (@Ok Z 1). rewrite bind_Ok. eauto.
  - change (dict_item YES_NO_MAP "No") with (@Ok Z 0). rewrite bind_Ok. eauto.
Qed.

(** C9. No check relates the two temperatures: validated inputs whose
    minimum is greater than the maximum still give a feature set, in which
    [Temp3pm] is the maximum and [Temp9am] is the minimum. *)
Theorem C9_inverted_temperatures (form : gmap string string)
    (d : date) (mn mx : float) (h w : Z) (r : float) :
  parse_date (dict_get form "Date" today_iso) = Ok d ->
  parse_float_in_range "MinTemp" (dict_get form "MinTemp" "13.0") (-10) 45 = Ok mn ->
  parse_float_in_range "MaxTemp" (dict_get form "MaxTemp" "23.0") (-10) 50 = Ok mx ->
  parse_int_in_range "Humidity3pm" (dict_get form "Humidity3pm" "55") 0 100 = Ok h ->
  parse_int_in_range "WindSpeed3pm" (dict_get form "WindSpeed3pm" "20") 0 100 = Ok w ->
  parse_float_in_range "Rainfall" (dict_get form "Rainfall" "0.0") 0 200 = Ok r ->
  Float.gtb mn mx = true ->
  exists vals,
    infer form = Ok vals /\
    vals !! "MinTemp" = Some (VFloat mn) /\
    vals !! "MaxTemp" = Some (VFloat mx) /\
    vals !! "Temp3pm" = Some (VFloat mx) /\
    vals !! "Temp9am" = Some (VFloat mn).
Proof.
  intros Hd Hmn Hmx Hh Hw Hr Hgt.
  destruct (infer_complete form d mn mx h w r Hd Hmn Hmx Hh Hw Hr) as [vals H].
  exists vals. split; [exact H|].
  invert_infer H.
  pose proof (Ok_inj _ _ (eq_trans (eq_sym Hmn) Hmin)) as <-.
  pose proof (Ok_inj _ _ (eq_trans (eq_sym Hmx) Hmax)) as <-.
  split; [reflexivity|]. split; [reflexivity|].
  split.
  - transitivity
      (Some (VFloat
         (fmin mx
            (fmax mn
               (Float.div (Float.add mn (Float.mul (Float.decimal 7 1) mx))
                  (Float.decimal 17 1)))))); [reflexivity|].
    rewrite (fmin_fmax_inverted mn mx _ Hgt). reflexivity.
  - transitivity
      (Some (VFloat
         (fmax mn
            (fmin mx
               (Float.add (Float.mul (Float.decimal 6 1) mn)
                  (Float.mul (Float.decimal 4 1) mx)))))); [reflexivity|].
    rewrite (fmax_fmin_inverted mn mx _ Hgt). reflexivity.
Qed.

(** *** The feature row *)

Lemma dict_item_Ok {V} (d : gmap string V) (k : string) (v : V) :
  dict_item d k = Ok v -> d !! k = Some v.
Proof. unfold dict_item. destruct (d !! k); congruence. Qed.

(** C2, as the code has it. The row has 24 entries, one per field of the
    schema and in its order: entry [i] is the float of the dictionary value
    stored under the [i]-th field; an inferred feature set holds every one
    of the 24 fields. *)
Theorem C2_feature_row_order :
  map key_of_field SCHEMA_ORDER = FEATURE_KEYS /\
  length SCHEMA_ORDER = 24%nat /\
  (forall (vals : gmap string value) (rows : list (list float)),
     _build_feature_vector_from_inferred vals = Ok rows ->
     exists row,
       rows = [row] /\ length row = 24%nat /\
       forall (i : nat) (field : string),
         SCHEMA_ORDER !! i = Some field ->
         exists v x,
           vals !! key_of_field field = Some v /\
           value_to_float v = Ok x /\ row !! i = Some x) /\
  (forall (form : gmap string string) (vals : gmap string value),
     infer form = Ok vals ->
     forall field, field ∈ SCHEMA_ORDER -> is_Some (vals !! key_of_field field)).
Proof.
  split; [reflexivity|]. split; [reflexivity|]. split.
  - intros vals rows H. unfold _build_feature_vector_from_inferred in H.
    apply bind_Ok_inv in H as (ordered & Hord & H).
    apply mapM_Ok_Forall2 in Hord.
    apply mapM_Ok_Forall2 in H.
    inversion H as [|? row ? rest Hrow Hrest]; subst.
    inversion Hrest; subst.
    apply mapM_Ok_Forall2 in Hrow.
    exists row. split; [reflexivity|].
    pose proof (Forall2_length _ _ _ Hord) as L1.
    pose proof (Forall2_length _ _ _ Hrow) as L2.
    split; [rewrite <- L2, <- L1; reflexivity|].
    intros i field Hi.
    assert (FEATURE_KEYS !! i = Some (key_of_field field)) as Hk.
    { change FEATURE_KEYS with (key_of_field <$> SCHEMA_ORDER).
      rewrite list_lookup_fmap, Hi. reflexivity. }
    destruct (Forall2_lookup_l _ _ _ _ _ Hord Hk) as (v & Hv & Hitem).
    destruct (Forall2_lookup_l _ _ _ _ _ Hrow Hv) as (x & Hx & Hconv).
    exists v, x. split; [apply dict_item_Ok; exact Hitem|]. split; assumption.
  - intros form vals H. invert_infer H.
    apply Forall_forall.
    repeat (constructor; [eexists; reflexivity|]). constructor.
Qed.

(** *** Defaults, and the value ["nan"] *)

Lemma parse_float_in_range_Ok name value lo hi x :
  py_float value = Some x ->
  Float.ltb x (Float.of_Z lo) = false -> Float.gtb x (Float.of_Z hi) = false ->
  parse_float_in_range name value lo hi = Ok x.
Proof.
  intros Hx Hlo Hhi. unfold _parse_float_in_range, _parse_float.
  rewrite Hx, bind_Ok, Hlo, Hhi. reflexivity.
Qed.

Lemma parse_int_in_range_Ok name value lo hi x n :
  py_float value = Some x ->
  Float.ltb x (Float.of_Z lo) = false -> Float.gtb x (Float.of_Z hi) = false ->
  py_round x = Ok n ->
  parse_int_in_range name value lo hi = Ok n.
Proof.
  intros Hx Hlo Hhi Hn. unfold _parse_int_in_range.
  rewrite (parse_float_in_range_Ok _ _ _ _ _ Hx Hlo Hhi), bind_Ok. exact Hn.
Qed.

Lemma parse_date_Ok value d : fromisoformat value = Some d -> parse_date value = Ok d.
Proof. intros H. unfold _parse_date. rewrite H. reflexivity. Qed.

(** The first three inputs being fine, an error of the humidity is the
    error of the whole inference. *)
Lemma infer_raises_at_humidity (form : gmap string string)
    (d : date) (mn mx : float) (e : exn) :
  parse_date (dict_get form "Date" today_iso) = Ok d ->
  parse_float_in_range "MinTemp" (dict_get form "MinTemp" "13.0") (-10) 45 = Ok mn ->
  parse_float_in_range "MaxTemp" (dict_get form "MaxTemp" "23.0") (-10) 50 = Ok mx ->
  parse_int_in_range "Humidity3pm" (dict_get form "Humidity3pm" "55") 0 100 = Raise e ->
  infer form = Raise e.
Proof.
  intros Hd Hmn Hmx Hh.
  assert (parse_date (dict_get form "Date" (DEFAULTS today_iso !!! "Date")) = Ok d)
    as Hd' by exact Hd.
  assert (parse_float_in_range "MinTemp"
            (dict_get form "MinTemp" (DEFAULTS today_iso !!! "MinTemp"))
            (r_min (RANGES !!! "MinTemp")) (r_max (RANGES !!! "MinTemp")) = Ok mn)
    as Hmn' by exact Hmn.
  assert (parse_float_in_range "MaxTemp"
            (dict_get form "MaxTemp" (DEFAULTS today_iso !!! "MaxTemp"))
            (r_min (RANGES !!! "MaxTemp")) (r_max (RANGES !!! "MaxTemp")) = Ok mx)
    as Hmx' by exact Hmx.
  assert (parse_int_in_range "Humidity3pm"
            (dict_get form "Humidity3pm" (DEFAULTS today_iso !!! "Humidity3pm"))
            (r_min (RANGES !!! "Humidity3pm")) (r_max (RANGES !!! "Humidity3pm"))
          = Raise e)
    as Hh' by exact Hh.
  unfold _infer_missing_features. cbv zeta.
  rewrite Hd', bind_Ok, Hmn', bind_Ok, Hmx', bind_Ok, Hh', bind_Raise. reflexivity.
Qed.

(** C10, at the inputs that decide it. With the defaults read as Python
    reads them, the empty form gives the feature set of the defaults; but
    ["nan"] for [MinTemp] passes the range check and reaches the feature
    set, and ["nan"] for [Humidity3pm] ends in an error that is not a
    [CustomException]. *)
Theorem C10_nan_is_not_rejected (d : date) :
  fromisoformat today_iso = Some d ->
  py_float "13.0" = Some (Float.of_Z 13) ->
  py_float "23.0" = Some (Float.of_Z 23) ->
  py_float "55" = Some (Float.of_Z 55) ->
  py_float "20" = Some (Float.of_Z 20) ->
  py_float "0.0" = Some (S754_zero false) ->
  py_float "nan" = Some S754_nan ->
  (exists vals,
     infer ∅ = Ok vals /\
     vals !! "Location" = LOCATION_MAP !! "Sydney" ≫= (fun c => Some (VInt c)) /\
     vals !! "MinTemp" = Some (VFloat (Float.of_Z 13)) /\
     vals !! "MaxTemp" = Some (VFloat (Float.of_Z 23)) /\
     vals !! "Humidity3pm" = Some (VInt 55) /\
     vals !! "WindSpeed3pm" = Some (VInt 20) /\
     vals !! "Rainfall" = Some (VFloat (S754_zero false)) /\
     vals !! "Year" = Some (VInt (year d)) /\
     vals !! "Month" = Some (VInt (month d)) /\
     vals !! "Day" = Some (VInt (day d))) /\
  (exists vals,
     infer {[ "MinTemp" := "nan" ]} = Ok vals /\
     vals !! "MinTemp" = Some (VFloat S754_nan)) /\
  (exists e,
     infer {[ "Humidity3pm" := "nan" ]} = Raise e /\ is_custom e = false).
Proof.
  intros Hd H13 H23 H55 H20 H0 Hnan.
  assert (forall form, form !! "Date" = None ->
            parse_date (dict_get form "Date" today_iso) = Ok d) as Pd.
  { intros form Hf. unfold dict_get. rewrite Hf. apply parse_date_Ok, Hd. }
  assert (forall form, form !! "MinTemp" = None ->
            parse_float_in_range "MinTemp" (dict_get form "MinTemp" "13.0") (-10) 45
            = Ok (Float.of_Z 13)) as Pmn.
  { intros form Hf. unfold dict_get. rewrite Hf.
    apply parse_float_in_range_Ok; [exact H13|reflexivity|reflexivity]. }
  assert (forall form, form !! "MaxTemp" = None ->
            parse_float_in_range "MaxTemp" (dict_get form "MaxTemp" "23.0") (-10) 50
            = Ok (Float.of_Z 23)) as Pmx.
  { intros form Hf. unfold dict_get. rewrite Hf.
    apply parse_float_in_range_Ok; [exact H23|reflexivity|reflexivity]. }
  assert (forall form, form !! "Humidity3pm" = None ->
            parse_int_in_range "Humidity3pm" (dict_get form "Humidity3pm" "55") 0 100
            = Ok 55) as Ph.
  { intros form Hf. unfold dict_get. rewrite Hf.
    eapply parse_int_in_range_Ok; [exact H55|reflexivity|reflexivity|reflexivity]. }
  assert (forall form, form !! "WindSpeed3pm" = None ->
            parse_int_in_range "WindSpeed3pm" (dict_get form "WindSpeed3pm" "20") 0 100
            = Ok 20) as Pw.
  { intros form Hf. unfold dict_get. rewrite Hf.
    eapply parse_int_in_range_Ok; [exact H20|reflexivity|reflexivity|reflexivity]. }
  assert (forall form, form !! "Rainfall" = None ->
            parse_float_in_range "Rainfall" (dict_get form "Rainfall" "0.0") 0 200
            = Ok (S754_zero false)) as Pr.
  { intros form Hf. unfold dict_get. rewrite Hf.
    apply parse_float_in_range_Ok; [exact H0|reflexivity|reflexivity]. }
  assert (forall k, (∅ : gmap string string) !! k = None) as E0
    by apply lookup_empty.
  assert (forall k, k <> "MinTemp" ->
            ({[ "MinTemp" := "nan" ]} : gmap string string) !! k = None) as E1
    by (intros; apply lookup_singleton_ne; congruence).
  assert (forall k, k <> "Humidity3pm" ->
            ({[ "Humidity3pm" := "nan" ]} : gmap string string) !! k = None) as E2
    by (intros; apply lookup_singleton_ne; congruence).
  split; [|split].
  - destruct (infer_complete ∅ d _ _ _ _ _
                (Pd ∅ (E0 _)) (Pmn ∅ (E0 _)) (Pmx ∅ (E0 _))
                (Ph ∅ (E0 _)) (Pw ∅ (E0 _)) (Pr ∅ (E0 _))) as [vals H].
    exists vals. split; [exact H|]. invert_infer H.
    pose proof (Ok_inj _ _ (eq_trans (eq_sym (Pd ∅ (E0 _))) Hdate)) as <-.
    pose proof (Ok_inj _ _ (eq_trans (eq_sym (Pmn ∅ (E0 _))) Hmin)) as <-.
    pose proof (Ok_inj _ _ (eq_trans (eq_sym (Pmx ∅ (E0 _))) Hmax)) as <-.
    pose proof (Ok_inj _ _ (eq_trans (eq_sym (Ph ∅ (E0 _))) Hhum)) as <-.
    pose proof (Ok_inj _ _ (eq_trans (eq_sym (Pw ∅ (E0 _))) Hspd)) as <-.
    pose proof (Ok_inj _ _ (eq_trans (eq_sym (Pr ∅ (E0 _))) Hrain)) as <-.
    repeat (split; [reflexivity|]). reflexivity.
  - assert (parse_float_in_range "MinTemp"
              (dict_get {[ "MinTemp" := "nan" ]} "MinTemp" "13.0") (-10) 45
            = Ok S754_nan) as Pnan.
    { unfold dict_get. rewrite lookup_singleton_eq.
      apply parse_float_in_range_Ok; [exact Hnan|reflexivity|reflexivity]. }
    destruct (infer_complete {[ "MinTemp" := "nan" ]} d _ _ _ _ _
                (Pd _ (E1 "Date" ltac:(discriminate))) Pnan
                (Pmx _ (E1 "MaxTemp" ltac:(discriminate)))
                (Ph _ (E1 "Humidity3pm" ltac:(discriminate)))
                (Pw _ (E1 "WindSpeed3pm" ltac:(discriminate)))
                (Pr _ (E1 "Rainfall" ltac:(discriminate)))) as [vals H].
    exists vals. split; [exact H|]. invert_infer H.
    pose proof (Ok_inj _ _ (eq_trans (eq_sym Pnan) Hmin)) as <-.
    reflexivity.
  - exists (ValueError (Text "cannot convert float NaN to integer")).
    split; [|reflexivity].
    apply (infer_raises_at_humidity _ d (Float.of_Z 13) (Float.of_Z 23));
      [apply Pd, E2; discriminate|apply Pmn, E2; discriminate
      |apply Pmx, E2; discriminate|].
    unfold _parse_int_in_range, dict_get. rewrite lookup_singleton_eq.
    rewrite (parse_float_in_range_Ok _ _ _ _ S754_nan); [reflexivity|exact Hnan| |];
      reflexivity.
Qed.

End AppProps.

(** ** The theorems at concrete inputs, with the reference runtime *)

(** Run the reference runtime on a form and keep the feature set. *)
Ltac run_infer form vals E :=
  let Hrun := fresh "Hrun" in
  assert (match Runtime.infer form with Ok _ => true | Raise _ => false end = true)
    as Hrun by (vm_compute; reflexivity);
  destruct (Runtime.infer form) as [vals|?] eqn:E; [|discriminate Hrun];
  clear Hrun; exists vals; split; [reflexivity|].

Lemma C3_rain_today_threshold_witness :
  exists vals,
    Runtime.infer {[ "Rainfall" := "0.2" ]} = Ok vals /\
    exists rainfall code,
      _parse_float_in_range Runtime.float_of_string "Rainfall"
        (dict_get {[ "Rainfall" := "0.2" ]} "Rainfall" "0.0") 0 200 = Ok rainfall /\
      vals !! "Rainfall" = Some (VFloat rainfall) /\
      vals !! "RainToday" = Some (VInt code) /\
      (code = 1 <-> Float.gtb rainfall (Float.decimal 2 1) = true) /\
      (code = 0 <-> Float.gtb rainfall (Float.decimal 2 1) = false) /\
      (Float.eqb rainfall (Float.decimal 2 1) = true -> code = 0).
Proof.
  run_infer ({[ "Rainfall" := "0.2" ]} : gmap string string) vals E.
  exact (C3_rain_today_threshold Runtime.float_of_string Runtime.date_of_string
           Runtime.today {[ "Rainfall" := "0.2" ]} vals E).
Defined.

Lemma C8_humidity9am_copies_humidity3pm_witness :
  exists vals,
    Runtime.infer {[ "Humidity3pm" := "70" ]} = Ok vals /\
    exists h,
      _parse_int_in_range Runtime.float_of_string "Humidity3pm"
        (dict_get {[ "Humidity3pm" := "70" ]} "Humidity3pm" "55") 0 100 = Ok h /\
      vals !! "Humidity3pm" = Some (VInt h) /\
      vals !! "Humidity9am" = Some (VInt h).
Proof.
  run_infer ({[ "Humidity3pm" := "70" ]} : gmap string string) vals E.
  exact (C8_humidity9am_copies_humidity3pm Runtime.float_of_string
           Runtime.date_of_string Runtime.today {[ "Humidity3pm" := "70" ]} vals E).
Defined.

Lemma C5_cloud_from_humidity_witness :
  (exists f c,
     float_of_int 70 = Ok f /\
     py_round (Float.mul (Float.div f (Float.of_Z 100)) (Float.of_Z 8)) = Ok c /\
     imax 0 (imin 8 c) = okta_of_humidity 70) /\
  exists vals,
    Runtime.infer {[ "Humidity3pm" := "70" ]} = Ok vals /\
    vals !! "Humidity3pm" = Some (VInt 70) /\
    vals !! "Cloud3pm" = Some (VInt 6) /\
    vals !! "Cloud9am" = Some (VInt 6).
Proof.
  pose proof (C5_cloud_from_humidity Runtime.float_of_string Runtime.date_of_string
                Runtime.today Runtime_float_valid) as [Hexpr Hinfer].
  split; [apply Hexpr; lia|].
  run_infer ({[ "Humidity3pm" := "70" ]} : gmap string string) vals E.
  destruct (Hinfer _ vals E) as (h & c & Hparse & Hh & _ & Hc3 & Hc9 & Hokta & _).
  assert (_parse_int_in_range Runtime.float_of_string "Humidity3pm"
            (dict_get {[ "Humidity3pm" := "70" ]} "Humidity3pm" "55") 0 100 = Ok 70)
    as V by (vm_compute; reflexivity).
  rewrite V in Hparse. apply Ok_inj in Hparse. subst h.
  assert (c = 6) as -> by (rewrite Hokta; vm_compute; reflexivity).
  split; [exact Hh|]. split; [exact Hc3|exact Hc9].
Defined.

Lemma C6_wind_speeds_witness :
  (exists vals,
     Runtime.infer {[ "WindSpeed3pm" := "15" ]} = Ok vals /\
     vals !! "WindSpeed3pm" = Some (VInt 15) /\
     vals !! "WindGustSpeed" = Some (VInt 35) /\
     vals !! "WindSpeed9am" = Some (VInt 12)) /\
  (forall vals, Runtime.infer {[ "WindSpeed3pm" := "140" ]} <> Ok vals).
Proof.
  pose proof (C6_wind_speeds Runtime.float_of_string Runtime.date_of_string
                Runtime.today Runtime_float_valid) as [Hinfer Hreject].
  split.
  - run_infer ({[ "WindSpeed3pm" := "15" ]} : gmap string string) vals E.
    destruct (Hinfer _ vals E) as (w & Hparse & Hw & _ & Hgust & _ & _ & H9 & _).
    assert (_parse_int_in_range Runtime.float_of_string "WindSpeed3pm"
              (dict_get {[ "WindSpeed3pm" := "15" ]} "WindSpeed3pm" "20") 0 100 = Ok 15)
      as V by (vm_compute; reflexivity).
    rewrite V in Hparse. apply Ok_inj in Hparse. subst w.
    split; [exact Hw|]. split; [exact Hgust|exact H9].
  - apply (Hreject {[ "WindSpeed3pm" := "140" ]} "140" (Float.of_Z 140));
      vm_compute; reflexivity.
Defined.

Lemma C4_temperatures_clamped_witness :
  exists vals,
    Runtime.infer (<[ "MinTemp" := "10" ]> {[ "MaxTemp" := "18" ]}) = Ok vals /\
    exists t3 t9,
      vals !! "MinTemp" = Some (VFloat (Float.of_Z 10)) /\
      vals !! "MaxTemp" = Some (VFloat (Float.of_Z 18)) /\
      vals !! "Temp3pm" = Some (VFloat t3) /\
      vals !! "Temp9am" = Some (VFloat t9) /\
      Float.eqb t3
        (clamp (Float.of_Z 10) (Float.of_Z 18)
           (Float.div
              (Float.add (Float.of_Z 10) (Float.mul (Float.decimal 7 1) (Float.of_Z 18)))
              (Float.decimal 17 1))) = true /\
      Float.eqb t9
        (clamp (Float.of_Z 10) (Float.of_Z 18)
           (Float.add (Float.mul (Float.decimal 6 1) (Float.of_Z 10))
              (Float.mul (Float.decimal 4 1) (Float.of_Z 18)))) = true /\
      Float.leb (Float.of_Z 10) t3 = true /\ Float.leb t3 (Float.of_Z 18) = true /\
      Float.leb (Float.of_Z 10) t9 = true /\ Float.leb t9 (Float.of_Z 18) = true.
Proof.
  run_infer (<[ "MinTemp" := "10" ]> {[ "MaxTemp" := "18" ]} : gmap string string)
    vals E.
  destruct (C4_temperatures_clamped Runtime.float_of_string Runtime.date_of_string
              Runtime.today Runtime_float_valid _ vals E)
    as (mn & mx & t3 & t9 & Pmn & Pmx & Hmn & Hmx & H3 & H9 & Hclamp).
  assert (_parse_float_in_range Runtime.float_of_string "MinTemp"
            (dict_get (<[ "MinTemp" := "10" ]> {[ "MaxTemp" := "18" ]}) "MinTemp" "13.0")
            (-10) 45 = Ok (Float.of_Z 10)) as Vmn by (vm_compute; reflexivity).
  assert (_parse_float_in_range Runtime.float_of_string "MaxTemp"
            (dict_get (<[ "MinTemp" := "10" ]> {[ "MaxTemp" := "18" ]}) "MaxTemp" "23.0")
            (-10) 50 = Ok (Float.of_Z 18)) as Vmx by (vm_compute; reflexivity).
  rewrite Vmn in Pmn. apply Ok_inj in Pmn. subst mn.
  rewrite Vmx in Pmx. apply Ok_inj in Pmx. subst mx.
  exists t3, t9.
  split; [exact Hmn|]. split; [exact Hmx|]. split; [exact H3|]. split; [exact H9|].
  apply Hclamp. vm_compute. reflexivity.
Defined.

Lemma C9_inverted_temperatures_witness :
  exists vals,
    Runtime.infer (<[ "MinTemp" := "30" ]> {[ "MaxTemp" := "10" ]}) = Ok vals /\
    vals !! "MinTemp" = Some (VFloat (Float.of_Z 30)) /\
    vals !! "MaxTemp" = Some (VFloat (Float.of_Z 10)) /\
    vals !! "Temp3pm" = Some (VFloat (Float.of_Z 10)) /\
    vals !! "Temp9am" = Some (VFloat (Float.of_Z 30)).
Proof.
  apply (C9_inverted_temperatures Runtime.float_of_string Runtime.date_of_string
           Runtime.today Runtime_float_valid
           (<[ "MinTemp" := "30" ]> {[ "MaxTemp" := "10" ]})
           {| year := 2024; month := 7; day := 15 |}
           (Float.of_Z 30) (Float.of_Z 10) 55 20 (S754_zero false));
    vm_compute; reflexivity.
Defined.

Lemma C10_nan_is_not_rejected_witness :
  (exists vals,
     Runtime.infer {[ "MinTemp" := "nan" ]} = Ok vals /\
     vals !! "MinTemp" = Some (VFloat S754_nan)) /\
  (exists e,
     Runtime.infer {[ "Humidity3pm" := "nan" ]} = Raise e /\ is_custom e = false).
Proof.
  apply (C10_nan_is_not_rejected Runtime.float_of_string Runtime.date_of_string
           Runtime.today Runtime_float_valid
           {| year := 2024; month := 7; day := 15 |});
    vm_compute; reflexivity.
Defined.

Lemma C2_feature_row_order_witness :
  exists vals,
    Runtime.infer ∅ = Ok vals /\
    (forall field, field ∈ SCHEMA_ORDER -> is_Some (vals !! key_of_field field)) /\
    exists rows row,
      _build_feature_vector_from_inferred vals = Ok rows /\
      rows = [row] /\ length row = 24%nat /\
      forall (i : nat) (field : string),
        SCHEMA_ORDER !! i = Some field ->
        exists v x,
          vals !! key_of_field field = Some v /\
          value_to_float v = Ok x /\ row !! i = Some x.
Proof.
  pose proof (C2_feature_row_order Runtime.float_of_string Runtime.date_of_string
                Runtime.today) as (_ & _ & Hrow & Hkeys).
  assert (match Runtime.infer ∅ with
          | Ok vals =>
              match _build_feature_vector_from_inferred vals with
              | Ok _ => true
              | Raise _ => false
              end
          | Raise _ => false
          end = true) as Hrun by (vm_compute; reflexivity).
  destruct (Runtime.infer ∅) as [vals|] eqn:E; [|discriminate Hrun].
  exists vals. split; [reflexivity|]. split; [exact (Hkeys _ vals E)|].
  destruct (_build_feature_vector_from_inferred vals) as [rows|] eqn:B;
    [|discriminate Hrun].
  destruct (Hrow vals rows B) as (row & Hrows & Hlen & Hentries).
  exists rows, row. split; [reflexivity|]. split; [exact Hrows|].
  split; [exact Hlen|exact Hentries].
Defined.

(** ** The location vocabulary *)

Lemma location_encodes (i : nat) (name : string) :
  LOCATIONS !! i = Some name -> LOCATION_MAP !! name = Some (Z.of_nat i).
Proof.
  assert (forallb
            (fun p : nat * string =>
               bool_decide (LOCATION_MAP !! p.2 = Some (Z.of_nat p.1)))
            (imap pair LOCATIONS) = true) as check
    by (vm_compute; reflexivity).
  intros H. rewrite forallb_forall in check.
  assert (In (i, name) (imap pair LOCATIONS)) as Hin.
  { apply list_elem_of_In, (list_elem_of_lookup_2 _ i).
    rewrite list_lookup_imap, H. reflexivity. }
  exact (bool_decide_eq_true_1 _ (check (i, name) Hin)).
Qed.

Lemma location_decodes (name : string) (code : Z) :
  LOCATION_MAP !! name = Some code ->
  0 <= code <= 46 /\ LOCATIONS !! Z.to_nat code = Some name.
Proof.
  assert (forallb
            (fun p : string * Z =>
               (0 <=? p.2) && (p.2 <=? 46)
               && bool_decide (LOCATIONS !! Z.to_nat p.2 = Some p.1))
            (map_to_list LOCATION_MAP) = true) as check
    by (vm_compute; reflexivity).
  intros H. rewrite forallb_forall in check.
  pose proof (proj2 (elem_of_map_to_list LOCATION_MAP name code) H) as Hin.
  apply list_elem_of_In in Hin.
  specialize (check (name, code) Hin). cbn [fst snd] in check.
  apply andb_true_iff in check as [check Hdec].
  apply andb_true_iff in check as [Hlo Hhi].
  apply Z.leb_le in Hlo, Hhi. apply bool_decide_eq_true_1 in Hdec.
  split; [split; assumption|exact Hdec].
Qed.

(** C1, as the code has it. The vocabulary has 47 names in strictly
    increasing alphabetical order; a name is encoded by its position, every
    code lies in [[0, 46]] and decodes to the name it encodes, and every
    integer of [[0, 46]] is the code of a name. *)
Theorem C1_location_vocabulary :
  length LOCATIONS = 47%nat /\
  strictly_sorted LOCATIONS = true /\
  (forall (i : nat) (name : string),
     LOCATIONS !! i = Some name -> LOCATION_MAP !! name = Some (Z.of_nat i)) /\
  (forall (name : string) (code : Z),
     LOCATION_MAP !! name = Some code ->
     0 <= code <= 46 /\ LOCATIONS !! Z.to_nat code = Some name) /\
  (forall code : Z,
     0 <= code <= 46 -> exists name, LOCATION_MAP !! name = Some code).
Proof.
  split; [reflexivity|]. split; [vm_compute; reflexivity|].
  split; [exact location_encodes|]. split; [exact location_decodes|].
  intros code Hcode.
  destruct (lookup_lt_is_Some_2 LOCATIONS (Z.to_nat code)) as [name Hname].
  { change (length LOCATIONS) with 47%nat. lia. }
  exists name. rewrite (location_encodes _ _ Hname). f_equal. lia.
Qed.

Lemma C1_location_vocabulary_witness :
  LOCATIONS !! 35%nat = Some "Sydney" /\
  LOCATION_MAP !! "Sydney" = Some 35 /\
  (0 <= 35 <= 46 /\ LOCATIONS !! Z.to_nat 35 = Some "Sydney") /\
  (exists name, LOCATION_MAP !! name = Some 46).
Proof.
  destruct C1_location_vocabulary as (_ & _ & Henc & Hdec & Honto).
  split; [reflexivity|].
  split; [exact (Henc 35%nat "Sydney" eq_refl)|].
  split; [apply Hdec; exact (Henc 35%nat "Sydney" eq_refl)|].
  apply Honto. lia.
Defined.

(** The vocabulary does not have 48 entries, and no name has code 47. *)
Lemma C1_not_48_locations :
  length LOCATIONS <> 48%nat /\
  (forall name : string, LOCATION_MAP !! name <> Some 47).
Proof.
  split; [discriminate|].
  intros name H. apply location_decodes in H. lia.
Qed.

(** ** Counterexamples at concrete inputs *)

(** The row built from the defaults has 24 entries, not 23. *)
Lemma C2_row_length_is_not_23 :
  exists vals row,
    Runtime.infer ∅ = Ok vals /\
    _build_feature_vector_from_inferred vals = Ok [row] /\
    length row = 24%nat /\ length row <> 23%nat.
Proof.
  assert (match Runtime.infer ∅ with
          | Ok vals =>
              match _build_feature_vector_from_inferred vals with
              | Ok [row] => Nat.eqb (length row) 24
              | _ => false
              end
          | Raise _ => false
          end = true) as Hrun by (vm_compute; reflexivity).
  destruct (Runtime.infer ∅) as [vals|] eqn:E; [|discriminate Hrun].
  destruct (_build_feature_vector_from_inferred vals) as [[|row [|]]|] eqn:B;
    try discriminate Hrun.
  apply Nat.eqb_eq in Hrun.
  exists vals, row. split; [reflexivity|]. split; [exact B|].
  split; [exact Hrun|]. rewrite Hrun. discriminate.
Qed.

(** A 3pm wind speed of 140 is rejected by the range check: no feature
    set, hence no gust speed of 150. *)
Lemma C6_wind_speed_140_is_rejected :
  Runtime.infer {[ "WindSpeed3pm" := "140" ]}
  = Raise (CustomException (OutOfRange "WindSpeed3pm" (Float.of_Z 140) 0 100)
             None None None) /\
  ~ (exists vals,
       Runtime.infer {[ "WindSpeed3pm" := "140" ]} = Ok vals /\
       vals !! "WindGustSpeed" = Some (VInt 150)).
Proof.
  assert (Runtime.infer {[ "WindSpeed3pm" := "140" ]}
          = Raise (CustomException (OutOfRange "WindSpeed3pm" (Float.of_Z 140) 0 100)
                     None None None)) as H
    by (vm_compute; reflexivity).
  split; [exact H|].
  intros (vals & Hvals & _). rewrite H in Hvals. discriminate.
Qed.

(** ** [src/data_processing.py]: failures of the pipeline steps *)

Section PipelineProps.

Variable DataFrame : Type.
Variable artefact : Type.
Variable read_csv : string -> result DataFrame.
Variable preprocess_frame : DataFrame -> DataFrame * option exn.
Variable fit_transform : string -> DataFrame -> result DataFrame.
Variable split_target : DataFrame -> result (DataFrame * DataFrame).
Variable train_test_split :
  DataFrame -> DataFrame -> result (artefact * artefact * artefact * artefact).
Variable joblib_dump : artefact -> string -> option exn.

Abbreviation state := (DataProcessing.state DataFrame artefact).
Abbreviation M := (DataProcessing.M DataFrame artefact).
Abbreviation bind := (@DataProcessing.bind DataFrame artefact _ _).
Abbreviation load_data := (DataProcessing.load_data DataFrame artefact read_csv).
Abbreviation preprocess :=
  (DataProcessing.preprocess DataFrame artefact preprocess_frame).
Abbreviation label_encode :=
  (DataProcessing.label_encode DataFrame artefact fit_transform).
Abbreviation split_data :=
  (DataProcessing.split_data DataFrame artefact split_target train_test_split
     joblib_dump).
Abbreviation run :=
  (DataProcessing.run DataFrame artefact read_csv preprocess_frame fit_transform
     split_target train_test_split joblib_dump).
Abbreviation STEPS :=
  (DataProcessing.STEPS DataFrame artefact read_csv preprocess_frame fit_transform
     split_target train_test_split joblib_dump).
Abbreviation TRY_BLOCKS :=
  (DataProcessing.TRY_BLOCKS DataFrame artefact read_csv preprocess_frame fit_transform
     split_target train_test_split joblib_dump).
Abbreviation run_steps := (DataProcessing.run_steps DataFrame artefact).
Abbreviation log := (DataProcessing.log DataFrame artefact).

Lemma bind_Ok_state {A B} (m : M A) (f : A -> M B) (s s1 : state) (a : A) :
  m s = (Ok a, s1) -> DataProcessing.bind DataFrame artefact m f s = f a s1.
Proof. intros H. unfold DataProcessing.bind. rewrite H. reflexivity. Qed.

Lemma bind_Raise_state {A B} (m : M A) (f : A -> M B) (s s1 : state) (e : exn) :
  m s = (Raise e, s1) ->
  DataProcessing.bind DataFrame artefact m f s = (Raise e, s1).
Proof. intros H. unfold DataProcessing.bind. rewrite H. reflexivity. Qed.

Lemma bind_Ok_state_inv {A B} (m : M A) (f : A -> M B) (s s' : state) (b : B) :
  DataProcessing.bind DataFrame artefact m f s = (Ok b, s') ->
  exists a s1, m s = (Ok a, s1) /\ f a s1 = (Ok b, s').
Proof.
  unfold DataProcessing.bind. destruct (m s) as [[a|e] s1]; intros H.
  - eauto.
  - discriminate H.
Qed.

(** What a step's [except] block does with the exception of its body. *)
Lemma wrapped_failure {A} (body : M A) (msg ctx : string) (s s' : state) (e : exn) :
  DataProcessing.try_except DataFrame artefact body
    (fun e =>
       DataProcessing.bind DataFrame artefact
         (DataProcessing.logger DataFrame artefact (DataProcessing.Error msg e))
         (fun _ => DataProcessing.reraise DataFrame artefact ctx e)) s
  = (Raise e, s') ->
  exists orig s0,
    body s = (Raise orig, s0) /\
    e = CustomException (Text ctx) (Some orig) None (Some orig) /\
    s' = (DataProcessing.logger DataFrame artefact (DataProcessing.Error msg orig) s0).2 /\
    log s' = (log s0 ++ [DataProcessing.Error msg orig])%list.
Proof.
  unfold DataProcessing.try_except. destruct (body s) as [[a|orig] s0]; intros H.
  - discriminate H.
  - exists orig, s0. split; [reflexivity|].
    unfold DataProcessing.bind, DataProcessing.logger, DataProcessing.reraise,
      DataProcessing.raise in H.
    injection H as <- <-. repeat split; reflexivity.
Qed.

(** A step that raises: its [try] block raised, and the step raises the
    wrapper of that exception after logging it. *)
Lemma step_failure (i : nat) (step body : M unit) (ctx msg : string)
    (s s' : state) (e : exn) :
  STEPS !! i = Some (step, ctx) ->
  TRY_BLOCKS !! i = Some (body, msg) ->
  step s = (Raise e, s') ->
  exists orig s0,
    body s = (Raise orig, s0) /\
    e = CustomException (Text ctx) (Some orig) None (Some orig) /\
    s' = (DataProcessing.logger DataFrame artefact (DataProcessing.Error msg orig) s0).2 /\
    last (log s') = Some (DataProcessing.Error msg orig).
Proof.
  intros Hi Hb Hstep.
  destruct i as [|[|[|[|i]]]]; try discriminate Hi;
    injection Hi as <- <-; injection Hb as <- <-;
    apply wrapped_failure in Hstep as (orig & s0 & Hbody & -> & Hs' & Hlog);
    exists orig, s0; (split; [exact Hbody|]); (split; [reflexivity|]);
    (split; [exact Hs'|]); rewrite Hlog, last_snoc; reflexivity.
Qed.

(** The steps before step [i] having succeeded, [run] continues with
    step [i]. *)
Lemma run_reaches_step (i : nat) (step : M unit) (ctx : string) (s s_i : state) :
  STEPS !! i = Some (step, ctx) ->
  run_steps (take i STEPS) s = (Ok tt, s_i) ->
  forall e s', step s_i = (Raise e, s') -> run s = (Raise e, s').
Proof.
  intros Hi Hprefix e s' Hstep.
  destruct i as [|[|[|[|i]]]]; try discriminate Hi; injection Hi as <- <-;
    cbn [take DataProcessing.STEPS DataProcessing.run_steps] in Hprefix;
    unfold DataProcessing.run.
  - injection Hprefix as <-. apply bind_Raise_state. exact Hstep.
  - apply bind_Ok_state_inv in Hprefix as ([] & s1 & H1 & Hret).
    injection Hret as <-.
    rewrite (bind_Ok_state _ _ _ _ _ H1). apply bind_Raise_state. exact Hstep.
  - apply bind_Ok_state_inv in Hprefix as ([] & s1 & H1 & Hprefix).
    apply bind_Ok_state_inv in Hprefix as ([] & s2 & H2 & Hret).
    injection Hret as <-.
    rewrite (bind_Ok_state _ _ _ _ _ H1), (bind_Ok_state _ _ _ _ _ H2).
    apply bind_Raise_state. exact Hstep.
  - apply bind_Ok_state_inv in Hprefix as ([] & s1 & H1 & Hprefix).
    apply bind_Ok_state_inv in Hprefix as ([] & s2 & H2 & Hprefix).
    apply bind_Ok_state_inv in Hprefix as ([] & s3 & H3 & Hret).
    injection Hret as <-.
    rewrite (bind_Ok_state _ _ _ _ _ H1), (bind_Ok_state _ _ _ _ _ H2),
      (bind_Ok_state _ _ _ _ _ H3).
    apply bind_Raise_state. exact Hstep.
Qed.

(** C7. When a step of the pipeline fails, the steps before it having
    succeeded, [run] ends with that step's exception in the state the step
    left, so no later step has run.  The [try] block of the step raised an
    exception, the original cause; the exception of the step is the
    [CustomException] built from the step's message that holds that very
    exception as its detail and its context; and the step left the state
    of its [try] block with one record added to the log, the step's error
    record for the original exception. *)
Theorem C7_failing_step_is_wrapped_and_aborts
    (i : nat) (step body : M unit) (ctx msg : string) (s s_i s' : state) (e : exn) :
  STEPS !! i = Some (step, ctx) ->
  TRY_BLOCKS !! i = Some (body, msg) ->
  run_steps (take i STEPS) s = (Ok tt, s_i) ->
  step s_i = (Raise e, s') ->
  run s = (Raise e, s') /\
  exists orig s0,
    body s_i = (Raise orig, s0) /\
    e = CustomException (Text ctx) (Some orig) None (Some orig) /\
    s' = (DataProcessing.logger DataFrame artefact (DataProcessing.Error msg orig) s0).2 /\
    last (log s') = Some (DataProcessing.Error msg orig).
Proof.
  intros Hi Hb Hprefix Hstep. split.
  - exact (run_reaches_step i step ctx s s_i Hi Hprefix e s' Hstep).
  - exact (step_failure i step body ctx msg s_i s' e Hi Hb Hstep).
Qed.

End PipelineProps.

Lemma C7_failing_step_is_wrapped_and_aborts_witness :
  exists s_i s',
    PipelineSample.STEPS !! 1%nat
      = Some (DataProcessing.preprocess (list string) (list string)
                PipelineSample.preprocess_frame, "Failed to preprocess data") /\
    DataProcessing.run_steps (list string) (list string)
      (take 1 PipelineSample.STEPS) PipelineSample.start = (Ok tt, s_i) /\
    DataProcessing.preprocess (list string) (list string)
      PipelineSample.preprocess_frame s_i
    = (Raise (CustomException (Text "Failed to preprocess data")
                (Some (KeyError "Date")) None (Some (KeyError "Date"))), s') /\
    PipelineSample.run PipelineSample.start
    = (Raise (CustomException (Text "Failed to preprocess data")
                (Some (KeyError "Date")) None (Some (KeyError "Date"))), s') /\
    exists s0,
      DataProcessing.preprocess_body (list string) (list string)
        PipelineSample.preprocess_frame s_i = (Raise (KeyError "Date"), s0) /\
      s' = (DataProcessing.logger (list string) (list string)
              (DataProcessing.Error "Error while preprocessing data: %s" (KeyError "Date"))
              s0).2 /\
      last (DataProcessing.log (list string) (list string) s')
      = Some (DataProcessing.Error "Error while preprocessing data: %s" (KeyError "Date")).
Proof.
  eexists. eexists.
  split; [reflexivity|].
  split; [vm_compute; reflexivity|].
  split; [vm_compute; reflexivity|].
  destruct (C7_failing_step_is_wrapped_and_aborts (list string) (list string)
              PipelineSample.read_csv PipelineSample.preprocess_frame
              PipelineSample.fit_transform PipelineSample.split_target
              PipelineSample.train_test_split PipelineSample.joblib_dump
              1%nat _ _ "Failed to preprocess data" _ PipelineSample.start _ _ _
              eq_refl eq_refl
              ltac:(vm_compute; reflexivity) ltac:(vm_compute; reflexivity))
    as (Hrun & orig & s0 & Hbody & He & Hs' & Hlast).
  split; [exact Hrun|].
  injection He as <-.
  exists s0. split; [exact Hbody|]. split; [exact Hs'|exact Hlast].
Defined.

(** * Further properties of the code *)

(** ** [app.py]: outcomes of parsing and inference *)

Section AppOutcomes.

Variable py_float : string -> option float.
Variable fromisoformat : string -> option date.
Variable today_iso : string.

Hypothesis py_float_valid :
  forall s x, py_float s = Some x -> Float.valid x = true.

Abbreviation parse_float_in_range := (_parse_float_in_range py_float).
Abbreviation parse_int_in_range := (_parse_int_in_range py_float).
Abbreviation parse_date := (_parse_date fromisoformat).
Abbreviation infer := (_infer_missing_features py_float fromisoformat today_iso).

(** Put the statements about the six inputs in the words of the function:
    defaults and bounds as lookups in [DEFAULTS] and [RANGES]. *)
Ltac as_in_source :=
  repeat match goal with
    | H : _parse_date _ (dict_get ?f "Date" today_iso) = ?r |- _ =>
        change (_parse_date fromisoformat
                  (dict_get f "Date" (DEFAULTS today_iso !!! "Date")) = r) in H
    | H : _parse_float_in_range _ "MinTemp" (dict_get ?f "MinTemp" "13.0") (-10) 45
          = ?r |- _ =>
        change (_parse_float_in_range py_float "MinTemp"
                  (dict_get f "MinTemp" (DEFAULTS today_iso !!! "MinTemp"))
                  (r_min (RANGES !!! "MinTemp")) (r_max (RANGES !!! "MinTemp")) = r) in H
    | H : _parse_float_in_range _ "MaxTemp" (dict_get ?f "MaxTemp" "23.0") (-10) 50
          = ?r |- _ =>
        change (_parse_float_in_range py_float "MaxTemp"
                  (dict_get f "MaxTemp" (DEFAULTS today_iso !!! "MaxTemp"))
                  (r_min (RANGES !!! "MaxTemp")) (r_max (RANGES !!! "MaxTemp")) = r) in H
    | H : _parse_int_in_range _ "Humidity3pm" (dict_get ?f "Humidity3pm" "55") 0 100
          = ?r |- _ =>
        change (_parse_int_in_range py_float "Humidity3pm"
                  (dict_get f "Humidity3pm" (DEFAULTS today_iso !!! "Humidity3pm"))
                  (r_min (RANGES !!! "Humidity3pm")) (r_max (RANGES !!! "Humidity3pm"))
                = r) in H
    | H : _parse_int_in_range _ "WindSpeed3pm" (dict_get ?f "WindSpeed3pm" "20") 0 100
          = ?r |- _ =>
        change (_parse_int_in_range py_float "WindSpeed3pm"
                  (dict_get f "WindSpeed3pm" (DEFAULTS today_iso !!! "WindSpeed3pm"))
                  (r_min (RANGES !!! "WindSpeed3pm")) (r_max (RANGES !!! "WindSpeed3pm"))
                = r) in H
    | H : _parse_float_in_range _ "Rainfall" (dict_get ?f "Rainfall" "0.0") 0 200
          = ?r |- _ =>
        change (_parse_float_in_range py_float "Rainfall"
                  (dict_get f "Rainfall" (DEFAULTS today_iso !!! "Rainfall"))
                  (r_min (RANGES !!! "Rainfall")) (r_max (RANGES !!! "Rainfall")) = r) in H
    end.

(** X1. The six inputs are examined in the order of the source, and the first
    that fails gives the error of the inference: the inputs after it are not
    looked at. *)
Theorem infer_reports_first_failure (form : gmap string string) (e : exn) :
  (parse_date (dict_get form "Date" today_iso) = Raise e -> infer form = Raise e) /\
  (forall d,
     parse_date (dict_get form "Date" today_iso) = Ok d ->
     (parse_float_in_range "MinTemp" (dict_get form "MinTemp" "13.0") (-10) 45
      = Raise e -> infer form = Raise e) /\
     forall mn,
       parse_float_in_range "MinTemp" (dict_get form "MinTemp" "13.0") (-10) 45
       = Ok mn ->
       (parse_float_in_range "MaxTemp" (dict_get form "MaxTemp" "23.0") (-10) 50
        = Raise e -> infer form = Raise e) /\
       forall mx,
         parse_float_in_range "MaxTemp" (dict_get form "MaxTemp" "23.0") (-10) 50
         = Ok mx ->
         (parse_int_in_range "Humidity3pm" (dict_get form "Humidity3pm" "55") 0 100
          = Raise e -> infer form = Raise e) /\
         forall h,
           parse_int_in_range "Humidity3pm" (dict_get form "Humidity3pm" "55") 0 100
           = Ok h ->
           (parse_int_in_range "WindSpeed3pm" (dict_get form "WindSpeed3pm" "20") 0 100
            = Raise e -> infer form = Raise e) /\
           forall w,
             parse_int_in_range "WindSpeed3pm" (dict_get form "WindSpeed3pm" "20") 0 100
             = Ok w ->
             (parse_float_in_range "Rainfall" (dict_get form "Rainfall" "0.0") 0 200
              = Raise e -> infer form = Raise e)).
Proof.
  split; [|intros d Hd; split; [|intros mn Hmn; split; [|intros mx Hmx; split;
    [|intros h Hh; split; [|intros w Hw]]]]]; intros He; as_in_source;
    unfold _infer_missing_features; cbv zeta.
  - rewrite He, bind_Raise. reflexivity.
  - rewrite Hd, bind_Ok, He, bind_Raise. reflexivity.
  - rewrite Hd, bind_Ok, Hmn, bind_Ok, He, bind_Raise. reflexivity.
  - rewrite Hd, bind_Ok, Hmn, bind_Ok, Hmx, bind_Ok, He, bind_Raise. reflexivity.
  - rewrite Hd, bind_Ok, Hmn, bind_Ok, Hmx, bind_Ok, Hh, bind_Ok, He, bind_Raise.
    reflexivity.
  - rewrite Hd, bind_Ok, Hmn, bind_Ok, Hmx, bind_Ok, Hh, bind_Ok, Hw, bind_Ok, He,
      bind_Raise. reflexivity.
Qed.

(** Invert a successful run of the inference into its eleven steps. *)
Ltac invert_run H :=
  unfold _infer_missing_features in H; cbv zeta in H;
  apply bind_Ok_inv in H as (date & Hdate & H);
  apply bind_Ok_inv in H as (min_temp & Hmin & H);
  apply bind_Ok_inv in H as (max_temp & Hmax & H);
  apply bind_Ok_inv in H as (hum_3pm & Hhum & H);
  apply bind_Ok_inv in H as (spd_3pm & Hspd & H);
  apply bind_Ok_inv in H as (rainfall & Hrain & H);
  apply bind_Ok_inv in H as (hum_f & Hhum_f & H);
  apply bind_Ok_inv in H as (cloud & Hcloud & H);
  apply bind_Ok_inv in H as (hum_off & Hhum_off & H);
  apply bind_Ok_inv in H as (sw & Hsw & H);
  apply bind_Ok_inv in H as (rain_enc & Hrain_enc & H);
  apply Ok_inj in H; subst.

Lemma parse_date_raises_custom value e :
  parse_date value = Raise e -> is_custom e = true.
Proof.
  unfold _parse_date. destruct (fromisoformat value); intros H; [discriminate H|].
  injection H as <-. reflexivity.
Qed.

Lemma parse_float_in_range_raises_custom name value lo hi e :
  parse_float_in_range name value lo hi = Raise e -> is_custom e = true.
Proof.
  unfold _parse_float_in_range, _parse_float.
  destruct (py_float value) as [x|]; intros H.
  - rewrite bind_Ok in H.
    destruct (Float.ltb x (Float.of_Z lo) || Float.gtb x (Float.of_Z hi));
      [|discriminate H].
    injection H as <-. reflexivity.
  - injection H as <-. reflexivity.
Qed.

(** X2. A value that passes the range check is NaN or lies between the bounds:
    the check compares, and NaN compares with nothing. *)
Theorem validated_float_is_nan_or_in_range name value (lo hi : Z) x :
  parse_float_in_range name value lo hi = Ok x ->
  Float.is_nan x = true \/
  (Float.leb (Float.of_Z lo) x = true /\ Float.leb x (Float.of_Z hi) = true).
Proof.
  intros H. apply parse_float_in_range_inv in H as (_ & Hlo & Hhi).
  destruct (Float.is_nan x) eqn:Hn; [left; reflexivity|right].
  unfold Float.gtb in Hhi.
  split; apply FloatOrder.not_ltb_leb; auto;
    apply FloatArith.binary_normalize_not_nan.
Qed.

Lemma parse_percent_raises name value e :
  parse_int_in_range name value 0 100 = Raise e ->
  is_custom e = true \/
  (py_float value = Some S754_nan /\
   e = ValueError (Text "cannot convert float NaN to integer")).
Proof.
  intros H. unfold _parse_int_in_range in H.
  destruct (parse_float_in_range name value 0 100) as [x|e'] eqn:Hx.
  - rewrite bind_Ok in H. right.
    apply parse_float_in_range_inv in Hx as (Hp & Hlo & Hhi).
    destruct x as [s|[]| |s m e0]; cbn [py_round] in H.
    + discriminate H.
    + discriminate Hlo.
    + discriminate Hhi.
    + injection H as <-. auto.
    + discriminate H.
  - rewrite bind_Raise in H. injection H as <-. left.
    exact (parse_float_in_range_raises_custom _ _ _ _ _ Hx).
Qed.

Lemma bind_Raise_inv {A B} (m : result A) (f : A -> result B) (e : exn) :
  m ≫= f = Raise e -> m = Raise e \/ exists a, m = Ok a /\ f a = Raise e.
Proof.
  destruct m as [a|e']; [eauto|].
  intros H. left. rewrite bind_Raise in H. congruence.
Qed.

Lemma Ok_is_not_Raise {A} (a : A) (e : exn) : Ok a = Raise e -> False.
Proof. discriminate. Qed.

(** X3. Parsing a percentage gives an integer of [[0, 100]] or fails; it fails
    with a [CustomException], except for the value NaN, which passes the
    range check and makes [round] raise [ValueError]. *)
Theorem parse_percent_outcomes name value :
  match parse_int_in_range name value 0 100 with
  | Ok n => 0 <= n <= 100
  | Raise e =>
      is_custom e = true \/
      (py_float value = Some S754_nan /\
       e = ValueError (Text "cannot convert float NaN to integer"))
  end.
Proof.
  destruct (parse_int_in_range name value 0 100) as [n|e] eqn:H.
  - exact (parse_percent py_float py_float_valid _ _ _ H).
  - exact (parse_percent_raises _ _ _ H).
Qed.

(** X4. The inference fails only with the application's [CustomException], or
    with the [ValueError] of [round] when the humidity or the wind speed is
    NaN; no other exception leaves it. *)
Theorem infer_failure_kinds (form : gmap string string) (e : exn) :
  infer form = Raise e ->
  is_custom e = true \/
  (e = ValueError (Text "cannot convert float NaN to integer") /\
   (py_float (dict_get form "Humidity3pm" "55") = Some S754_nan \/
    py_float (dict_get form "WindSpeed3pm" "20") = Some S754_nan)).
Proof.
  intros H. unfold _infer_missing_features in H. cbv zeta in H.
  apply bind_Raise_inv in H as [H|(d & Hd & H)];
    [left; exact (parse_date_raises_custom _ _ H)|].
  apply bind_Raise_inv in H as [H|(mn & Hmn & H)];
    [left; exact (parse_float_in_range_raises_custom _ _ _ _ _ H)|].
  apply bind_Raise_inv in H as [H|(mx & Hmx & H)];
    [left; exact (parse_float_in_range_raises_custom _ _ _ _ _ H)|].
  apply bind_Raise_inv in H as [H|(h & Hh & H)].
  { destruct (parse_percent_raises _ _ _ H) as [Hc|[Hnan ->]]; [left; exact Hc|].
    right. split; [reflexivity|]. left. exact Hnan. }
  apply bind_Raise_inv in H as [H|(w & Hw & H)].
  { destruct (parse_percent_raises _ _ _ H) as [Hc|[Hnan ->]]; [left; exact Hc|].
    right. split; [reflexivity|]. right. exact Hnan. }
  apply bind_Raise_inv in H as [H|(r & Hr & H)];
    [left; exact (parse_float_in_range_raises_custom _ _ _ _ _ H)|].
  exfalso.
  pose proof (parse_percent py_float py_float_valid _ _ _ Hh) as Hrange.
  destruct (humidity_derivations h Hrange) as (f & g & c & Hf & Hg & Hc & _).
  rewrite Hf, bind_Ok, Hc, bind_Ok, Hg, bind_Ok in H.
  change (dict_item WIND_DIR_MAP "SW") with (@Ok Z 10) in H. rewrite bind_Ok in H.
  destruct (Float.gtb r (Float.decimal 2 1)).
  - change (dict_item YES_NO_MAP "Yes") with (@Ok Z 1) in H. rewrite bind_Ok in H.
    exact (Ok_is_not_Raise _ _ H).
  - change (dict_item YES_NO_MAP "No") with (@Ok Z 0) in H. rewrite bind_Ok in H.
    exact (Ok_is_not_Raise _ _ H).
Qed.

(** X5. The inference gives a feature set exactly when the date and the five
    numeric inputs, supplied or defaulted, all pass their parsers: nothing
    after the parsing can fail. *)
Theorem infer_succeeds_iff_inputs_parse (form : gmap string string) :
  (exists vals, infer form = Ok vals) <->
  (exists d mn mx h w r,
     parse_date (dict_get form "Date" today_iso) = Ok d /\
     parse_float_in_range "MinTemp" (dict_get form "MinTemp" "13.0") (-10) 45 = Ok mn /\
     parse_float_in_range "MaxTemp" (dict_get form "MaxTemp" "23.0") (-10) 50 = Ok mx /\
     parse_int_in_range "Humidity3pm" (dict_get form "Humidity3pm" "55") 0 100 = Ok h /\
     parse_int_in_range "WindSpeed3pm" (dict_get form "WindSpeed3pm" "20") 0 100 = Ok w /\
     parse_float_in_range "Rainfall" (dict_get form "Rainfall" "0.0") 0 200 = Ok r).
Proof.
  split.
  - intros [vals H]. invert_run H.
    exists date, min_temp, max_temp, hum_3pm, spd_3pm, rainfall.
    repeat split; assumption.
  - intros (d & mn & mx & h & w & r & Hd & Hmn & Hmx & Hh & Hw & Hr).
    exact (infer_complete py_float fromisoformat today_iso py_float_valid
             form d mn mx h w r Hd Hmn Hmx Hh Hw Hr).
Qed.

(** ** The derived fields *)

Lemma season_of_cases (m : Z) :
  _season_of m =
  if (m =? 12) || (m =? 1) || (m =? 2) then "summer"
  else if (3 <=? m) && (m <=? 5) then "autumn"
  else if (6 <=? m) && (m <=? 8) then "winter"
  else "spring".
Proof.
  unfold _season_of.
  repeat case_bool_decide;
    repeat match goal with
      | H : _ |- _ => rewrite !elem_of_cons, elem_of_nil in H
      end;
    repeat match goal with
      | |- context [?a =? ?b] => destruct (Z.eqb_spec a b)
      | |- context [?a <=? ?b] => destruct (Z.leb_spec a b)
      end; cbn [orb andb]; try reflexivity; exfalso; lia.
Qed.

(** X6. The calendar fields are those of the parsed date, and the month alone
    decides the sunshine hours: 9 for December to February, 7 for March to
    May, 5 for June to August and 8 for every other month; the fallback of
    7 hours for an unknown season is never used. *)
Theorem calendar_fields_and_sunshine (form : gmap string string) (vals : gmap string value) :
  infer form = Ok vals ->
  exists d,
    parse_date (dict_get form "Date" today_iso) = Ok d /\
    vals !! "Year" = Some (VInt (year d)) /\
    vals !! "Month" = Some (VInt (month d)) /\
    vals !! "Day" = Some (VInt (day d)) /\
    vals !! "Sunshine" =
      Some (VFloat (Float.of_Z
        (if (month d =? 12) || (month d =? 1) || (month d =? 2) then 9
         else if (3 <=? month d) && (month d <=? 5) then 7
         else if (6 <=? month d) && (month d <=? 8) then 5
         else 8))).
Proof.
  intros H. invert_run H. exists date.
  split; [exact Hdate|]. split; [reflexivity|]. split; [reflexivity|].
  split; [reflexivity|].
  transitivity
    (Some (VFloat (dict_get SUNSHINE_BY_SEASON (_season_of (month date)) (Float.of_Z 7))));
    [reflexivity|].
  rewrite season_of_cases.
  destruct ((month date =? 12) || (month date =? 1) || (month date =? 2));
    [reflexivity|].
  destruct ((3 <=? month date) && (month date <=? 5)); [reflexivity|].
  destruct ((6 <=? month date) && (month date <=? 8)); reflexivity.
Qed.

Lemma prevailing_dir_code (loc : string) :
  exists c,
    WIND_DIR_MAP !! _prevailing_dir_for_location loc = Some c /\
    In c [2; 6; 10; 12; 14] /\
    (PREVAILING_BY_LOCATION !! loc = None -> c = 10).
Proof.
  assert (forallb
            (fun p : string * string =>
               match WIND_DIR_MAP !! p.2 with
               | Some c => bool_decide (c ∈ [2; 6; 10; 12; 14])
               | None => false
               end)
            (map_to_list PREVAILING_BY_LOCATION) = true) as check
    by (vm_compute; reflexivity).
  unfold _prevailing_dir_for_location, dict_get.
  destruct (PREVAILING_BY_LOCATION !! loc) as [dir|] eqn:E; cbn [from_option].
  - change (id dir) with dir. rewrite forallb_forall in check.
    pose proof (proj2 (elem_of_map_to_list PREVAILING_BY_LOCATION loc dir) E) as Hin.
    apply list_elem_of_In in Hin. specialize (check (loc, dir) Hin).
    cbn [fst snd] in check.
    destruct (WIND_DIR_MAP !! dir) as [c|]; [|discriminate check].
    exists c. split; [reflexivity|]. split; [|discriminate].
    apply list_elem_of_In. exact (bool_decide_eq_true_1 _ check).
  - exists 10. split; [reflexivity|]. split; [|reflexivity].
    right. right. left. reflexivity.
Qed.

(** X7. The three wind direction fields carry one code, that of the prevailing
    direction of the location; it is one of NE, SE, SW, W and NW (2, 6, 10,
    12, 14), and SW for a location without a preset.  The fallback to the
    code of SW for an unknown direction is never used. *)
Theorem wind_directions_share_prevailing_code
    (form : gmap string string) (vals : gmap string value) :
  infer form = Ok vals ->
  exists c,
    WIND_DIR_MAP !! _prevailing_dir_for_location (dict_get form "Location" "Sydney")
      = Some c /\
    vals !! "WindDir3pm" = Some (VInt c) /\
    vals !! "WindDir9am" = Some (VInt c) /\
    vals !! "WindGustDir" = Some (VInt c) /\
    In c [2; 6; 10; 12; 14] /\
    (PREVAILING_BY_LOCATION !! dict_get form "Location" "Sydney" = None -> c = 10).
Proof.
  intros H. invert_run H.
  destruct (prevailing_dir_code (dict_get form "Location" "Sydney"))
    as (c & Hc & Hin & Hsw').
  exists c. split; [exact Hc|].
  assert (dict_get WIND_DIR_MAP
            (_prevailing_dir_for_location (dict_get form "Location" "Sydney")) sw = c)
    as Hcode by (unfold dict_get at 1; rewrite Hc; reflexivity).
  split; [|split; [|split; [|split; assumption]]];
    (transitivity
       (Some (VInt (dict_get WIND_DIR_MAP
          (_prevailing_dir_for_location (dict_get form "Location" "Sydney")) sw)));
     [reflexivity | rewrite Hcode; reflexivity]).
Qed.

(** X8. The location field is the position of the location in [LOCATIONS]; a
    location that is not in the list is encoded as 0, the code of the first
    entry; the code always lies in [[0, 46]]. *)
Theorem location_code (form : gmap string string) (vals : gmap string value) :
  infer form = Ok vals ->
  exists c,
    vals !! "Location" = Some (VInt c) /\
    0 <= c <= 46 /\
    (forall i : nat,
       LOCATIONS !! i = Some (dict_get form "Location" "Sydney") -> c = Z.of_nat i) /\
    (~ In (dict_get form "Location" "Sydney") LOCATIONS -> c = 0).
Proof.
  intros H. invert_run H.
  exists (dict_get LOCATION_MAP (dict_get form "Location" "Sydney") 0).
  split; [reflexivity|].
  generalize (dict_get form "Location" "Sydney"). intros loc.
  unfold dict_get.
  destruct (LOCATION_MAP !! loc) as [c|] eqn:E; cbn [from_option].
  - change (id c) with c. destruct (location_decodes loc c E) as [Hc Hi].
    split; [exact Hc|]. split.
    + intros i Hloc. pose proof (location_encodes i loc Hloc) as E'.
      rewrite E in E'. injection E' as ->. reflexivity.
    + intros Hnot. exfalso. apply Hnot.
      apply list_elem_of_In. eapply list_elem_of_lookup_2. exact Hi.
  - split; [lia|]. split; [|reflexivity].
    intros i Hloc. pose proof (location_encodes i loc Hloc) as E'.
    rewrite E in E'. discriminate E'.
Qed.

(** X9. The evaporation is never negative and never NaN, also when a
    temperature is NaN: the comparison of [max] then keeps the zero. *)
Theorem evaporation_not_negative (form : gmap string string) (vals : gmap string value) :
  infer form = Ok vals ->
  exists ev,
    vals !! "Evaporation" = Some (VFloat ev) /\
    Float.is_nan ev = false /\
    Float.leb (S754_zero false) ev = true.
Proof.
  intros H. invert_run H. eexists. split; [reflexivity|].
  generalize
    (Float.add
       (Float.mul (Float.decimal 12 2)
          (dict_get SUNSHINE_BY_SEASON (_season_of (month date)) (Float.of_Z 7)))
       (Float.mul (Float.decimal 3 2) (Float.sub max_temp min_temp))).
  intros y. unfold fmax, py_max, Float.gtb.
  destruct (Float.ltb (S754_zero false) y) eqn:Hy.
  - split; [|apply FloatOrder.ltb_leb; exact Hy].
    destruct y as [| | |]; try reflexivity. discriminate Hy.
  - split; reflexivity.
Qed.

(** *** Humidity, cloud and pressure *)

Lemma pressure_checks :
  forallb
    (fun h =>
       match float_of_int (h - 50) with
       | Ok g =>
           let p := py_round_1 (Float.sub (Float.of_Z 1015)
                                  (Float.mul (Float.decimal 8 2) g)) in
           Float.leb (Float.of_Z 1011) p && Float.leb p (Float.of_Z 1019)
       | Raise _ => false
       end)
    (seqZ 0 101) = true.
Proof. vm_compute. reflexivity. Qed.

Lemma humidity_order_checks :
  forallb
    (fun h1 =>
       forallb
         (fun h2 =>
            match float_of_int (h1 - 50), float_of_int (h2 - 50) with
            | Ok g1, Ok g2 =>
                (okta_of_humidity h1 <=? okta_of_humidity h2) &&
                Float.leb
                  (py_round_1 (Float.sub (Float.of_Z 1015)
                                 (Float.mul (Float.decimal 8 2) g2)))
                  (py_round_1 (Float.sub (Float.of_Z 1015)
                                 (Float.mul (Float.decimal 8 2) g1)))
            | _, _ => false
            end)
         (seqZ h1 (101 - h1)))
    (seqZ 0 101) = true.
Proof. vm_compute. reflexivity. Qed.

(** What an inferred feature set holds for the humidity, the cloud and the
    pressure. *)
Lemma humidity_fields (form : gmap string string) (vals : gmap string value) :
  infer form = Ok vals ->
  exists h c p g,
    parse_int_in_range "Humidity3pm" (dict_get form "Humidity3pm" "55") 0 100 = Ok h /\
    vals !! "Humidity3pm" = Some (VInt h) /\
    vals !! "Cloud3pm" = Some (VInt c) /\
    vals !! "Pressure3pm" = Some (VFloat p) /\
    0 <= h <= 100 /\ c = okta_of_humidity h /\
    float_of_int (h - 50) = Ok g /\
    p = py_round_1 (Float.sub (Float.of_Z 1015) (Float.mul (Float.decimal 8 2) g)).
Proof.
  intros H. invert_run H.
  pose proof (parse_percent py_float py_float_valid _ _ _ Hhum) as Hrange.
  destruct (humidity_derivations hum_3pm Hrange) as (f & g & c' & Hf & Hg & Hc' & Ho).
  rewrite Hf in Hhum_f. apply Ok_inj in Hhum_f. subst hum_f.
  rewrite Hc' in Hcloud. apply Ok_inj in Hcloud. subst cloud.
  exists hum_3pm, (imax 0 (imin 8 c')),
    (py_round_1 (Float.sub (Float.of_Z 1015) (Float.mul (Float.decimal 8 2) hum_off))),
    hum_off.
  split; [exact Hhum|]. split; [reflexivity|]. split; [reflexivity|].
  split; [reflexivity|]. split; [exact Hrange|]. split; [exact Ho|].
  split; [exact Hhum_off|reflexivity].
Qed.

(** X10. The two pressure fields are equal and lie between 1011 and 1019 hPa,
    whatever the humidity. *)
Theorem pressure_fields_equal_and_bounded
    (form : gmap string string) (vals : gmap string value) :
  infer form = Ok vals ->
  exists p,
    vals !! "Pressure3pm" = Some (VFloat p) /\
    vals !! "Pressure9am" = Some (VFloat p) /\
    Float.leb (Float.of_Z 1011) p = true /\
    Float.leb p (Float.of_Z 1019) = true.
Proof.
  intros H. pose proof H as H'. invert_run H'.
  eexists. split; [reflexivity|]. split; [reflexivity|].
  pose proof (parse_percent py_float py_float_valid _ _ _ Hhum) as Hrange.
  pose proof pressure_checks as check. rewrite forallb_forall in check.
  specialize (check hum_3pm). rewrite Hhum_off in check. cbv zeta in check.
  apply andb_true_iff, check, list_elem_of_In, elem_of_seqZ. lia.
Qed.

(** X11. Of two inferred feature sets, the one with the higher humidity has at
    least as much cloud and at most the pressure of the other. *)
Theorem humidity_orders_cloud_and_pressure
    (form1 form2 : gmap string string) (vals1 vals2 : gmap string value) :
  infer form1 = Ok vals1 ->
  infer form2 = Ok vals2 ->
  exists (h1 h2 c1 c2 : Z) (p1 p2 : float),
    parse_int_in_range "Humidity3pm" (dict_get form1 "Humidity3pm" "55") 0 100 = Ok h1 /\
    parse_int_in_range "Humidity3pm" (dict_get form2 "Humidity3pm" "55") 0 100 = Ok h2 /\
    vals1 !! "Cloud3pm" = Some (VInt c1) /\
    vals2 !! "Cloud3pm" = Some (VInt c2) /\
    vals1 !! "Pressure3pm" = Some (VFloat p1) /\
    vals2 !! "Pressure3pm" = Some (VFloat p2) /\
    (h1 <= h2 -> c1 <= c2 /\ Float.leb p2 p1 = true).
Proof.
  intros H1 H2.
  destruct (humidity_fields form1 vals1 H1)
    as (h1 & c1 & p1 & g1 & P1 & _ & C1 & Q1 & R1 & -> & G1 & ->).
  destruct (humidity_fields form2 vals2 H2)
    as (h2 & c2 & p2 & g2 & P2 & _ & C2 & Q2 & R2 & -> & G2 & ->).
  exists h1, h2, (okta_of_humidity h1), (okta_of_humidity h2). eexists. eexists.
  split; [exact P1|]. split; [exact P2|]. split; [exact C1|]. split; [exact C2|].
  split; [exact Q1|]. split; [exact Q2|].
  intros Hle.
  pose proof humidity_order_checks as check. rewrite forallb_forall in check.
  specialize (check h1 ltac:(apply list_elem_of_In, elem_of_seqZ; lia)).
  rewrite forallb_forall in check.
  specialize (check h2 ltac:(apply list_elem_of_In, elem_of_seqZ; lia)).
  rewrite G1, G2 in check. apply andb_true_iff in check as [Hc Hp].
  split; [apply Z.leb_le; exact Hc | exact Hp].
Qed.

End AppOutcomes.

(** ** The outcomes at concrete inputs, with the reference runtime *)

Lemma infer_reports_first_failure_witness :
  Runtime.infer (<[ "MinTemp" := "warm" ]> {[ "Rainfall" := "-1" ]}) =
  Raise (CustomException (NotNumeric "MinTemp") None
           (Some (ValueError (Text "could not convert string to float")))
           (Some (ValueError (Text "could not convert string to float")))).
Proof.
  destruct (infer_reports_first_failure Runtime.float_of_string
              Runtime.date_of_string Runtime.today
              (<[ "MinTemp" := "warm" ]> {[ "Rainfall" := "-1" ]})
              (CustomException (NotNumeric "MinTemp") None
                 (Some (ValueError (Text "could not convert string to float")))
                 (Some (ValueError (Text "could not convert string to float")))))
    as [_ H].
  destruct (H {| year := 2024; month := 7; day := 15 |}) as [Hmin _];
    [vm_compute; reflexivity|].
  apply Hmin. vm_compute. reflexivity.
Defined.

Lemma validated_float_is_nan_or_in_range_witness :
  Float.is_nan (Float.decimal 125 1) = true \/
  (Float.leb (Float.of_Z (-10)) (Float.decimal 125 1) = true /\
   Float.leb (Float.decimal 125 1) (Float.of_Z 45) = true).
Proof.
  apply (validated_float_is_nan_or_in_range Runtime.float_of_string
           "MinTemp" "12.5" (-10) 45).
  vm_compute. reflexivity.
Defined.

Lemma parse_percent_outcomes_witness :
  match _parse_int_in_range Runtime.float_of_string "Humidity3pm" "70" 0 100 with
  | Ok n => 0 <= n <= 100
  | Raise e =>
      is_custom e = true \/
      (Runtime.float_of_string "70" = Some S754_nan /\
       e = ValueError (Text "cannot convert float NaN to integer"))
  end.
Proof.
  exact (parse_percent_outcomes Runtime.float_of_string Runtime_float_valid
           "Humidity3pm" "70").
Defined.

Lemma infer_failure_kinds_witness :
  is_custom (ValueError (Text "cannot convert float NaN to integer")) = true \/
  (ValueError (Text "cannot convert float NaN to integer")
   = ValueError (Text "cannot convert float NaN to integer") /\
   (Runtime.float_of_string (dict_get {[ "WindSpeed3pm" := "nan" ]} "Humidity3pm" "55")
    = Some S754_nan \/
    Runtime.float_of_string (dict_get {[ "WindSpeed3pm" := "nan" ]} "WindSpeed3pm" "20")
    = Some S754_nan)).
Proof.
  apply (infer_failure_kinds Runtime.float_of_string Runtime.date_of_string
           Runtime.today Runtime_float_valid {[ "WindSpeed3pm" := "nan" ]}).
  vm_compute. reflexivity.
Defined.

Lemma infer_succeeds_iff_inputs_parse_witness :
  (exists vals, Runtime.infer {[ "Rainfall" := "3.5" ]} = Ok vals) <->
  (exists d mn mx h w r,
     _parse_date Runtime.date_of_string
       (dict_get {[ "Rainfall" := "3.5" ]} "Date" Runtime.today) = Ok d /\
     _parse_float_in_range Runtime.float_of_string "MinTemp"
       (dict_get {[ "Rainfall" := "3.5" ]} "MinTemp" "13.0") (-10) 45 = Ok mn /\
     _parse_float_in_range Runtime.float_of_string "MaxTemp"
       (dict_get {[ "Rainfall" := "3.5" ]} "MaxTemp" "23.0") (-10) 50 = Ok mx /\
     _parse_int_in_range Runtime.float_of_string "Humidity3pm"
       (dict_get {[ "Rainfall" := "3.5" ]} "Humidity3pm" "55") 0 100 = Ok h /\
     _parse_int_in_range Runtime.float_of_string "WindSpeed3pm"
       (dict_get {[ "Rainfall" := "3.5" ]} "WindSpeed3pm" "20") 0 100 = Ok w /\
     _parse_float_in_range Runtime.float_of_string "Rainfall"
       (dict_get {[ "Rainfall" := "3.5" ]} "Rainfall" "0.0") 0 200 = Ok r).
Proof.
  exact (infer_succeeds_iff_inputs_parse Runtime.float_of_string
           Runtime.date_of_string Runtime.today Runtime_float_valid
           {[ "Rainfall" := "3.5" ]}).
Defined.

Lemma calendar_fields_and_sunshine_witness :
  exists vals,
    Runtime.infer {[ "Date" := "2023-12-25" ]} = Ok vals /\
    exists d,
      _parse_date Runtime.date_of_string
        (dict_get {[ "Date" := "2023-12-25" ]} "Date" Runtime.today) = Ok d /\
      vals !! "Year" = Some (VInt (year d)) /\
      vals !! "Month" = Some (VInt (month d)) /\
      vals !! "Day" = Some (VInt (day d)) /\
      vals !! "Sunshine" =
        Some (VFloat (Float.of_Z
          (if (month d =? 12) || (month d =? 1) || (month d =? 2) then 9
           else if (3 <=? month d) && (month d <=? 5) then 7
           else if (6 <=? month d) && (month d <=? 8) then 5
           else 8))).
Proof.
  run_infer ({[ "Date" := "2023-12-25" ]} : gmap string string) vals E.
  exact (calendar_fields_and_sunshine Runtime.float_of_string
           Runtime.date_of_string Runtime.today _ vals E).
Defined.

Lemma wind_directions_share_prevailing_code_witness :
  exists vals,
    Runtime.infer {[ "Location" := "Hobart" ]} = Ok vals /\
    exists c,
      WIND_DIR_MAP !!
        _prevailing_dir_for_location (dict_get {[ "Location" := "Hobart" ]} "Location" "Sydney")
        = Some c /\
      vals !! "WindDir3pm" = Some (VInt c) /\
      vals !! "WindDir9am" = Some (VInt c) /\
      vals !! "WindGustDir" = Some (VInt c) /\
      In c [2; 6; 10; 12; 14] /\
      (PREVAILING_BY_LOCATION !! dict_get {[ "Location" := "Hobart" ]} "Location" "Sydney"
         = None -> c = 10).
Proof.
  run_infer ({[ "Location" := "Hobart" ]} : gmap string string) vals E.
  exact (wind_directions_share_prevailing_code Runtime.float_of_string
           Runtime.date_of_string Runtime.today _ vals E).
Defined.

Lemma location_code_witness :
  exists vals,
    Runtime.infer {[ "Location" := "Geelong" ]} = Ok vals /\
    exists c,
      vals !! "Location" = Some (VInt c) /\
      0 <= c <= 46 /\
      (forall i : nat,
         LOCATIONS !! i = Some (dict_get {[ "Location" := "Geelong" ]} "Location" "Sydney") ->
         c = Z.of_nat i) /\
      (~ In (dict_get {[ "Location" := "Geelong" ]} "Location" "Sydney") LOCATIONS ->
       c = 0).
Proof.
  run_infer ({[ "Location" := "Geelong" ]} : gmap string string) vals E.
  exact (location_code Runtime.float_of_string
           Runtime.date_of_string Runtime.today _ vals E).
Defined.

Lemma evaporation_not_negative_witness :
  exists vals,
    Runtime.infer (<[ "MinTemp" := "40" ]> {[ "MaxTemp" := "-10" ]}) = Ok vals /\
    exists ev,
      vals !! "Evaporation" = Some (VFloat ev) /\
      Float.is_nan ev = false /\
      Float.leb (S754_zero false) ev = true.
Proof.
  run_infer (<[ "MinTemp" := "40" ]> {[ "MaxTemp" := "-10" ]} : gmap string string)
    vals E.
  exact (evaporation_not_negative Runtime.float_of_string
           Runtime.date_of_string Runtime.today _ vals E).
Defined.

Lemma pressure_fields_equal_and_bounded_witness :
  exists vals,
    Runtime.infer {[ "Humidity3pm" := "100" ]} = Ok vals /\
    exists p,
      vals !! "Pressure3pm" = Some (VFloat p) /\
      vals !! "Pressure9am" = Some (VFloat p) /\
      Float.leb (Float.of_Z 1011) p = true /\
      Float.leb p (Float.of_Z 1019) = true.
Proof.
  run_infer ({[ "Humidity3pm" := "100" ]} : gmap string string) vals E.
  exact (pressure_fields_equal_and_bounded Runtime.float_of_string
           Runtime.date_of_string Runtime.today Runtime_float_valid _ vals E).
Defined.

Lemma humidity_orders_cloud_and_pressure_witness :
  exists vals1,
    Runtime.infer {[ "Humidity3pm" := "20" ]} = Ok vals1 /\
    exists vals2,
      Runtime.infer {[ "Humidity3pm" := "90" ]} = Ok vals2 /\
      exists (c1 c2 : Z) (p1 p2 : float),
        vals1 !! "Cloud3pm" = Some (VInt c1) /\
        vals2 !! "Cloud3pm" = Some (VInt c2) /\
        vals1 !! "Pressure3pm" = Some (VFloat p1) /\
        vals2 !! "Pressure3pm" = Some (VFloat p2) /\
        c1 <= c2 /\ Float.leb p2 p1 = true.
Proof.
  run_infer ({[ "Humidity3pm" := "20" ]} : gmap string string) vals1 E1.
  run_infer ({[ "Humidity3pm" := "90" ]} : gmap string string) vals2 E2.
  destruct (humidity_orders_cloud_and_pressure Runtime.float_of_string
              Runtime.date_of_string Runtime.today Runtime_float_valid
              _ _ vals1 vals2 E1 E2)
    as (h1 & h2 & c1 & c2 & p1 & p2 & P1 & P2 & C1 & C2 & Q1 & Q2 & Hord).
  exists c1, c2, p1, p2.
  split; [exact C1|]. split; [exact C2|]. split; [exact Q1|]. split; [exact Q2|].
  apply Hord.
  assert (_parse_int_in_range Runtime.float_of_string "Humidity3pm"
            (dict_get {[ "Humidity3pm" := "20" ]} "Humidity3pm" "55") 0 100 = Ok 20)
    as V1 by (vm_compute; reflexivity).
  assert (_parse_int_in_range Runtime.float_of_string "Humidity3pm"
            (dict_get {[ "Humidity3pm" := "90" ]} "Humidity3pm" "55") 0 100 = Ok 90)
    as V2 by (vm_compute; reflexivity).
  rewrite V1 in P1. rewrite V2 in P2.
  apply Ok_inj in P1. apply Ok_inj in P2. subst h1 h2. lia.
Defined.

(** ** The feature row and the route *)

Lemma mapM_ext_in {A B} (f g : A -> result B) (xs : list A) :
  (forall x, In x xs -> f x = g x) -> mapM f xs = mapM g xs.
Proof.
  induction xs as [|x xs IH]; intros H; [reflexivity|].
  cbn [mapM]. rewrite (H x (or_introl eq_refl)), IH; [reflexivity|].
  intros y Hy. apply H. right. exact Hy.
Qed.

Lemma dict_item_Some {V} (d : gmap string V) (k : string) (v : V) :
  d !! k = Some v -> dict_item d k = Ok v.
Proof. intros H. unfold dict_item. rewrite H. reflexivity. Qed.

Lemma dict_item_None {V} (d : gmap string V) (k : string) :
  d !! k = None -> dict_item d k = Raise (KeyError k).
Proof. intros H. unfold dict_item. rewrite H. reflexivity. Qed.

Lemma mapM_missing_key {V} (vals : gmap string V) (before after : list string) (k : string) :
  (forall k', In k' before -> is_Some (vals !! k')) ->
  vals !! k = None ->
  mapM (dict_item vals) (before ++ k :: after) = Raise (KeyError k).
Proof.
  induction before as [|b before IH]; intros Hall Hk.
  - cbn [app mapM]. rewrite (dict_item_None _ _ Hk). reflexivity.
  - cbn [app mapM]. destruct (Hall b (or_introl eq_refl)) as [v Hv].
    rewrite (dict_item_Some _ _ _ Hv), bind_Ok, IH; [reflexivity| |exact Hk].
    intros k' Hk'. apply Hall. right. exact Hk'.
Qed.

Lemma mapM_all_Ok {A B} (f : A -> result B) (xs : list A) :
  (forall x, In x xs -> exists y, f x = Ok y) -> exists ys, mapM f xs = Ok ys.
Proof.
  induction xs as [|x xs IH]; intros H; [exists []; reflexivity|].
  destruct (H x (or_introl eq_refl)) as [y Hy].
  destruct IH as [ys Hys]; [intros z Hz; apply H; right; exact Hz|].
  exists (y :: ys). cbn [mapM]. rewrite Hy, bind_Ok, Hys. reflexivity.
Qed.

Lemma float_of_int_small (z : Z) :
  -9999 <= z <= 9999 -> exists x, float_of_int z = Ok x.
Proof.
  assert (forallb
            (fun z => match float_of_int z with Ok _ => true | Raise _ => false end)
            (seqZ (-9999) 19999) = true) as check by (vm_compute; reflexivity).
  intros Hz. rewrite forallb_forall in check. specialize (check z).
  destruct (float_of_int z) as [x|]; [eauto|].
  discriminate check. apply list_elem_of_In, elem_of_seqZ. lia.
Qed.

(** X12. Reading the dictionary stops at the first of the 24 keys that is
    missing, with the [KeyError] of that key. *)
Theorem build_reports_first_missing_key
    (vals : gmap string value) (i : nat) (k : string) :
  FEATURE_KEYS !! i = Some k ->
  vals !! k = None ->
  (forall (j : nat) (k' : string),
     (j < i)%nat -> FEATURE_KEYS !! j = Some k' -> is_Some (vals !! k')) ->
  _build_feature_vector_from_inferred vals = Raise (KeyError k).
Proof.
  intros Hi Hk Hbefore. unfold _build_feature_vector_from_inferred.
  rewrite <- (take_drop_middle FEATURE_KEYS i k Hi).
  rewrite mapM_missing_key; [reflexivity| |exact Hk].
  intros k' Hk'. apply list_elem_of_In, list_elem_of_lookup_1 in Hk' as [j Hj].
  apply lookup_take_Some in Hj as [Hj Hlt]. exact (Hbefore j k' Hlt Hj).
Qed.

(** X13. Only the 24 keys are read: an entry under any other key does not change
    the row. *)
Theorem build_ignores_other_keys (vals : gmap string value) (k : string) (v : value) :
  ~ In k FEATURE_KEYS ->
  _build_feature_vector_from_inferred (<[k := v]> vals)
  = _build_feature_vector_from_inferred vals.
Proof.
  intros Hk. unfold _build_feature_vector_from_inferred.
  rewrite (mapM_ext_in (dict_item (<[k := v]> vals)) (dict_item vals)); [reflexivity|].
  intros k' Hk'. unfold dict_item. rewrite lookup_insert_ne; [reflexivity|].
  intros ->. exact (Hk Hk').
Qed.

(** *** Reflecting the posted values *)

Lemma reflect_step_lookup (form acc : gmap string string) (x k : string) :
  (match form !! x with
   | Some v => if bool_decide (v <> EmptyString) then <[x := v]> acc else acc
   | None => acc
   end) !! k
  = if bool_decide (x = k)
    then match form !! k with
         | Some v => if bool_decide (v <> EmptyString) then Some v else acc !! k
         | None => acc !! k
         end
    else acc !! k.
Proof.
  case_bool_decide as Hx.
  - subst x. destruct (form !! k) as [v|]; [|reflexivity].
    case_bool_decide; [apply lookup_insert_eq|reflexivity].
  - destruct (form !! x) as [v|]; [|reflexivity].
    case_bool_decide; [apply lookup_insert_ne; exact Hx|reflexivity].
Qed.

Lemma reflect_fold_lookup (form : gmap string string) (ks : list string)
    (acc : gmap string string) (k : string) :
  foldl
    (fun acc k =>
       match form !! k with
       | Some v => if bool_decide (v <> EmptyString) then <[k := v]> acc else acc
       | None => acc
       end) acc ks !! k
  = if bool_decide (k ∈ ks)
    then match form !! k with
         | Some v => if bool_decide (v <> EmptyString) then Some v else acc !! k
         | None => acc !! k
         end
    else acc !! k.
Proof.
  revert acc. induction ks as [|x ks IH]; intros acc.
  - cbn [foldl]. rewrite bool_decide_eq_false_2; [reflexivity|]. apply not_elem_of_nil.
  - cbn [foldl]. rewrite IH, reflect_step_lookup.
    destruct (decide (x = k)) as [->|Hx].
    + rewrite (bool_decide_eq_true_2 (k = k)) by reflexivity.
      rewrite (bool_decide_eq_true_2 (k ∈ k :: ks)) by apply list_elem_of_here.
      destruct (form !! k) as [v|]; [|destruct (bool_decide (k ∈ ks)); reflexivity].
      destruct (bool_decide (v <> EmptyString)); destruct (bool_decide (k ∈ ks));
        reflexivity.
    + rewrite (bool_decide_eq_false_2 (x = k)) by exact Hx.
      destruct (decide (k ∈ ks)) as [Hin|Hin].
      * rewrite (bool_decide_eq_true_2 (k ∈ ks)) by exact Hin.
        rewrite (bool_decide_eq_true_2 (k ∈ x :: ks))
          by (apply list_elem_of_further; exact Hin).
        reflexivity.
      * rewrite (bool_decide_eq_false_2 (k ∈ ks)) by exact Hin.
        rewrite (bool_decide_eq_false_2 (k ∈ x :: ks)); [reflexivity|].
        intros H. apply elem_of_cons in H as [->|H]; [exact (Hx eq_refl)|exact (Hin H)].
Qed.

Lemma reflect_keys (inputs : gmap string string) (k : string) :
  k ∈ (map_to_list inputs).*1 <-> is_Some (inputs !! k).
Proof.
  split.
  - intros H. apply list_elem_of_fmap in H as ([k' d] & -> & H).
    apply elem_of_map_to_list in H. exists d. exact H.
  - intros [d E]. apply list_elem_of_fmap. exists (k, d). split; [reflexivity|].
    apply elem_of_map_to_list. exact E.
Qed.

(** X14. After the reflection the form shows the same fields as before; a field
    holds the posted text when one was posted and is not empty, and keeps
    its previous text otherwise.  No posted field is added. *)
Theorem reflect_posted_lookup (form inputs : gmap string string) (k : string) :
  reflect_posted form inputs !! k =
  match inputs !! k with
  | Some d =>
      Some (match form !! k with
            | Some v => if bool_decide (v <> EmptyString) then v else d
            | None => d
            end)
  | None => None
  end.
Proof.
  unfold reflect_posted. rewrite reflect_fold_lookup.
  destruct (inputs !! k) as [d|] eqn:E.
  - rewrite bool_decide_eq_true_2 by (apply reflect_keys; rewrite E; eauto).
    destruct (form !! k) as [v|]; [|reflexivity].
    destruct (bool_decide (v <> EmptyString)); reflexivity.
  - rewrite bool_decide_eq_false_2; [reflexivity|].
    intros H. apply reflect_keys in H as [d H]. congruence.
Qed.

Section RouteProps.

Variable py_float : string -> option float.
Variable fromisoformat : string -> option date.
Variable today_iso : string.
Variable predict : list (list float) -> result Z.

Hypothesis py_float_valid :
  forall (s : string) (x : float), py_float s = Some x -> Float.valid x = true.

(** A [datetime.date] has a year of [[1, 9999]], a month of [[1, 12]] and
    a day of [[1, 31]]. *)
Hypothesis fromisoformat_valid :
  forall (s : string) (d : date),
    fromisoformat s = Some d ->
    1 <= year d <= 9999 /\ 1 <= month d <= 12 /\ 1 <= day d <= 31.

Local Abbreviation infer := (_infer_missing_features py_float fromisoformat today_iso).
Local Abbreviation route := (index py_float fromisoformat today_iso predict).

Ltac invert_run H :=
  unfold _infer_missing_features in H; cbv zeta in H;
  apply bind_Ok_inv in H as (date & Hdate & H);
  apply bind_Ok_inv in H as (min_temp & Hmin & H);
  apply bind_Ok_inv in H as (max_temp & Hmax & H);
  apply bind_Ok_inv in H as (hum_3pm & Hhum & H);
  apply bind_Ok_inv in H as (spd_3pm & Hspd & H);
  apply bind_Ok_inv in H as (rainfall & Hrain & H);
  apply bind_Ok_inv in H as (hum_f & Hhum_f & H);
  apply bind_Ok_inv in H as (cloud & Hcloud & H);
  apply bind_Ok_inv in H as (hum_off & Hhum_off & H);
  apply bind_Ok_inv in H as (sw & Hsw & H);
  apply bind_Ok_inv in H as (rain_enc & Hrain_enc & H);
  apply Ok_inj in H; subst.

Lemma location_code_small (loc : string) :
  -9999 <= dict_get LOCATION_MAP loc 0 <= 9999.
Proof.
  unfold dict_get. destruct (LOCATION_MAP !! loc) as [c|] eqn:E; cbn [from_option].
  - change (id c) with c. destruct (location_decodes loc c E) as [Hc _]. lia.
  - lia.
Qed.

Lemma wind_code_small (dir : string) (sw : Z) :
  dict_item WIND_DIR_MAP "SW" = Ok sw ->
  -9999 <= dict_get WIND_DIR_MAP dir sw <= 9999.
Proof.
  assert (forallb (fun p : string * Z => (0 <=? p.2) && (p.2 <=? 15))
            (map_to_list WIND_DIR_MAP) = true) as check by (vm_compute; reflexivity).
  intros Hsw. change (dict_item WIND_DIR_MAP "SW") with (@Ok Z 10) in Hsw.
  apply Ok_inj in Hsw. subst sw.
  unfold dict_get. destruct (WIND_DIR_MAP !! dir) as [c|] eqn:E; cbn [from_option].
  - change (id c) with c. rewrite forallb_forall in check.
    pose proof (proj2 (elem_of_map_to_list WIND_DIR_MAP dir c) E) as Hin.
    apply list_elem_of_In in Hin. specialize (check (dir, c) Hin).
    cbn [snd] in check. apply andb_true_iff in check as [Hlo Hhi].
    apply Z.leb_le in Hlo, Hhi. lia.
  - lia.
Qed.

(** Every inferred feature set can be packed: the 24 keys are present and
    every integer among them converts to a float. *)
Lemma build_inferred_Ok (form : gmap string string) (vals : gmap string value) :
  infer form = Ok vals ->
  exists X, _build_feature_vector_from_inferred vals = Ok X.
Proof.
  intros H. invert_run H.
  pose proof (parse_percent py_float py_float_valid _ _ _ Hhum) as Rh.
  pose proof (parse_percent py_float py_float_valid _ _ _ Hspd) as Rw.
  assert (exists d', fromisoformat (dict_get form "Date" today_iso) = Some d' /\ d' = date)
    as (d' & Hd' & ->).
  { unfold _parse_date in Hdate.
    change (DEFAULTS today_iso !!! "Date") with today_iso in Hdate.
    destruct (fromisoformat (dict_get form "Date" today_iso)) as [d'|];
      [|discriminate Hdate].
    apply Ok_inj in Hdate. eauto. }
  destruct (fromisoformat_valid _ _ Hd') as (Ry & Rm & Rd).
  pose proof (location_code_small
                (dict_get form "Location" (DEFAULTS today_iso !!! "Location"))) as Rl.
  pose proof (wind_code_small
                (_prevailing_dir_for_location
                   (dict_get form "Location" (DEFAULTS today_iso !!! "Location")))
                sw Hsw) as Rdir.
  assert (rain_enc = 0 \/ rain_enc = 1) as Rr.
  { destruct (Float.gtb rainfall (Float.decimal 2 1));
      vm_compute in Hrain_enc; apply Ok_inj in Hrain_enc; auto. }
  assert (imax 0 (imin 8 cloud) = Z.max 0 (Z.min 8 cloud)) as Rc
    by (rewrite imax_max, imin_min; reflexivity).
  assert (imin 150 (imax (spd_3pm + 20) spd_3pm)
          = Z.min 150 (Z.max (spd_3pm + 20) spd_3pm)) as Rg
    by (rewrite imin_min, imax_max; reflexivity).
  pose proof (imax_max 0 (spd_3pm - 3)) as R9.
  unfold _build_feature_vector_from_inferred.
  match goal with
  | |- context [mapM (dict_item ?V) FEATURE_KEYS] =>
      assert (exists ordered,
                mapM (dict_item V) FEATURE_KEYS = Ok ordered /\
                forall v, In v ordered -> exists x, value_to_float v = Ok x)
        as (ordered & -> & Hconv)
  end.
  { eexists. split; [reflexivity|].
    intros v Hv. cbn [In] in Hv.
    repeat (destruct Hv as [<-|Hv];
            [cbn [snd value_to_float];
             first [ apply float_of_int_small; lia | eexists; reflexivity ]|]).
    destruct Hv. }
  rewrite bind_Ok. cbn [mapM].
  destruct (mapM_all_Ok value_to_float ordered Hconv) as [row ->].
  rewrite bind_Ok. eexists. reflexivity.
Qed.

(** X15. A form that the inference rejects is answered with the error and with
    the default inputs: the posted values are not shown again. *)
Theorem index_rejected_form_shows_defaults (form : gmap string string) (e : exn) :
  infer form = Raise e ->
  route POST form =
  {| prediction := None; error := Some e; inputs := DEFAULTS today_iso |}.
Proof.
  intros H. unfold index. rewrite H, bind_Raise. reflexivity.
Qed.

(** X16. A form that the inference accepts always reaches the model: the page
    shows the posted values, and the prediction of the model on the row or
    the error the model raised. *)
Theorem index_accepted_form_reaches_model
    (form : gmap string string) (vals : gmap string value) :
  infer form = Ok vals ->
  exists X,
    _build_feature_vector_from_inferred vals = Ok X /\
    inputs (route POST form) = reflect_posted form (DEFAULTS today_iso) /\
    match predict X with
    | Ok y =>
        error (route POST form) = None /\
        prediction (route POST form) =
          Some (if y =? 1 then "Rain Tomorrow: Yes" else "Rain Tomorrow: No")
    | Raise e =>
        error (route POST form) = Some e /\ prediction (route POST form) = None
    end.
Proof.
  intros H. destruct (build_inferred_Ok form vals H) as [X HX].
  exists X. split; [exact HX|].
  unfold index. rewrite H, bind_Ok, HX.
  destruct (predict X) as [y|e]; cbn [inputs error prediction]; auto.
Qed.

(** X17. A page never shows both a prediction and an error, and a page answering
    a GET shows neither. *)
Theorem index_prediction_excludes_error (method : http_method) (form : gmap string string) :
  (prediction (route method form) = None \/ error (route method form) = None) /\
  (method = GET ->
   route method form =
   {| prediction := None; error := None; inputs := DEFAULTS today_iso |}).
Proof.
  split.
  - unfold index. destruct method; [left; reflexivity|].
    destruct (_ ≫= _) as [X|e]; [|left; reflexivity].
    destruct (predict X); [right|left]; reflexivity.
  - intros ->. reflexivity.
Qed.

(** X18. Whatever is posted, the page shows exactly the seven fields of the
    defaults: a posted field with another name never reaches the page, and
    no default field is dropped. *)
Theorem index_shows_exactly_the_default_fields
    (method : http_method) (form : gmap string string) (k : string) :
  is_Some (inputs (route method form) !! k) <-> is_Some (DEFAULTS today_iso !! k).
Proof.
  unfold index. destruct method; [reflexivity|].
  destruct (_ ≫= _) as [X|e]; [|reflexivity].
  assert (is_Some (reflect_posted form (DEFAULTS today_iso) !! k)
          <-> is_Some (DEFAULTS today_iso !! k)) as Hkeys.
  { unfold reflect_posted. rewrite reflect_fold_lookup.
    case_bool_decide as Hin; [|reflexivity].
    apply reflect_keys in Hin. split; [intros _; exact Hin|intros _].
    destruct (form !! k) as [v|]; [|exact Hin].
    destruct (bool_decide (v <> EmptyString)); [eauto|exact Hin]. }
  destruct (predict X); exact Hkeys.
Qed.

End RouteProps.

(** ** The feature row and the route at concrete inputs *)

Lemma digits_value_bound (s : string) (acc v : Z) :
  Runtime.digits_value s acc = Some v ->
  0 <= acc ->
  acc * 10 ^ Z.of_nat (String.length s) <= v
  < (acc + 1) * 10 ^ Z.of_nat (String.length s).
Proof.
  revert acc. induction s as [|c s IH]; intros acc H Hacc.
  - cbn in H. injection H as <-. cbn. lia.
  - cbn [Runtime.digits_value] in H. unfold Runtime.digit in H.
    set (n := Z.of_nat (nat_of_ascii c)) in H.
    destruct ((48 <=? n) && (n <=? 57)) eqn:Hn; [|discriminate H].
    apply andb_true_iff in Hn as [Hlo Hhi]. apply Z.leb_le in Hlo, Hhi.
    specialize (IH _ H ltac:(lia)).
    cbn [String.length]. rewrite Nat2Z.inj_succ, Z.pow_succ_r by lia.
    nia.
Qed.

Lemma days_in_month_le (y m : Z) : Runtime.days_in_month y m <= 31.
Proof.
  unfold Runtime.days_in_month.
  destruct (bool_decide _); [lia|].
  destruct (m =? 2); [destruct (Runtime.is_leap y); lia|lia].
Qed.

Lemma Runtime_date_valid (s : string) (d : date) :
  Runtime.date_of_string s = Some d ->
  1 <= year d <= 9999 /\ 1 <= month d <= 12 /\ 1 <= day d <= 31.
Proof.
  intros H. unfold Runtime.date_of_string in H.
  destruct s as [|y1 s]; [discriminate H|].
  destruct s as [|y2 s]; [discriminate H|].
  destruct s as [|y3 s]; [discriminate H|].
  destruct s as [|y4 s]; [discriminate H|].
  destruct s as [|c1 s]; [discriminate H|].
  destruct c1 as [[] [] [] [] [] [] [] []]; try discriminate H.
  destruct s as [|m1 s]; [discriminate H|].
  destruct s as [|m2 s]; [discriminate H|].
  destruct s as [|c2 s]; [discriminate H|].
  destruct c2 as [[] [] [] [] [] [] [] []]; try discriminate H.
  destruct s as [|d1 s]; [discriminate H|].
  destruct s as [|d2 s]; [discriminate H|].
  destruct s as [|c3 s]; [|discriminate H].
  destruct (Runtime.digits_value (String y1 (String y2 (String y3 (String y4 EmptyString)))) 0)
    as [y|] eqn:Hy; [|discriminate H].
  destruct (Runtime.digits_value (String m1 (String m2 EmptyString)) 0)
    as [m|]; [|discriminate H].
  destruct (Runtime.digits_value (String d1 (String d2 EmptyString)) 0)
    as [dd|]; [|discriminate H].
  destruct ((1 <=? y) && (1 <=? m) && (m <=? 12) && (1 <=? dd)
            && (dd <=? Runtime.days_in_month y m)) eqn:C; [|discriminate H].
  injection H as <-. cbn [year month day].
  repeat (apply andb_true_iff in C as [C ?]).
  apply digits_value_bound in Hy; [|lia]. cbn in Hy.
  pose proof (days_in_month_le y m).
  lia.
Qed.

Lemma build_reports_first_missing_key_witness :
  _build_feature_vector_from_inferred {[ "Location" := VInt 3 ]}
  = Raise (KeyError "MinTemp").
Proof.
  apply (build_reports_first_missing_key {[ "Location" := VInt 3 ]} 1 "MinTemp").
  - reflexivity.
  - apply lookup_singleton_ne. discriminate.
  - intros j k' Hj Hk. destruct j as [|j]; [|lia].
    injection Hk as <-. exists (VInt 3). apply lookup_singleton_eq.
Defined.

Lemma build_ignores_other_keys_witness :
  _build_feature_vector_from_inferred (<[ "Note" := VInt 1 ]> {[ "Location" := VInt 3 ]})
  = _build_feature_vector_from_inferred {[ "Location" := VInt 3 ]}.
Proof.
  apply build_ignores_other_keys.
  intros H. repeat (destruct H as [H|H]; [discriminate H|]). exact H.
Defined.

Lemma index_rejected_form_shows_defaults_witness :
  index Runtime.float_of_string Runtime.date_of_string Runtime.today
    (fun _ => Ok 1) POST {[ "MaxTemp" := "99" ]}
  = {| prediction := None;
       error := Some (CustomException (OutOfRange "MaxTemp" (Float.of_Z 99) (-10) 50)
                        None None None);
       inputs := DEFAULTS Runtime.today |}.
Proof.
  apply index_rejected_form_shows_defaults. vm_compute. reflexivity.
Defined.

Lemma index_accepted_form_reaches_model_witness :
  exists vals,
    Runtime.infer {[ "Rainfall" := "12.5" ]} = Ok vals /\
    exists X,
      _build_feature_vector_from_inferred vals = Ok X /\
      inputs (index Runtime.float_of_string Runtime.date_of_string Runtime.today
                (fun _ => Ok 1) POST {[ "Rainfall" := "12.5" ]})
      = reflect_posted {[ "Rainfall" := "12.5" ]} (DEFAULTS Runtime.today) /\
      error (index Runtime.float_of_string Runtime.date_of_string Runtime.today
               (fun _ => Ok 1) POST {[ "Rainfall" := "12.5" ]}) = None /\
      prediction (index Runtime.float_of_string Runtime.date_of_string Runtime.today
                    (fun _ => Ok 1) POST {[ "Rainfall" := "12.5" ]})
      = Some "Rain Tomorrow: Yes".
Proof.
  run_infer ({[ "Rainfall" := "12.5" ]} : gmap string string) vals E.
  exact (index_accepted_form_reaches_model Runtime.float_of_string
           Runtime.date_of_string Runtime.today (fun _ => Ok 1)
           Runtime_float_valid Runtime_date_valid _ vals E).
Defined.

(** ** [src/data_processing.py]: what a run leaves behind *)

Section PipelineFrames.

Variable DataFrame : Type.
Variable artefact : Type.
Variable read_csv : string -> result DataFrame.
Variable preprocess_frame : DataFrame -> DataFrame * option exn.
Variable fit_transform : string -> DataFrame -> result DataFrame.
Variable split_target : DataFrame -> result (DataFrame * DataFrame).
Variable train_test_split :
  DataFrame -> DataFrame -> result (artefact * artefact * artefact * artefact).
Variable joblib_dump : artefact -> string -> option exn.

Abbreviation state := (DataProcessing.state DataFrame artefact).
Abbreviation M := (DataProcessing.M DataFrame artefact).
Abbreviation load_data := (DataProcessing.load_data DataFrame artefact read_csv).
Abbreviation preprocess :=
  (DataProcessing.preprocess DataFrame artefact preprocess_frame).
Abbreviation label_encode :=
  (DataProcessing.label_encode DataFrame artefact fit_transform).
Abbreviation split_data :=
  (DataProcessing.split_data DataFrame artefact split_target train_test_split
     joblib_dump).
Abbreviation run :=
  (DataProcessing.run DataFrame artefact read_csv preprocess_frame fit_transform
     split_target train_test_split joblib_dump).
Abbreviation STEPS :=
  (DataProcessing.STEPS DataFrame artefact read_csv preprocess_frame fit_transform
     split_target train_test_split joblib_dump).
Abbreviation TRY_BLOCKS :=
  (DataProcessing.TRY_BLOCKS DataFrame artefact read_csv preprocess_frame fit_transform
     split_target train_test_split joblib_dump).
Abbreviation run_steps := (DataProcessing.run_steps DataFrame artefact).
Abbreviation log := (DataProcessing.log DataFrame artefact).
Abbreviation files := (DataProcessing.files DataFrame artefact).
Abbreviation df := (DataProcessing.df DataFrame artefact).
Abbreviation input_path := (DataProcessing.input_path DataFrame artefact).
Abbreviation output_path := (DataProcessing.output_path DataFrame artefact).
Abbreviation logger := (DataProcessing.logger DataFrame artefact).
Abbreviation set_df := (DataProcessing.set_df DataFrame artefact).
Abbreviation write_file := (DataProcessing.write_file DataFrame artefact).

(** *** Relations between the state before and after, kept by every step *)

Section Kept.

Variable R : state -> state -> Prop.
Hypothesis R_refl : forall s, R s s.
Hypothesis R_trans : forall s1 s2 s3, R s1 s2 -> R s2 s3 -> R s1 s3.
Hypothesis R_logger : forall r s, R s (logger r s).2.
Hypothesis R_set_df : forall d s, R s (set_df d s).2.

Abbreviation keeps m := (forall s r s', m s = (r, s') -> R s s').

Lemma keeps_ret {A} (a : A) : keeps (DataProcessing.ret DataFrame artefact a).
Proof. intros s r s' H. injection H as _ <-. apply R_refl. Qed.

Lemma keeps_raise {A} (e : exn) : keeps (@DataProcessing.raise DataFrame artefact A e).
Proof. intros s r s' H. injection H as _ <-. apply R_refl. Qed.

Lemma keeps_lift {A} (x : result A) : keeps (DataProcessing.lift DataFrame artefact x).
Proof. intros s r s' H. injection H as _ <-. apply R_refl. Qed.

Lemma keeps_logger (l : DataProcessing.log_record) : keeps (logger l).
Proof. intros s r s' H. pose proof (R_logger l s) as HR. rewrite H in HR. exact HR. Qed.

Lemma keeps_set_df (d : DataFrame) : keeps (set_df d).
Proof. intros s r s' H. pose proof (R_set_df d s) as HR. rewrite H in HR. exact HR. Qed.

Lemma keeps_bind {A B} (m : M A) (f : A -> M B) :
  keeps m -> (forall a, keeps (f a)) ->
  keeps (DataProcessing.bind DataFrame artefact m f).
Proof.
  intros Hm Hf s r s' H. unfold DataProcessing.bind in H.
  destruct (m s) as [[a|e] s1] eqn:E.
  - exact (R_trans _ _ _ (Hm _ _ _ E) (Hf a _ _ _ H)).
  - injection H as _ <-. exact (Hm _ _ _ E).
Qed.

Lemma keeps_try_except {A} (body : M A) (handler : exn -> M A) :
  keeps body -> (forall e, keeps (handler e)) ->
  keeps (DataProcessing.try_except DataFrame artefact body handler).
Proof.
  intros Hb Hh s r s' H. unfold DataProcessing.try_except in H.
  destruct (body s) as [[a|e] s1] eqn:E.
  - injection H as _ <-. exact (Hb _ _ _ E).
  - exact (R_trans _ _ _ (Hb _ _ _ E) (Hh e _ _ _ H)).
Qed.

Lemma keeps_loaded_df : keeps (DataProcessing.loaded_df DataFrame artefact).
Proof.
  intros s r s' H. unfold DataProcessing.loaded_df, DataProcessing.bind,
    DataProcessing.get_df in H.
  destruct (DataProcessing.df DataFrame artefact s); injection H as _ <-; apply R_refl.
Qed.

Lemma keeps_handler {A} (msg ctx : string) (e : exn) :
  keeps (DataProcessing.bind DataFrame artefact
           (logger (DataProcessing.Error msg e))
           (fun _ => @DataProcessing.reraise DataFrame artefact A ctx e)).
Proof.
  apply keeps_bind; [apply keeps_logger|]. intros _. apply keeps_raise.
Qed.

Lemma keeps_load_data : keeps load_data.
Proof.
  apply keeps_try_except; [|intros e; apply keeps_handler].
  apply keeps_bind.
  { intros s r s' H. injection H as _ <-. apply R_refl. }
  intros path. apply keeps_bind; [apply keeps_lift|].
  intros d. apply keeps_bind; [apply keeps_set_df|].
  intros _. apply keeps_logger.
Qed.

Lemma keeps_preprocess : keeps preprocess.
Proof.
  apply keeps_try_except; [|intros e; apply keeps_handler].
  apply keeps_bind; [apply keeps_loaded_df|].
  intros d. destruct (preprocess_frame d) as [d' failure].
  apply keeps_bind; [apply keeps_set_df|].
  intros _. destruct failure; [apply keeps_raise|apply keeps_logger].
Qed.

Lemma keeps_encode_columns (cols : list string) :
  keeps (DataProcessing.encode_columns DataFrame artefact fit_transform cols).
Proof.
  induction cols as [|col rest IH]; cbn [DataProcessing.encode_columns].
  - apply keeps_ret.
  - apply keeps_bind; [apply keeps_loaded_df|].
    intros d. apply keeps_bind; [apply keeps_lift|].
    intros d'. apply keeps_bind; [apply keeps_set_df|].
    intros _. apply keeps_bind; [apply keeps_logger|].
    intros _. exact IH.
Qed.

Lemma keeps_label_encode : keeps label_encode.
Proof.
  apply keeps_try_except; [|intros e; apply keeps_handler].
  apply keeps_bind; [apply keeps_loaded_df|].
  intros _. apply keeps_bind; [apply keeps_encode_columns|].
  intros _. apply keeps_logger.
Qed.

Hypothesis R_write_file : forall p a s, R s (write_file p a s).2.

Lemma keeps_dump_all (parts : list (artefact * string)) :
  keeps (DataProcessing.dump_all DataFrame artefact joblib_dump parts).
Proof.
  induction parts as [|[a name] rest IH]; cbn [DataProcessing.dump_all].
  - apply keeps_ret.
  - apply keeps_bind.
    { intros s r s' H. injection H as _ <-. apply R_refl. }
    intros dir. destruct (joblib_dump a _); [apply keeps_raise|].
    apply keeps_bind; [|intros _; exact IH].
    intros s r s' H. pose proof (R_write_file (dir ++ "/" ++ name) a s) as HR.
    rewrite H in HR. exact HR.
Qed.

Lemma keeps_split_data : keeps split_data.
Proof.
  apply keeps_try_except; [|intros e; apply keeps_handler].
  apply keeps_bind; [apply keeps_loaded_df|].
  intros d. apply keeps_bind; [apply keeps_lift|].
  intros xy. apply keeps_bind; [apply keeps_logger|].
  intros _. apply keeps_bind; [apply keeps_lift|].
  intros [[[a1 a2] a3] a4].
  apply keeps_bind; [apply keeps_dump_all|].
  intros _. apply keeps_logger.
Qed.

Lemma keeps_run : keeps run.
Proof.
  unfold DataProcessing.run.
  apply keeps_bind; [apply keeps_load_data|]. intros _.
  apply keeps_bind; [apply keeps_preprocess|]. intros _.
  apply keeps_bind; [apply keeps_label_encode|]. intros _.
  apply keeps_bind; [apply keeps_split_data|]. intros _.
  apply keeps_logger.
Qed.

End Kept.

(** X19. Whatever the libraries do, and whether it ends well or not, a run
    leaves the two paths of the object as they were and only appends: the
    log and the list of files written keep what they held. *)
Theorem run_only_appends (s s' : state) (r : result unit) :
  run s = (r, s') ->
  input_path s' = input_path s /\
  output_path s' = output_path s /\
  log s `prefix_of` log s' /\
  files s `prefix_of` files s'.
Proof.
  apply (keeps_run
           (fun s s' =>
              input_path s' = input_path s /\ output_path s' = output_path s /\
              log s `prefix_of` log s' /\ files s `prefix_of` files s')).
  - intros s0. repeat split; reflexivity.
  - intros s1 s2 s3 (I1 & O1 & L1 & F1) (I2 & O2 & L2 & F2).
    split; [congruence|]. split; [congruence|].
    split; etrans; eassumption.
  - intros l s0. cbn. repeat split; try reflexivity. apply prefix_app_r. reflexivity.
  - intros d s0. cbn. repeat split; reflexivity.
  - intros p a s0. cbn. repeat split; try reflexivity. apply prefix_app_r. reflexivity.
Qed.

Lemma quiet_steps (s s' : state) (r : result unit) :
  load_data s = (r, s') \/ preprocess s = (r, s') \/ label_encode s = (r, s') ->
  files s' = files s /\ output_path s' = output_path s /\
  input_path s' = input_path s.
Proof.
  pose (R := fun s s' : state =>
               files s' = files s /\ output_path s' = output_path s /\
               input_path s' = input_path s).
  assert (forall s0, R s0 s0) as R_refl by (intros s0; repeat split; reflexivity).
  assert (forall s1 s2 s3, R s1 s2 -> R s2 s3 -> R s1 s3) as R_trans.
  { intros s1 s2 s3 (F1 & O1 & I1) (F2 & O2 & I2). repeat split; congruence. }
  assert (forall l s0, R s0 (logger l s0).2) as R_logger
    by (intros l s0; repeat split; reflexivity).
  assert (forall d s0, R s0 (set_df d s0).2) as R_set_df
    by (intros d s0; repeat split; reflexivity).
  intros [H|[H|H]].
  - exact (keeps_load_data R R_refl R_trans R_logger R_set_df s r s' H).
  - exact (keeps_preprocess R R_refl R_trans R_logger R_set_df s r s' H).
  - exact (keeps_label_encode R R_refl R_trans R_logger R_set_df s r s' H).
Qed.

(** X20. The first three steps write no file and leave both paths alone,
    whether they succeed or fail. *)
Theorem only_split_data_writes_files
    (i : nat) (step : M unit) (ctx : string) (s s' : state) (r : result unit) :
  (i < 3)%nat ->
  STEPS !! i = Some (step, ctx) ->
  step s = (r, s') ->
  files s' = files s /\ output_path s' = output_path s /\ input_path s' = input_path s.
Proof.
  intros Hi Hstep H. apply (quiet_steps s s' r).
  destruct i as [|[|[|i]]]; [| | |lia]; injection Hstep as <- <-; auto.
Qed.

(** *** Steps called out of order *)

(** X21. A step other than [load_data] that finds no frame raises the
    [CustomException] of the step around the [ValueError] of its guard,
    and changes nothing but the log, which receives the error record. *)
Theorem step_without_frame_is_refused
    (i : nat) (step : M unit) (ctx : string) (s : state) :
  (0 < i)%nat ->
  STEPS !! i = Some (step, ctx) ->
  df s = None ->
  exists msg,
    step s =
    (Raise (CustomException (Text ctx)
              (Some (ValueError (Text "Dataframe is not loaded. Call `load_data()` first.")))
              None
              (Some (ValueError (Text "Dataframe is not loaded. Call `load_data()` first.")))),
     {| DataProcessing.input_path := input_path s;
        DataProcessing.output_path := output_path s;
        DataProcessing.df := None;
        DataProcessing.log :=
          log s ++ [DataProcessing.Error msg
                      (ValueError (Text "Dataframe is not loaded. Call `load_data()` first."))];
        DataProcessing.files := files s |}).
Proof.
  intros Hi Hstep Hdf.
  destruct i as [|[|[|[|i]]]]; [lia| | | |discriminate Hstep];
    injection Hstep as <- <-; eexists;
    cbv beta iota delta
      [DataProcessing.preprocess DataProcessing.label_encode
       DataProcessing.split_data DataProcessing.preprocess_body
       DataProcessing.label_encode_body DataProcessing.split_data_body
       DataProcessing.try_except DataProcessing.bind
       DataProcessing.loaded_df DataProcessing.get_df DataProcessing.raise
       DataProcessing.reraise DataProcessing.logger];
    rewrite Hdf; cbv beta iota; rewrite ?Hdf; reflexivity.
Qed.

(** *** How a run ends *)

Lemma bind_Raise_state_inv {A B} (m : M A) (f : A -> M B) (s s' : state) (e : exn) :
  DataProcessing.bind DataFrame artefact m f s = (Raise e, s') ->
  m s = (Raise e, s') \/ exists a s1, m s = (Ok a, s1) /\ f a s1 = (Raise e, s').
Proof.
  unfold DataProcessing.bind. destruct (m s) as [[a|e0] s1]; intros H.
  - right. eauto.
  - left. injection H as <- <-. reflexivity.
Qed.

(** A run that fails has failed in one of its four steps, after the steps
    before it succeeded, and ends in the state that step left. *)
Lemma run_Raise_step (s s' : state) (e : exn) :
  run s = (Raise e, s') ->
  exists (i : nat) (step body : M unit) (ctx msg : string) (s_i : state),
    STEPS !! i = Some (step, ctx) /\
    TRY_BLOCKS !! i = Some (body, msg) /\
    run_steps (take i STEPS) s = (Ok tt, s_i) /\
    step s_i = (Raise e, s').
Proof.
  intros H. unfold DataProcessing.run in H.
  apply bind_Raise_state_inv in H as [H|([] & s1 & H1 & H)].
  { exists 0%nat. eexists _, _, _, _, s.
    split; [reflexivity|]. split; [reflexivity|]. split; [reflexivity|exact H]. }
  apply bind_Raise_state_inv in H as [H|([] & s2 & H2 & H)].
  { exists 1%nat. eexists _, _, _, _, s1.
    split; [reflexivity|]. split; [reflexivity|]. split; [|exact H].
    cbn [take DataProcessing.STEPS DataProcessing.run_steps].
    rewrite (bind_Ok_state _ _ _ _ _ _ _ H1). reflexivity. }
  apply bind_Raise_state_inv in H as [H|([] & s3 & H3 & H)].
  { exists 2%nat. eexists _, _, _, _, s2.
    split; [reflexivity|]. split; [reflexivity|]. split; [|exact H].
    cbn [take DataProcessing.STEPS DataProcessing.run_steps].
    rewrite (bind_Ok_state _ _ _ _ _ _ _ H1), (bind_Ok_state _ _ _ _ _ _ _ H2).
    reflexivity. }
  apply bind_Raise_state_inv in H as [H|([] & s4 & H4 & H)].
  { exists 3%nat. eexists _, _, _, _, s3.
    split; [reflexivity|]. split; [reflexivity|]. split; [|exact H].
    cbn [take DataProcessing.STEPS DataProcessing.run_steps].
    rewrite (bind_Ok_state _ _ _ _ _ _ _ H1), (bind_Ok_state _ _ _ _ _ _ _ H2),
      (bind_Ok_state _ _ _ _ _ _ _ H3).
    reflexivity. }
  discriminate H.
Qed.

(** X22. A run fails only in one of its four steps, after the steps before
    it succeeded: the [try] block of that step raised an exception, and the
    run raises the [CustomException] of the step around that very
    exception, in the state the [try] block left with one record added to
    the log, the step's error record for that exception. *)
Theorem run_failure_is_a_wrapped_step (s s' : state) (e : exn) :
  run s = (Raise e, s') ->
  exists (i : nat) (step body : M unit) (ctx msg : string) (s_i : state)
         (orig : exn) (s0 : state),
    STEPS !! i = Some (step, ctx) /\
    TRY_BLOCKS !! i = Some (body, msg) /\
    run_steps (take i STEPS) s = (Ok tt, s_i) /\
    body s_i = (Raise orig, s0) /\
    e = CustomException (Text ctx) (Some orig) None (Some orig) /\
    s' = (logger (DataProcessing.Error msg orig) s0).2 /\
    last (log s') = Some (DataProcessing.Error msg orig).
Proof.
  intros H.
  apply run_Raise_step in H as (i & step & body & ctx & msg & s_i & Hi & Hb & Hpre & Hstep).
  destruct (step_failure DataFrame artefact read_csv preprocess_frame fit_transform
              split_target train_test_split joblib_dump i step body ctx msg s_i s' e
              Hi Hb Hstep)
    as (orig & s0 & Hbody & He & Hs' & Hl).
  exists i, step, body, ctx, msg, s_i, orig, s0.
  split; [exact Hi|]. split; [exact Hb|]. split; [exact Hpre|].
  split; [exact Hbody|]. split; [exact He|]. split; [exact Hs'|exact Hl].
Qed.

(** *** The files of [split_data] *)

Abbreviation split_parts a1 a2 a3 a4 :=
  [ (a1, "X_train.pkl"); (a2, "X_test.pkl"); (a3, "y_train.pkl"); (a4, "y_test.pkl") ].

Abbreviation placed dir parts :=
  ((fun p : artefact * string => ((dir ++ "/" ++ p.2)%string, p.1)) <$> parts).

Lemma dump_all_cons (a : artefact) (name : string)
    (rest : list (artefact * string)) (s : state) :
  DataProcessing.dump_all DataFrame artefact joblib_dump ((a, name) :: rest) s
  = match joblib_dump a (output_path s ++ "/" ++ name)%string with
    | Some e => (Raise e, s)
    | None =>
        DataProcessing.dump_all DataFrame artefact joblib_dump rest
          {| DataProcessing.input_path := input_path s;
             DataProcessing.output_path := output_path s;
             DataProcessing.df := df s;
             DataProcessing.log := log s;
             DataProcessing.files :=
               files s ++ [((output_path s ++ "/" ++ name)%string, a)] |}
    end.
Proof.
  cbn [DataProcessing.dump_all].
  unfold DataProcessing.bind, DataProcessing.get_output_path, DataProcessing.raise,
    DataProcessing.write_file.
  destruct (joblib_dump a (output_path s ++ "/" ++ name)%string); reflexivity.
Qed.

(** The dumps in order: all succeed and every file is written, or the
    first that fails stops them with the earlier files written. *)
Lemma dump_all_outcome (parts : list (artefact * string)) (s : state) :
  (DataProcessing.dump_all DataFrame artefact joblib_dump parts s
   = (Ok tt,
      {| DataProcessing.input_path := input_path s;
         DataProcessing.output_path := output_path s;
         DataProcessing.df := df s;
         DataProcessing.log := log s;
         DataProcessing.files := files s ++ placed (output_path s) parts |}) /\
   forall a name, In (a, name) parts ->
     joblib_dump a (output_path s ++ "/" ++ name)%string = None) \/
  (exists (k : nat) a name e,
     parts !! k = Some (a, name) /\
     joblib_dump a (output_path s ++ "/" ++ name)%string = Some e /\
     (forall (j : nat) a' name', (j < k)%nat -> parts !! j = Some (a', name') ->
        joblib_dump a' (output_path s ++ "/" ++ name')%string = None) /\
     DataProcessing.dump_all DataFrame artefact joblib_dump parts s
     = (Raise e,
        {| DataProcessing.input_path := input_path s;
           DataProcessing.output_path := output_path s;
           DataProcessing.df := df s;
           DataProcessing.log := log s;
           DataProcessing.files := files s ++ placed (output_path s) (take k parts) |})).
Proof.
  revert s. induction parts as [|[a name] rest IH]; intros s.
  - left. split; [|intros ? ? []].
    cbn. rewrite app_nil_r. destruct s; reflexivity.
  - rewrite dump_all_cons.
    destruct (joblib_dump a (output_path s ++ "/" ++ name)%string) as [e|] eqn:Hd.
    + right. exists 0%nat, a, name, e.
      split; [reflexivity|]. split; [exact Hd|]. split; [intros; lia|].
      cbn. rewrite app_nil_r. destruct s; reflexivity.
    + set (s1 := {| DataProcessing.input_path := input_path s;
                    DataProcessing.output_path := output_path s;
                    DataProcessing.df := df s;
                    DataProcessing.log := log s;
                    DataProcessing.files :=
                      files s ++ [((output_path s ++ "/" ++ name)%string, a)] |}).
      destruct (IH s1) as [[Hall Hnone]|(k & a' & name' & e & Hk & He & Hbefore & Hfail)].
      * left. split.
        -- rewrite Hall. cbn. rewrite <- app_assoc. reflexivity.
        -- intros a0 n0 [E|Hin]; [injection E as <- <-; exact Hd|].
           exact (Hnone a0 n0 Hin).
      * right. exists (S k), a', name', e.
        split; [exact Hk|]. split; [exact He|]. split.
        -- intros [|j] a0 n0 Hj Hl; [injection Hl as <- <-; exact Hd|].
           apply (Hbefore j a0 n0); [lia|exact Hl].
        -- rewrite Hfail. cbn. rewrite <- app_assoc. reflexivity.
Qed.

(** What [split_data] has done when it ends well. *)
Lemma split_data_Ok_inv (s s' : state) :
  split_data s = (Ok tt, s') ->
  exists d x y a1 a2 a3 a4,
    df s = Some d /\ df s' = Some d /\
    split_target d = Ok (x, y) /\
    train_test_split x y = Ok (a1, a2, a3, a4) /\
    files s' = (files s ++ placed (output_path s) (split_parts a1 a2 a3 a4))%list.
Proof.
  intros H. unfold DataProcessing.split_data, DataProcessing.try_except,
    DataProcessing.split_data_body in H.
  destruct (DataProcessing.bind _ _ _ _ s) as [[[]|e] s0] eqn:Hbody;
    [|unfold DataProcessing.bind, DataProcessing.logger, DataProcessing.reraise,
        DataProcessing.raise in H; discriminate H].
  injection H as ->.
  unfold DataProcessing.bind at 1, DataProcessing.loaded_df, DataProcessing.bind at 1,
    DataProcessing.get_df, DataProcessing.ret, DataProcessing.raise in Hbody.
  destruct (df s) as [d|] eqn:Hdf; [|discriminate Hbody].
  unfold DataProcessing.bind at 1, DataProcessing.lift at 1 in Hbody.
  destruct (split_target d) as [[x y]|] eqn:Hxy; [|discriminate Hbody].
  unfold DataProcessing.bind at 1, DataProcessing.logger at 1 in Hbody.
  unfold DataProcessing.bind at 1, DataProcessing.lift at 1 in Hbody.
  cbn [fst snd] in Hbody.
  destruct (train_test_split x y) as [[[[a1 a2] a3] a4]|] eqn:Htts; [|discriminate Hbody].
  unfold DataProcessing.bind at 1 in Hbody.
  match type of Hbody with
  | context [DataProcessing.dump_all _ _ _ ?parts ?s0] =>
      destruct (dump_all_outcome parts s0)
        as [[Hall _]|(k & a & name & e & _ & _ & _ & Hfail)];
      [rewrite Hall in Hbody | rewrite Hfail in Hbody; discriminate Hbody]
  end.
  unfold DataProcessing.logger in Hbody. injection Hbody as <-.
  exists d, x, y, a1, a2, a3, a4. cbn.
  split; [reflexivity|]. split; [exact Hdf|]. split; [exact Hxy|].
  split; [exact Htts|reflexivity].
Qed.

(** A run that ends well has run [split_data] on a state with the files
    and the output path of the start, and then logged the completion. *)
Lemma run_Ok_steps (s s' : state) :
  run s = (Ok tt, s') ->
  exists s3 s4,
    files s3 = files s /\ output_path s3 = output_path s /\
    split_data s3 = (Ok tt, s4) /\
    s' = (logger (DataProcessing.Info "Data processing completed.") s4).2.
Proof.
  intros H. unfold DataProcessing.run in H.
  apply bind_Ok_state_inv in H as ([] & s1 & H1 & H).
  apply bind_Ok_state_inv in H as ([] & s2 & H2 & H).
  apply bind_Ok_state_inv in H as ([] & s3 & H3 & H).
  apply bind_Ok_state_inv in H as ([] & s4 & H4 & H).
  destruct (quiet_steps s s1 _ (or_introl H1)) as (F1 & O1 & _).
  destruct (quiet_steps s1 s2 _ (or_intror (or_introl H2))) as (F2 & O2 & _).
  destruct (quiet_steps s2 s3 _ (or_intror (or_intror H3))) as (F3 & O3 & _).
  exists s3, s4. split; [congruence|]. split; [congruence|]. split; [exact H4|].
  rewrite H. reflexivity.
Qed.

(** X23. A run that ends well has written exactly the four splits of the frame
    it holds, in the order train and test features, train and test target,
    under the output path; its last log record says so. *)
Theorem successful_run_writes_the_four_splits (s s' : state) :
  run s = (Ok tt, s') ->
  exists d x y a1 a2 a3 a4,
    df s' = Some d /\
    split_target d = Ok (x, y) /\
    train_test_split x y = Ok (a1, a2, a3, a4) /\
    files s' = (files s ++ placed (output_path s) (split_parts a1 a2 a3 a4))%list /\
    last (log s') = Some (DataProcessing.Info "Data processing completed.").
Proof.
  intros H. apply run_Ok_steps in H as (s3 & s4 & F & O & Hsplit & ->).
  apply split_data_Ok_inv in Hsplit
    as (d & x & y & a1 & a2 & a3 & a4 & _ & Hdf & Hxy & Htts & Hfiles).
  exists d, x, y, a1, a2, a3, a4. cbn.
  split; [exact Hdf|]. split; [exact Hxy|]. split; [exact Htts|].
  split; [rewrite Hfiles, F, O; reflexivity|].
  apply last_snoc.
Qed.

(** X24. When a dump fails, [split_data] raises its [CustomException] around
    the failure, and the files dumped before it stay written. *)
Theorem failed_dump_keeps_earlier_files
    (s : state) (d x y : DataFrame) (a1 a2 a3 a4 : artefact)
    (k : nat) (a : artefact) (name : string) (e : exn) :
  df s = Some d ->
  split_target d = Ok (x, y) ->
  train_test_split x y = Ok (a1, a2, a3, a4) ->
  split_parts a1 a2 a3 a4 !! k = Some (a, name) ->
  (forall (j : nat) a' name', (j < k)%nat ->
     split_parts a1 a2 a3 a4 !! j = Some (a', name') ->
     joblib_dump a' (output_path s ++ "/" ++ name')%string = None) ->
  joblib_dump a (output_path s ++ "/" ++ name)%string = Some e ->
  exists s',
    split_data s
    = (Raise (CustomException (Text "Failed to split data") (Some e) None (Some e)), s') /\
    files s' = (files s ++ placed (output_path s) (take k (split_parts a1 a2 a3 a4)))%list.
Proof.
  intros Hdf Hxy Htts Hk Hbefore He.
  cbv beta iota delta
    [DataProcessing.split_data DataProcessing.split_data_body
     DataProcessing.try_except DataProcessing.bind
     DataProcessing.loaded_df DataProcessing.get_df DataProcessing.ret
     DataProcessing.lift DataProcessing.logger DataProcessing.raise
     DataProcessing.reraise].
  rewrite Hdf. cbv beta iota. rewrite Hxy. cbv beta iota. cbn [fst snd].
  rewrite Htts. cbv beta iota.
  match goal with
  | |- context [DataProcessing.dump_all _ _ _ ?parts ?s0] =>
      destruct (dump_all_outcome parts s0)
        as [[_ Hnone]|(k' & a' & name' & e' & Hk' & He' & Hbefore' & Hfail)]
  end.
  - cbn [DataProcessing.output_path] in Hnone.
    rewrite (Hnone a name) in He; [discriminate He|].
    apply list_elem_of_In. eapply list_elem_of_lookup_2. exact Hk.
  - cbn [DataProcessing.output_path] in He', Hbefore'.
    assert (k' = k) as ->.
    { destruct (Nat.lt_trichotomy k' k) as [Hlt|[Heq|Hgt]]; [|exact Heq|].
      - rewrite (Hbefore k' a' name' Hlt Hk') in He'. discriminate He'.
      - rewrite (Hbefore' k a name Hgt Hk) in He. discriminate He. }
    rewrite Hk in Hk'. injection Hk' as <- <-.
    rewrite He in He'. injection He' as <-.
    rewrite Hfail. eexists. split; [reflexivity|]. reflexivity.
Qed.


(** *** The columns of [label_encode] *)

Abbreviation encoded_from d cols :=
  (foldl (fun (acc : result DataFrame) (col : string) => acc ≫= fit_transform col)
     (Ok d) cols).

Lemma encode_columns_outcome (cols : list string) (s s' : state) (d : DataFrame)
    (r : result unit) :
  df s = Some d ->
  DataProcessing.encode_columns DataFrame artefact fit_transform cols s = (r, s') ->
  exists (k : nat) (d_k : DataFrame),
    encoded_from d (take k cols) = Ok d_k /\
    df s' = Some d_k /\
    match r with
    | Ok _ => k = length cols
    | Raise orig =>
        exists col, cols !! k = Some col /\ fit_transform col d_k = Raise orig
    end.
Proof.
  revert s d. induction cols as [|col rest IH]; intros s d Hdf H.
  - injection H as <- <-. exists 0%nat, d.
    split; [reflexivity|]. split; [exact Hdf|reflexivity].
  - cbn [DataProcessing.encode_columns] in H.
    cbv beta iota delta
      [DataProcessing.bind DataProcessing.loaded_df DataProcessing.get_df
       DataProcessing.ret DataProcessing.raise DataProcessing.lift
       DataProcessing.set_df DataProcessing.logger] in H.
    rewrite Hdf in H. cbv beta iota in H.
    destruct (fit_transform col d) as [d1|e] eqn:Hf; cbv beta iota in H.
    + apply IH with (d := d1) in H; [|reflexivity].
      destruct H as (k & d_k & Hk & Hdk & Hr).
      exists (S k), d_k. split; [|split; [exact Hdk|]].
      * cbn [take foldl]. rewrite bind_Ok, Hf. exact Hk.
      * destruct r; [cbn [length]; congruence|exact Hr].
    + injection H as <- <-. exists 0%nat, d.
      split; [reflexivity|]. split; [exact Hdf|].
      exists col. split; [reflexivity|exact Hf].
Qed.

(** X25. [label_encode] encodes the six columns in the listed order, each on
    the frame the previous one gave.  When a column fails, the step raises
    its [CustomException] around that failure and the frame keeps the
    columns encoded before it. *)
Theorem label_encode_encodes_in_order (s s' : state) (d : DataFrame) (r : result unit) :
  df s = Some d ->
  label_encode s = (r, s') ->
  exists (k : nat) (d_k : DataFrame),
    encoded_from d (take k DataProcessing.CATEGORICAL) = Ok d_k /\
    df s' = Some d_k /\
    match r with
    | Ok _ =>
        k = 6%nat /\
        last (log s') = Some (DataProcessing.Info "Label encoding completed.")
    | Raise e =>
        exists col orig,
          DataProcessing.CATEGORICAL !! k = Some col /\
          fit_transform col d_k = Raise orig /\
          e = CustomException (Text "Failed to label encode data")
                (Some orig) None (Some orig)
    end.
Proof.
  intros Hdf H.
  unfold DataProcessing.label_encode, DataProcessing.try_except,
    DataProcessing.label_encode_body in H.
  unfold DataProcessing.bind at 1, DataProcessing.loaded_df, DataProcessing.bind at 1,
    DataProcessing.get_df, DataProcessing.ret in H.
  rewrite Hdf in H. unfold DataProcessing.bind at 1 in H.
  destruct (DataProcessing.encode_columns _ _ _ _ s) as [[[]|orig] s0] eqn:He;
    destruct (encode_columns_outcome _ _ _ _ _ Hdf He) as (k & d_k & Hk & Hdk & Hr);
    unfold DataProcessing.bind, DataProcessing.logger, DataProcessing.reraise,
      DataProcessing.raise in H;
    injection H as <- <-; exists k, d_k; (split; [exact Hk|]); cbn [DataProcessing.df];
    (split; [exact Hdk|]).
  - split; [exact Hr|]. cbn [DataProcessing.log]. apply last_snoc.
  - destruct Hr as (col & Hcol & Hfit). exists col, orig. repeat split; assumption.
Qed.


End PipelineFrames.

(** ** The pipeline on stand-ins for the libraries *)

Lemma run_only_appends_witness :
  DataProcessing.input_path _ _ (PipelineSample.run PipelineSample.start).2
  = DataProcessing.input_path _ _ PipelineSample.start /\
  DataProcessing.output_path _ _ (PipelineSample.run PipelineSample.start).2
  = DataProcessing.output_path _ _ PipelineSample.start /\
  DataProcessing.log _ _ PipelineSample.start
    `prefix_of` DataProcessing.log _ _ (PipelineSample.run PipelineSample.start).2 /\
  DataProcessing.files _ _ PipelineSample.start
    `prefix_of` DataProcessing.files _ _ (PipelineSample.run PipelineSample.start).2.
Proof.
  apply (run_only_appends (list string) (list string)
           PipelineSample.read_csv PipelineSample.preprocess_frame
           PipelineSample.fit_transform PipelineSample.split_target
           PipelineSample.train_test_split PipelineSample.joblib_dump
           PipelineSample.start _ (PipelineSample.run PipelineSample.start).1).
  apply surjective_pairing.
Defined.

Lemma only_split_data_writes_files_witness :
  DataProcessing.files _ _
    (DataProcessing.preprocess (list string) (list string)
       PipelineSample.preprocess_frame PipelineSample.start).2
  = DataProcessing.files _ _ PipelineSample.start /\
  DataProcessing.output_path _ _
    (DataProcessing.preprocess (list string) (list string)
       PipelineSample.preprocess_frame PipelineSample.start).2
  = DataProcessing.output_path _ _ PipelineSample.start /\
  DataProcessing.input_path _ _
    (DataProcessing.preprocess (list string) (list string)
       PipelineSample.preprocess_frame PipelineSample.start).2
  = DataProcessing.input_path _ _ PipelineSample.start.
Proof.
  apply (only_split_data_writes_files (list string) (list string)
           PipelineSample.read_csv PipelineSample.preprocess_frame
           PipelineSample.fit_transform PipelineSample.split_target
           PipelineSample.train_test_split PipelineSample.joblib_dump
           1%nat
           (DataProcessing.preprocess (list string) (list string)
              PipelineSample.preprocess_frame)
           "Failed to preprocess data" PipelineSample.start _
           (DataProcessing.preprocess (list string) (list string)
              PipelineSample.preprocess_frame PipelineSample.start).1).
  - lia.
  - reflexivity.
  - apply surjective_pairing.
Defined.

Lemma step_without_frame_is_refused_witness :
  exists msg,
    DataProcessing.label_encode (list string) (list string)
      PipelineSample.fit_transform PipelineSample.start =
    (Raise (CustomException (Text "Failed to label encode data")
              (Some (ValueError (Text "Dataframe is not loaded. Call `load_data()` first.")))
              None
              (Some (ValueError (Text "Dataframe is not loaded. Call `load_data()` first.")))),
     {| DataProcessing.input_path := "artifacts/raw/data.csv";
        DataProcessing.output_path := "artifacts/processed";
        DataProcessing.df := None;
        DataProcessing.log :=
          [DataProcessing.Info "Data Processing initialised.";
           DataProcessing.Error msg
             (ValueError (Text "Dataframe is not loaded. Call `load_data()` first."))];
        DataProcessing.files := [] |}).
Proof.
  apply (step_without_frame_is_refused (list string) (list string)
           PipelineSample.read_csv PipelineSample.preprocess_frame
           PipelineSample.fit_transform PipelineSample.split_target
           PipelineSample.train_test_split PipelineSample.joblib_dump
           2%nat
           (DataProcessing.label_encode (list string) (list string)
              PipelineSample.fit_transform)
           "Failed to label encode data" PipelineSample.start).
  - lia.
  - reflexivity.
  - reflexivity.
Defined.

Lemma run_failure_is_a_wrapped_step_witness :
  exists s',
    PipelineSample.run PipelineSample.start
    = (Raise (CustomException (Text "Failed to preprocess data")
                (Some (KeyError "Date")) None (Some (KeyError "Date"))), s') /\
    exists (i : nat) step body (ctx msg : string) s_i s0,
      PipelineSample.STEPS !! i = Some (step, ctx) /\
      DataProcessing.TRY_BLOCKS (list string) (list string)
        PipelineSample.read_csv PipelineSample.preprocess_frame
        PipelineSample.fit_transform PipelineSample.split_target
        PipelineSample.train_test_split PipelineSample.joblib_dump !! i
      = Some (body, msg) /\
      DataProcessing.run_steps (list string) (list string)
        (take i PipelineSample.STEPS) PipelineSample.start = (Ok tt, s_i) /\
      body s_i = (Raise (KeyError "Date"), s0) /\
      ctx = "Failed to preprocess data" /\
      s' = (DataProcessing.logger (list string) (list string)
              (DataProcessing.Error msg (KeyError "Date")) s0).2 /\
      last (DataProcessing.log (list string) (list string) s')
      = Some (DataProcessing.Error msg (KeyError "Date")).
Proof.
  eexists. split; [vm_compute; reflexivity|].
  destruct (run_failure_is_a_wrapped_step (list string) (list string)
              PipelineSample.read_csv PipelineSample.preprocess_frame
              PipelineSample.fit_transform PipelineSample.split_target
              PipelineSample.train_test_split PipelineSample.joblib_dump
              PipelineSample.start _ _ ltac:(vm_compute; reflexivity))
    as (i & step & body & ctx & msg & s_i & orig & s0 &
        Hi & Hb & Hpre & Hbody & He & Hs' & Hl).
  injection He as <- <-.
  exists i, step, body, "Failed to preprocess data", msg, s_i, s0.
  split; [exact Hi|]. split; [exact Hb|]. split; [exact Hpre|].
  split; [exact Hbody|]. split; [reflexivity|]. split; [exact Hs'|exact Hl].
Defined.

Lemma successful_run_writes_the_four_splits_witness :
  exists s',
    PipelineRuns.run PipelineSample.start = (Ok tt, s') /\
    exists d x y a1 a2 a3 a4,
      DataProcessing.df (list string) (list string) s' = Some d /\
      PipelineSample.split_target d = Ok (x, y) /\
      PipelineSample.train_test_split x y = Ok (a1, a2, a3, a4) /\
      DataProcessing.files (list string) (list string) s'
      = [ ("artifacts/processed/X_train.pkl", a1);
          ("artifacts/processed/X_test.pkl", a2);
          ("artifacts/processed/y_train.pkl", a3);
          ("artifacts/processed/y_test.pkl", a4) ] /\
      last (DataProcessing.log (list string) (list string) s')
      = Some (DataProcessing.Info "Data processing completed.").
Proof.
  eexists. split; [vm_compute; reflexivity|].
  eapply (successful_run_writes_the_four_splits (list string) (list string)
            PipelineRuns.read_csv PipelineSample.preprocess_frame
            PipelineSample.fit_transform PipelineSample.split_target
            PipelineSample.train_test_split PipelineSample.joblib_dump
            PipelineSample.start).
  vm_compute. reflexivity.
Defined.

Lemma failed_dump_keeps_earlier_files_witness :
  exists s' a1,
    PipelineRuns.split_data_refused PipelineRuns.encoded
    = (Raise (CustomException (Text "Failed to split data")
                (Some (LibraryError "OSError" (Text "No space left on device")))
                None
                (Some (LibraryError "OSError" (Text "No space left on device")))),
       s') /\
    DataProcessing.files (list string) (list string) s'
    = [ ("artifacts/processed/X_train.pkl", a1) ].
Proof.
  destruct (failed_dump_keeps_earlier_files (list string) (list string)
              PipelineSample.split_target PipelineSample.train_test_split
              PipelineRuns.joblib_dump_refusing
              PipelineRuns.encoded
              [ "Date"; "Location"; "WindGustDir"; "WindDir9am"; "WindDir3pm";
                "RainToday"; "RainTomorrow" ]
              [ "Date"; "Location"; "WindGustDir"; "WindDir9am"; "WindDir3pm";
                "RainToday" ]
              [ "RainTomorrow" ]
              [ "Date"; "Location"; "WindGustDir"; "WindDir9am"; "WindDir3pm";
                "RainToday" ]
              [ "Date"; "Location"; "WindGustDir"; "WindDir9am"; "WindDir3pm";
                "RainToday" ]
              [ "RainTomorrow" ] [ "RainTomorrow" ]
              1%nat
              [ "Date"; "Location"; "WindGustDir"; "WindDir9am"; "WindDir3pm";
                "RainToday" ]
              "X_test.pkl"
              (LibraryError "OSError" (Text "No space left on device")))
    as (s' & Hrun & Hfiles).
  - vm_compute. reflexivity.
  - vm_compute. reflexivity.
  - reflexivity.
  - reflexivity.
  - intros [|j] a' name' Hj Hl; [|lia]. injection Hl as <- <-.
    vm_compute. reflexivity.
  - vm_compute. reflexivity.
  - exists s', [ "Date"; "Location"; "WindGustDir"; "WindDir9am"; "WindDir3pm";
                 "RainToday" ].
    split; [exact Hrun|]. rewrite Hfiles. vm_compute. reflexivity.
Defined.

Lemma label_encode_encodes_in_order_witness :
  exists s' e,
    DataProcessing.label_encode (list string) (list string) PipelineSample.fit_transform
      (DataProcessing.load_data (list string) (list string) PipelineSample.read_csv
         PipelineSample.start).2
    = (Raise e, s') /\
    exists (k : nat) (d_k : list string),
      foldl (fun (acc : result (list string)) (col : string) =>
               acc ≫= PipelineSample.fit_transform col)
        (Ok ["Location"; "MinTemp"; "RainTomorrow"])
        (take k DataProcessing.CATEGORICAL) = Ok d_k /\
      DataProcessing.df (list string) (list string) s' = Some d_k /\
      exists col orig,
        DataProcessing.CATEGORICAL !! k = Some col /\
        PipelineSample.fit_transform col d_k = Raise orig /\
        e = CustomException (Text "Failed to label encode data")
              (Some orig) None (Some orig).
Proof.
  eexists. eexists. split; [vm_compute; reflexivity|].
  apply (label_encode_encodes_in_order (list string) (list string)
           PipelineSample.fit_transform
           (DataProcessing.load_data (list string) (list string) PipelineSample.read_csv
              PipelineSample.start).2
           _ ["Location"; "MinTemp"; "RainTomorrow"] (Raise _)).
  - vm_compute. reflexivity.
  - vm_compute. reflexivity.
Defined.

(** ** [src/model_training.py]: what training leaves behind *)

Section TrainingProps.

Variable artefact : Type.
Variable classifier : Type.
Variable predictions : Type.
Variable joblib_load : string -> result artefact.
Variable fit :
  classifier -> option artefact -> option artefact -> classifier * option exn.
Variable joblib_dump : classifier -> string -> option exn.
Variable score : classifier -> option artefact -> option artefact -> option exn.
Variable predict : classifier -> option artefact -> result predictions.
Variable accuracy_score : option artefact -> predictions -> option exn.
Variable precision_score : option artefact -> predictions -> option exn.
Variable recall_score : option artefact -> predictions -> option exn.
Variable f1_score : option artefact -> predictions -> option exn.

Abbreviation state := (ModelTraining.state artefact classifier).
Abbreviation M := (ModelTraining.M artefact classifier).
Abbreviation load_data := (ModelTraining.load_data artefact classifier joblib_load).
Abbreviation train_model :=
  (ModelTraining.train_model artefact classifier fit joblib_dump).
Abbreviation eval_model :=
  (ModelTraining.eval_model artefact classifier predictions score predict
     accuracy_score precision_score recall_score f1_score).
Abbreviation load_data_body :=
  (ModelTraining.load_data_body artefact classifier joblib_load).
Abbreviation train_model_body :=
  (ModelTraining.train_model_body artefact classifier fit joblib_dump).
Abbreviation eval_model_body :=
  (ModelTraining.eval_model_body artefact classifier predictions score predict
     accuracy_score precision_score recall_score f1_score).
Abbreviation logger := (ModelTraining.logger artefact classifier).
Abbreviation run :=
  (ModelTraining.run artefact classifier predictions joblib_load fit joblib_dump
     score predict accuracy_score precision_score recall_score f1_score).
Abbreviation input_path := (ModelTraining.input_path artefact classifier).
Abbreviation output_path := (ModelTraining.output_path artefact classifier).
Abbreviation model := (ModelTraining.model artefact classifier).
Abbreviation X_train := (ModelTraining.X_train artefact classifier).
Abbreviation X_test := (ModelTraining.X_test artefact classifier).
Abbreviation y_train := (ModelTraining.y_train artefact classifier).
Abbreviation y_test := (ModelTraining.y_test artefact classifier).
Abbreviation log := (ModelTraining.log artefact classifier).
Abbreviation files := (ModelTraining.files artefact classifier).

Lemma training_bind_Ok_inv {A B} (m : M A) (f : A -> M B) (s s' : state) (b : B) :
  ModelTraining.bind artefact classifier m f s = (Ok b, s') ->
  exists a s1, m s = (Ok a, s1) /\ f a s1 = (Ok b, s').
Proof.
  unfold ModelTraining.bind. destruct (m s) as [[a|e] s1]; intros H.
  - eauto.
  - discriminate H.
Qed.

Lemma training_bind_Raise_inv {A B} (m : M A) (f : A -> M B) (s s' : state) (e : exn) :
  ModelTraining.bind artefact classifier m f s = (Raise e, s') ->
  m s = (Raise e, s') \/ exists a s1, m s = (Ok a, s1) /\ f a s1 = (Raise e, s').
Proof.
  unfold ModelTraining.bind. destruct (m s) as [[a|e0] s1]; intros H.
  - right. eauto.
  - left. injection H as <- <-. reflexivity.
Qed.

(** What a step's [except] block does with the exception of its body. *)
Lemma training_wrapped_failure {A} (body : M A) (msg ctx : string)
    (s s' : state) (e : exn) :
  ModelTraining.try_except artefact classifier body
    (fun e =>
       ModelTraining.bind artefact classifier
         (ModelTraining.logger artefact classifier (DataProcessing.Error msg e))
         (fun _ => ModelTraining.reraise artefact classifier ctx e)) s
  = (Raise e, s') ->
  exists orig s0,
    body s = (Raise orig, s0) /\
    e = CustomException (Text ctx) (Some orig) None (Some orig) /\
    s' = (logger (DataProcessing.Error msg orig) s0).2 /\
    last (log s') = Some (DataProcessing.Error msg orig).
Proof.
  unfold ModelTraining.try_except. destruct (body s) as [[a|orig] s0]; intros H.
  - discriminate H.
  - exists orig, s0. split; [reflexivity|].
    unfold ModelTraining.bind, ModelTraining.logger, ModelTraining.reraise,
      ModelTraining.raise in H.
    injection H as <- <-. split; [reflexivity|]. split; [reflexivity|]. apply last_snoc.
Qed.

(** Training that fails has failed in one of its three steps, after the
    steps before it succeeded, and ends in the state that step left. *)
Lemma training_Raise_step (s s' : state) (e : exn) :
  run s = (Raise e, s') ->
  load_data s = (Raise e, s') \/
  (exists s1, load_data s = (Ok tt, s1) /\ train_model s1 = (Raise e, s')) \/
  (exists s1 s2,
     load_data s = (Ok tt, s1) /\ train_model s1 = (Ok tt, s2) /\
     eval_model s2 = (Raise e, s')).
Proof.
  intros H. unfold ModelTraining.run in H.
  apply training_bind_Raise_inv in H as [H|([] & s1 & H1 & H)];
    [left; exact H|].
  apply training_bind_Raise_inv in H as [H|([] & s2 & H2 & H)];
    [right; left; exists s1; split; [exact H1|exact H]|].
  apply training_bind_Raise_inv in H as [H|([] & s3 & H3 & H)];
    [right; right; exists s1, s2; split; [exact H1|]; split; [exact H2|exact H]|].
  discriminate H.
Qed.

(** X26. Training fails only in one of its three steps, after the steps
    before it succeeded: the [try] block of that step raised an exception,
    and training raises the [CustomException] of the step around that very
    exception, in the state the [try] block left with one record added to
    the log, the step's error record for that exception. *)
Theorem training_failure_is_a_wrapped_step (s s' : state) (e : exn) :
  run s = (Raise e, s') ->
  (exists orig s0,
     load_data_body s = (Raise orig, s0) /\
     e = CustomException (Text "Failed to load data") (Some orig) None (Some orig) /\
     s' = (logger (DataProcessing.Error "Error while loading data: %s" orig) s0).2 /\
     last (log s') = Some (DataProcessing.Error "Error while loading data: %s" orig)) \/
  (exists s1 orig s0,
     load_data s = (Ok tt, s1) /\
     train_model_body s1 = (Raise orig, s0) /\
     e = CustomException (Text "Failed to train model") (Some orig) None (Some orig) /\
     s' = (logger (DataProcessing.Error "Error while training model: %s" orig) s0).2 /\
     last (log s') = Some (DataProcessing.Error "Error while training model: %s" orig)) \/
  (exists s1 s2 orig s0,
     load_data s = (Ok tt, s1) /\ train_model s1 = (Ok tt, s2) /\
     eval_model_body s2 = (Raise orig, s0) /\
     e = CustomException (Text "Failed to evaluate model") (Some orig) None (Some orig) /\
     s' = (logger (DataProcessing.Error "Error while evaluating model: %s" orig) s0).2 /\
     last (log s') = Some (DataProcessing.Error "Error while evaluating model: %s" orig)).
Proof.
  intros H.
  apply training_Raise_step in H as [H|[(s1 & H1 & H)|(s1 & s2 & H1 & H2 & H)]];
    apply training_wrapped_failure in H as (orig & s0 & Hbody & He & Hs' & Hl).
  - left. exists orig, s0. split; [exact Hbody|]. split; [exact He|].
    split; [exact Hs'|exact Hl].
  - right. left. exists s1, orig, s0. split; [exact H1|]. split; [exact Hbody|].
    split; [exact He|]. split; [exact Hs'|exact Hl].
  - right. right. exists s1, s2, orig, s0. split; [exact H1|]. split; [exact H2|].
    split; [exact Hbody|]. split; [exact He|]. split; [exact Hs'|exact Hl].
Qed.

(** *** The three steps, one by one *)

Ltac unfold_training :=
  cbv beta iota zeta delta
    [ModelTraining.load_data ModelTraining.train_model ModelTraining.eval_model
     ModelTraining.load_data_body ModelTraining.train_model_body
     ModelTraining.eval_model_body
     ModelTraining.load ModelTraining.try_except ModelTraining.bind
     ModelTraining.get ModelTraining.lift ModelTraining.call ModelTraining.ret
     ModelTraining.raise ModelTraining.reraise ModelTraining.logger
     ModelTraining.set_model ModelTraining.set_X_train ModelTraining.set_X_test
     ModelTraining.set_y_train ModelTraining.set_y_test ModelTraining.write_file].

(** When the four files load, [load_data] stores them and logs it. *)
Lemma load_data_Ok (s : state) (a1 a2 a3 a4 : artefact) :
  joblib_load (input_path s ++ "/" ++ "X_train.pkl")%string = Ok a1 ->
  joblib_load (input_path s ++ "/" ++ "X_test.pkl")%string = Ok a2 ->
  joblib_load (input_path s ++ "/" ++ "y_train.pkl")%string = Ok a3 ->
  joblib_load (input_path s ++ "/" ++ "y_test.pkl")%string = Ok a4 ->
  load_data s =
  (Ok tt,
   {| ModelTraining.input_path := input_path s;
      ModelTraining.output_path := output_path s;
      ModelTraining.model := model s;
      ModelTraining.X_train := Some a1; ModelTraining.X_test := Some a2;
      ModelTraining.y_train := Some a3; ModelTraining.y_test := Some a4;
      ModelTraining.log :=
        log s ++ [DataProcessing.Info "Preprocessed data loaded successfully."];
      ModelTraining.files := files s |}).
Proof.
  intros H1 H2 H3 H4. unfold_training. cbn [ModelTraining.input_path].
  rewrite H1. cbv beta iota. rewrite H2. cbv beta iota.
  rewrite H3. cbv beta iota. rewrite H4. reflexivity.
Qed.

Lemma load_data_Ok_inv (s s' : state) :
  load_data s = (Ok tt, s') ->
  exists a1 a2 a3 a4,
    joblib_load (input_path s ++ "/" ++ "X_train.pkl")%string = Ok a1 /\
    joblib_load (input_path s ++ "/" ++ "X_test.pkl")%string = Ok a2 /\
    joblib_load (input_path s ++ "/" ++ "y_train.pkl")%string = Ok a3 /\
    joblib_load (input_path s ++ "/" ++ "y_test.pkl")%string = Ok a4 /\
    s' =
    {| ModelTraining.input_path := input_path s;
       ModelTraining.output_path := output_path s;
       ModelTraining.model := model s;
       ModelTraining.X_train := Some a1; ModelTraining.X_test := Some a2;
       ModelTraining.y_train := Some a3; ModelTraining.y_test := Some a4;
       ModelTraining.log :=
         log s ++ [DataProcessing.Info "Preprocessed data loaded successfully."];
       ModelTraining.files := files s |}.
Proof.
  intros H.
  destruct (joblib_load (input_path s ++ "/" ++ "X_train.pkl")%string) as [a1|e1] eqn:H1;
    [|revert H; unfold_training; cbn [ModelTraining.input_path]; rewrite H1;
      discriminate].
  destruct (joblib_load (input_path s ++ "/" ++ "X_test.pkl")%string) as [a2|e2] eqn:H2;
    [|revert H; unfold_training; cbn [ModelTraining.input_path]; rewrite H1;
      cbv beta iota; rewrite H2; discriminate].
  destruct (joblib_load (input_path s ++ "/" ++ "y_train.pkl")%string) as [a3|e3] eqn:H3;
    [|revert H; unfold_training; cbn [ModelTraining.input_path]; rewrite H1;
      cbv beta iota; rewrite H2; cbv beta iota; rewrite H3; discriminate].
  destruct (joblib_load (input_path s ++ "/" ++ "y_test.pkl")%string) as [a4|e4] eqn:H4;
    [|revert H; unfold_training; cbn [ModelTraining.input_path]; rewrite H1;
      cbv beta iota; rewrite H2; cbv beta iota; rewrite H3; cbv beta iota;
      rewrite H4; discriminate].
  rewrite (load_data_Ok s a1 a2 a3 a4 H1 H2 H3 H4) in H. injection H as <-.
  exists a1, a2, a3, a4. repeat split; reflexivity.
Qed.

(** [train_model] keeps the paths and the splits; the classifier is the
    one [fit] left, whether it raised or not; the only file it can write is
    that classifier under [model.pkl], and it does when it succeeds. *)
Lemma train_model_outcome (s s' : state) (r : result unit) :
  train_model s = (r, s') ->
  input_path s' = input_path s /\ output_path s' = output_path s /\
  X_train s' = X_train s /\ X_test s' = X_test s /\
  y_train s' = y_train s /\ y_test s' = y_test s /\
  model s' = (fit (model s) (X_train s) (y_train s)).1 /\
  match r with
  | Ok _ =>
      (fit (model s) (X_train s) (y_train s)).2 = None /\
      joblib_dump (model s') (output_path s ++ "/" ++ "model.pkl")%string = None /\
      files s' = (files s ++ [((output_path s ++ "/" ++ "model.pkl")%string, model s')])%list /\
      log s' = (log s ++ [DataProcessing.Info "Model trained and saved successfully at %s"])%list
  | Raise _ => files s' = files s
  end.
Proof.
  unfold_training.
  destruct (fit (model s) (X_train s) (y_train s)) as [m [e|]]; cbv beta iota.
  - intros H. injection H as <- <-. cbn. repeat split; reflexivity.
  - destruct (joblib_dump m (output_path s ++ "/" ++ "model.pkl")%string) as [e|] eqn:Hd;
      cbv beta iota; intros H; injection H as <- <-; cbn; repeat split;
      try reflexivity; exact Hd.
Qed.

(** [eval_model] ends in the state it started in, with records added to
    the log. *)
Lemma eval_model_frame (s s' : state) (r : result unit) :
  eval_model s = (r, s') ->
  exists l,
    s' =
    {| ModelTraining.input_path := input_path s;
       ModelTraining.output_path := output_path s;
       ModelTraining.model := model s;
       ModelTraining.X_train := X_train s; ModelTraining.X_test := X_test s;
       ModelTraining.y_train := y_train s; ModelTraining.y_test := y_test s;
       ModelTraining.log := log s ++ l;
       ModelTraining.files := files s |}.
Proof.
  unfold_training.
  destruct (score (model s) (X_train s) (y_train s)) as [e|]; cbv beta iota.
  { intros H. injection H as _ <-. eexists. cbn. reflexivity. }
  cbn [ModelTraining.model ModelTraining.X_test ModelTraining.y_test].
  destruct (predict (model s) (X_test s)) as [y_pred|e]; cbv beta iota.
  2:{ intros H. injection H as _ <-. eexists. cbn. rewrite <- app_assoc. reflexivity. }
  destruct (accuracy_score (y_test s) y_pred) as [e|]; cbv beta iota.
  { intros H. injection H as _ <-. eexists. cbn. rewrite <- app_assoc. reflexivity. }
  destruct (precision_score (y_test s) y_pred) as [e|]; cbv beta iota.
  { intros H. injection H as _ <-. eexists. cbn. rewrite <- app_assoc. reflexivity. }
  destruct (recall_score (y_test s) y_pred) as [e|]; cbv beta iota.
  { intros H. injection H as _ <-. eexists. cbn. rewrite <- app_assoc. reflexivity. }
  destruct (f1_score (y_test s) y_pred) as [e|]; cbv beta iota.
  { intros H. injection H as _ <-. eexists. cbn. rewrite <- app_assoc. reflexivity. }
  intros H. injection H as _ <-. eexists. cbn. rewrite <- !app_assoc. reflexivity.
Qed.

(** X27. Evaluation changes nothing but the log, which it only extends: the
    classifier, the splits, the paths and the files stay as they were,
    whether the evaluation succeeds or fails. *)
Theorem eval_model_changes_only_the_log (s s' : state) (r : result unit) :
  eval_model s = (r, s') ->
  input_path s' = input_path s /\ output_path s' = output_path s /\
  model s' = model s /\
  X_train s' = X_train s /\ X_test s' = X_test s /\
  y_train s' = y_train s /\ y_test s' = y_test s /\
  files s' = files s /\
  log s `prefix_of` log s'.
Proof.
  intros H. apply eval_model_frame in H as [l ->]. cbn.
  split; [reflexivity|]. split; [reflexivity|]. split; [reflexivity|].
  split; [reflexivity|]. split; [reflexivity|]. split; [reflexivity|].
  split; [reflexivity|]. split; [reflexivity|].
  apply prefix_app_r. reflexivity.
Qed.

(** X28. Training that ends well has loaded the four splits from the input
    path, fitted the classifier on the training pair without an error, and
    written that classifier, and nothing else, as [model.pkl] under the
    output path. *)
Theorem successful_training_writes_the_fitted_model (s s' : state) :
  run s = (Ok tt, s') ->
  exists a1 a2 a3 a4,
    joblib_load (input_path s ++ "/" ++ "X_train.pkl")%string = Ok a1 /\
    joblib_load (input_path s ++ "/" ++ "X_test.pkl")%string = Ok a2 /\
    joblib_load (input_path s ++ "/" ++ "y_train.pkl")%string = Ok a3 /\
    joblib_load (input_path s ++ "/" ++ "y_test.pkl")%string = Ok a4 /\
    fit (model s) (Some a1) (Some a3) = (model s', None) /\
    files s' = (files s ++ [((output_path s ++ "/" ++ "model.pkl")%string, model s')])%list /\
    last (log s')
    = Some (DataProcessing.Info "Model training and evaluation completed successfully.").
Proof.
  intros H. unfold ModelTraining.run in H.
  apply training_bind_Ok_inv in H as ([] & s1 & H1 & H).
  apply training_bind_Ok_inv in H as ([] & s2 & H2 & H).
  apply training_bind_Ok_inv in H as ([] & s3 & H3 & H).
  apply load_data_Ok_inv in H1 as (a1 & a2 & a3 & a4 & L1 & L2 & L3 & L4 & ->).
  apply train_model_outcome in H2
    as (_ & _ & _ & _ & _ & _ & Hm & Hfit & _ & Hfiles & _).
  apply eval_model_frame in H3 as [l ->].
  cbn in Hm, Hfit, Hfiles.
  unfold ModelTraining.logger in H. injection H as <-. cbn.
  exists a1, a2, a3, a4.
  split; [exact L1|]. split; [exact L2|]. split; [exact L3|]. split; [exact L4|].
  split.
  - rewrite Hm. destruct (fit (model s) (Some a1) (Some a3)) as [m f].
    cbn in Hfit |- *. rewrite Hfit. reflexivity.
  - split; [|apply last_snoc]. rewrite Hfiles. reflexivity.
Qed.

(** When the four files load, whatever training does next, it ends with
    those four splits stored and with the classifier that [fit] left when
    it was given the training pair. *)
Lemma run_with_loaded_splits (s s' : state) (r : result unit) (a1 a2 a3 a4 : artefact) :
  joblib_load (input_path s ++ "/" ++ "X_train.pkl")%string = Ok a1 ->
  joblib_load (input_path s ++ "/" ++ "X_test.pkl")%string = Ok a2 ->
  joblib_load (input_path s ++ "/" ++ "y_train.pkl")%string = Ok a3 ->
  joblib_load (input_path s ++ "/" ++ "y_test.pkl")%string = Ok a4 ->
  run s = (r, s') ->
  X_train s' = Some a1 /\ X_test s' = Some a2 /\
  y_train s' = Some a3 /\ y_test s' = Some a4 /\
  model s' = (fit (model s) (Some a1) (Some a3)).1.
Proof.
  intros R1 R2 R3 R4 H.
  pose proof (load_data_Ok s a1 a2 a3 a4 R1 R2 R3 R4) as HL.
  unfold ModelTraining.run in H.
  unfold ModelTraining.bind at 1 in H. rewrite HL in H.
  unfold ModelTraining.bind at 1 in H.
  match type of H with
  | context [ModelTraining.train_model ?A ?C ?f ?jd ?t1] =>
      destruct (ModelTraining.train_model A C f jd t1) as [r2 t2] eqn:HT;
      apply train_model_outcome in HT as (_ & _ & T1 & T2 & T3 & T4 & Tm & _)
  end.
  cbn in T1, T2, T3, T4, Tm.
  destruct r2 as [[]|e2].
  - unfold ModelTraining.bind at 1 in H.
    destruct (eval_model t2) as [r3 t3] eqn:HE.
    apply eval_model_frame in HE as [l0 HE].
    assert (model t3 = model t2 /\ X_train t3 = X_train t2 /\ X_test t3 = X_test t2 /\
            y_train t3 = y_train t2 /\ y_test t3 = y_test t2)
      as (Em & E1 & E2 & E3 & E4)
      by (rewrite HE; cbn; repeat split; reflexivity).
    assert (s' = t3 \/ exists l, s' = (logger l t3).2) as [->|[l ->]].
    { destruct r3 as [[]|e3]; injection H as _ <-;
        [right; eexists; reflexivity|left; reflexivity]. }
    + repeat split; congruence.
    + cbn. repeat split; congruence.
  - injection H as _ <-. repeat split; assumption.
Qed.

End TrainingProps.

(** ** [pipeline/training_pipeline.py]: the hand-over between the stages *)

Section ScriptProps.

Variable DataFrame : Type.
Variable artefact : Type.
Variable classifier : Type.
Variable predictions : Type.
Variable makedirs : string -> option exn.
Variable read_csv : string -> result DataFrame.
Variable preprocess_frame : DataFrame -> DataFrame * option exn.
Variable fit_transform : string -> DataFrame -> result DataFrame.
Variable split_target : DataFrame -> result (DataFrame * DataFrame).
Variable train_test_split :
  DataFrame -> DataFrame -> result (artefact * artefact * artefact * artefact).
Variable joblib_dump : artefact -> string -> option exn.
Variable disk : string -> result artefact.
Variable XGBClassifier : result classifier.
Variable fit :
  classifier -> option artefact -> option artefact -> classifier * option exn.
Variable joblib_dump_model : classifier -> string -> option exn.
Variable score : classifier -> option artefact -> option artefact -> option exn.
Variable predict : classifier -> option artefact -> result predictions.
Variable accuracy_score : option artefact -> predictions -> option exn.
Variable precision_score : option artefact -> predictions -> option exn.
Variable recall_score : option artefact -> predictions -> option exn.
Variable f1_score : option artefact -> predictions -> option exn.

Abbreviation main :=
  (TrainingPipeline.main DataFrame artefact classifier predictions makedirs read_csv
     preprocess_frame fit_transform split_target train_test_split joblib_dump disk
     XGBClassifier fit joblib_dump_model score predict
     accuracy_score precision_score recall_score f1_score).
Abbreviation new_processor :=
  (DataProcessing.created DataFrame artefact
     "artifacts/raw/data.csv" "artifacts/processed").
Abbreviation processing :=
  (DataProcessing.run DataFrame artefact read_csv preprocess_frame fit_transform
     split_target train_test_split joblib_dump new_processor).
Abbreviation STEPS :=
  (DataProcessing.STEPS DataFrame artefact read_csv preprocess_frame fit_transform
     split_target train_test_split joblib_dump).
Abbreviation TRY_BLOCKS :=
  (DataProcessing.TRY_BLOCKS DataFrame artefact read_csv preprocess_frame fit_transform
     split_target train_test_split joblib_dump).
Abbreviation new_trainer m :=
  (ModelTraining.created artefact classifier m
     "artifacts/processed" "artifacts/models").
Abbreviation written s1 :=
  (TrainingPipeline.read_back disk (DataProcessing.files DataFrame artefact s1)).
Abbreviation training s1 :=
  (ModelTraining.run artefact classifier predictions (written s1)
     fit joblib_dump_model score predict
     accuracy_score precision_score recall_score f1_score).
Abbreviation processor := (TrainingPipeline.processor DataFrame artefact classifier).
Abbreviation trainer := (TrainingPipeline.trainer DataFrame artefact classifier).
Abbreviation raised := (TrainingPipeline.raised DataFrame artefact classifier).

(** X29. The script ends with an exception in exactly four ways.  The
    constructor of the processor raised (its [os.makedirs]): no object
    exists.  Or a step of the first stage failed: the script ends with the
    [CustomException] of that step around the exception its [try] block
    raised, and no trainer exists.  Or the first stage ended well and the
    constructor of the trainer raised ([XGBClassifier()] or its
    [os.makedirs]): no trainer exists.  Or a step of the second stage
    failed, with the [CustomException] of that step around the exception
    its [try] block raised. *)
Theorem script_failure_origin (e : exn) :
  raised main = Some e ->
  (makedirs "artifacts/processed" = Some e /\
   processor main = None /\ trainer main = None) \/
  (exists s1,
     makedirs "artifacts/processed" = None /\
     processing = (Raise e, s1) /\
     processor main = Some s1 /\ trainer main = None /\
     exists (i : nat) step body (ctx msg : string) s_i (orig : exn) s0,
       STEPS !! i = Some (step, ctx) /\
       TRY_BLOCKS !! i = Some (body, msg) /\
       DataProcessing.run_steps DataFrame artefact (take i STEPS) new_processor
       = (Ok tt, s_i) /\
       body s_i = (Raise orig, s0) /\
       e = CustomException (Text ctx) (Some orig) None (Some orig)) \/
  (exists s1,
     makedirs "artifacts/processed" = None /\
     processing = (Ok tt, s1) /\
     processor main = Some s1 /\ trainer main = None /\
     (XGBClassifier = Raise e \/
      exists m, XGBClassifier = Ok m /\ makedirs "artifacts/models" = Some e)) \/
  (exists s1 m s2,
     makedirs "artifacts/processed" = None /\
     processing = (Ok tt, s1) /\
     XGBClassifier = Ok m /\ makedirs "artifacts/models" = None /\
     training s1 (new_trainer m) = (Raise e, s2) /\
     processor main = Some s1 /\ trainer main = Some s2 /\
     ((exists orig s0,
         ModelTraining.load_data_body artefact classifier (written s1) (new_trainer m)
         = (Raise orig, s0) /\
         e = CustomException (Text "Failed to load data") (Some orig) None (Some orig)) \/
      (exists t1 orig s0,
         ModelTraining.load_data artefact classifier (written s1) (new_trainer m)
         = (Ok tt, t1) /\
         ModelTraining.train_model_body artefact classifier fit joblib_dump_model t1
         = (Raise orig, s0) /\
         e = CustomException (Text "Failed to train model") (Some orig) None (Some orig)) \/
      (exists t1 t2 orig s0,
         ModelTraining.load_data artefact classifier (written s1) (new_trainer m)
         = (Ok tt, t1) /\
         ModelTraining.train_model artefact classifier fit joblib_dump_model t1
         = (Ok tt, t2) /\
         ModelTraining.eval_model_body artefact classifier predictions score predict
           accuracy_score precision_score recall_score f1_score t2
         = (Raise orig, s0) /\
         e = CustomException (Text "Failed to evaluate model")
               (Some orig) None (Some orig)))).
Proof.
  intros Hr. unfold TrainingPipeline.main, DataProcessing.init in Hr |- *.
  destruct (makedirs "artifacts/processed") as [e0|] eqn:Hmk1;
    cbv beta iota in Hr |- *.
  { cbn in Hr |- *. injection Hr as <-. left. repeat split; reflexivity. }
  right.
  destruct processing as [[[]|e1] s1] eqn:H1; cbv beta iota in Hr |- *.
  2:{ cbn in Hr |- *. injection Hr as <-. left. exists s1.
      split; [reflexivity|]. split; [reflexivity|]. split; [reflexivity|].
      split; [reflexivity|].
      apply run_Raise_step in H1
        as (i & step & body & ctx & msg & s_i & Hi & Hb & Hpre & Hstep).
      destruct (step_failure _ _ _ _ _ _ _ _ i step body ctx msg s_i s1 e1 Hi Hb Hstep)
        as (orig & s0 & Hbody & He & _).
      exists i, step, body, ctx, msg, s_i, orig, s0.
      split; [exact Hi|]. split; [exact Hb|]. split; [exact Hpre|].
      split; [exact Hbody|exact He]. }
  right. unfold ModelTraining.init in Hr |- *.
  destruct XGBClassifier as [m|e2] eqn:Hx.
  2:{ rewrite bind_Raise in Hr |- *. cbn in Hr |- *. injection Hr as <-. left.
      exists s1.
      split; [reflexivity|]. split; [reflexivity|]. split; [reflexivity|].
      split; [reflexivity|]. left. reflexivity. }
  rewrite bind_Ok in Hr |- *.
  destruct (makedirs "artifacts/models") as [e3|] eqn:Hmk2;
    cbv beta iota in Hr |- *.
  { cbn in Hr |- *. injection Hr as <-. left. exists s1.
    split; [reflexivity|]. split; [reflexivity|]. split; [reflexivity|].
    split; [reflexivity|]. right. exists m. split; reflexivity. }
  right.
  destruct (training s1 (new_trainer m)) as [[[]|e4] s2] eqn:H2;
    cbn in Hr |- *; [discriminate Hr|]. injection Hr as <-.
  exists s1, m, s2.
  split; [reflexivity|]. split; [reflexivity|]. split; [reflexivity|].
  split; [reflexivity|]. split; [exact H2|]. split; [reflexivity|].
  split; [reflexivity|].
  apply training_Raise_step in H2 as [H|[(t1 & L1 & H)|(t1 & t2 & L1 & L2 & H)]];
    apply training_wrapped_failure in H as (orig & s0 & Hbody & He & _).
  - left. exists orig, s0. split; [exact Hbody|exact He].
  - right. left. exists t1, orig, s0. split; [exact L1|]. split; [exact Hbody|exact He].
  - right. right. exists t1, t2, orig, s0. split; [exact L1|]. split; [exact L2|].
    split; [exact Hbody|exact He].
Qed.

(** X30. When both constructors return and the first stage ends well, the
    trainer loads exactly the four splits that the first stage wrote: both
    stages name the same directory and the same four files, and nothing
    that the disk held before is read.  The classifier the trainer ends
    with is the one fitted on the training pair of those splits. *)
Theorem script_trains_on_the_written_splits
    (s1 : DataProcessing.state DataFrame artefact) (m : classifier) :
  makedirs "artifacts/processed" = None ->
  processing = (Ok tt, s1) ->
  XGBClassifier = Ok m ->
  makedirs "artifacts/models" = None ->
  exists d x y a1 a2 a3 a4 s2,
    DataProcessing.df DataFrame artefact s1 = Some d /\
    split_target d = Ok (x, y) /\
    train_test_split x y = Ok (a1, a2, a3, a4) /\
    processor main = Some s1 /\
    trainer main = Some s2 /\
    ModelTraining.X_train artefact classifier s2 = Some a1 /\
    ModelTraining.X_test artefact classifier s2 = Some a2 /\
    ModelTraining.y_train artefact classifier s2 = Some a3 /\
    ModelTraining.y_test artefact classifier s2 = Some a4 /\
    ModelTraining.model artefact classifier s2 = (fit m (Some a1) (Some a3)).1.
Proof.
  intros Hmk1 H1 Hx Hmk2.
  pose proof H1 as Hrun.
  apply run_Ok_steps in Hrun as (s3 & s4 & F & O & Hsplit & Hs1).
  apply split_data_Ok_inv in Hsplit
    as (d & x & y & a1 & a2 & a3 & a4 & _ & Hdf & Hxy & Htts & Hfiles).
  rewrite F, O in Hfiles.
  assert (DataProcessing.df DataFrame artefact s1 = Some d) as Hdf1
    by (rewrite Hs1; exact Hdf).
  assert (DataProcessing.files DataFrame artefact s1
          = DataProcessing.files DataFrame artefact s4) as Hf1
    by (rewrite Hs1; reflexivity).
  rewrite <- Hf1 in Hfiles. clear Hdf. rename Hdf1 into Hdf.
  assert (written s1 "artifacts/processed/X_train.pkl" = Ok a1) as R1
    by (rewrite Hfiles; reflexivity).
  assert (written s1 "artifacts/processed/X_test.pkl" = Ok a2) as R2
    by (rewrite Hfiles; reflexivity).
  assert (written s1 "artifacts/processed/y_train.pkl" = Ok a3) as R3
    by (rewrite Hfiles; reflexivity).
  assert (written s1 "artifacts/processed/y_test.pkl" = Ok a4) as R4
    by (rewrite Hfiles; reflexivity).
  unfold TrainingPipeline.main, DataProcessing.init, ModelTraining.init.
  rewrite Hmk1, H1, Hx, bind_Ok, Hmk2.
  destruct (training s1 (new_trainer m)) as [r s2] eqn:H2.
  destruct (run_with_loaded_splits artefact classifier predictions (written s1)
              fit joblib_dump_model score predict
              accuracy_score precision_score recall_score f1_score
              (new_trainer m) s2 r a1 a2 a3 a4 R1 R2 R3 R4 H2)
    as (S1 & S2 & S3 & S4 & S5).
  exists d, x, y, a1, a2, a3, a4, s2.
  split; [exact Hdf|]. split; [exact Hxy|]. split; [exact Htts|].
  destruct r as [[]|e]; cbn; repeat split; assumption.
Qed.

End ScriptProps.

(** ** Training and the script on stand-ins for the libraries *)

Lemma training_failure_is_a_wrapped_step_witness :
  exists s' s0,
    TrainingSample.run TrainingSample.disk TrainingSample.start
    = (Raise (CustomException (Text "Failed to load data")
                (Some (LibraryError "FileNotFoundError" (Text "No such file or directory")))
                None
                (Some (LibraryError "FileNotFoundError" (Text "No such file or directory")))),
       s') /\
    ModelTraining.load_data_body (list string) (list string) TrainingSample.disk
      TrainingSample.start
    = (Raise (LibraryError "FileNotFoundError" (Text "No such file or directory")), s0) /\
    s' = (ModelTraining.logger (list string) (list string)
            (DataProcessing.Error "Error while loading data: %s"
               (LibraryError "FileNotFoundError" (Text "No such file or directory")))
            s0).2.
Proof.
  destruct (training_failure_is_a_wrapped_step (list string) (list string) unit
              TrainingSample.disk TrainingSample.fit TrainingSample.joblib_dump
              TrainingSample.score TrainingSample.predict
              TrainingSample.metric TrainingSample.metric
              TrainingSample.metric TrainingSample.metric
              TrainingSample.start
              (TrainingSample.run TrainingSample.disk TrainingSample.start).2
              (CustomException (Text "Failed to load data")
                 (Some (LibraryError "FileNotFoundError"
                          (Text "No such file or directory")))
                 None
                 (Some (LibraryError "FileNotFoundError"
                          (Text "No such file or directory"))))
              ltac:(vm_compute; reflexivity))
    as [(orig & s0 & Hbody & He & Hs' & _)
       |[(s1 & orig & s0 & _ & _ & He & _)|(s1 & s2 & orig & s0 & _ & _ & _ & He & _)]].
  - injection He as Ho _. subst orig.
    exists (TrainingSample.run TrainingSample.disk TrainingSample.start).2, s0.
    split; [vm_compute; reflexivity|]. split; [exact Hbody|exact Hs'].
  - discriminate He.
  - discriminate He.
Defined.

Lemma eval_model_changes_only_the_log_witness :
  let s' :=
    (ModelTraining.eval_model (list string) (list string) unit
       TrainingSample.score TrainingSample.predict
       TrainingSample.metric TrainingSample.metric
       TrainingSample.metric TrainingSample.metric TrainingSample.start).2 in
  ModelTraining.input_path _ _ s' = ModelTraining.input_path _ _ TrainingSample.start /\
  ModelTraining.output_path _ _ s' = ModelTraining.output_path _ _ TrainingSample.start /\
  ModelTraining.model _ _ s' = ModelTraining.model _ _ TrainingSample.start /\
  ModelTraining.X_train _ _ s' = ModelTraining.X_train _ _ TrainingSample.start /\
  ModelTraining.X_test _ _ s' = ModelTraining.X_test _ _ TrainingSample.start /\
  ModelTraining.y_train _ _ s' = ModelTraining.y_train _ _ TrainingSample.start /\
  ModelTraining.y_test _ _ s' = ModelTraining.y_test _ _ TrainingSample.start /\
  ModelTraining.files _ _ s' = ModelTraining.files _ _ TrainingSample.start /\
  ModelTraining.log _ _ TrainingSample.start `prefix_of` ModelTraining.log _ _ s'.
Proof.
  cbv zeta.
  apply (eval_model_changes_only_the_log (list string) (list string) unit
           TrainingSample.score TrainingSample.predict
           TrainingSample.metric TrainingSample.metric
           TrainingSample.metric TrainingSample.metric TrainingSample.start _
           (ModelTraining.eval_model (list string) (list string) unit
              TrainingSample.score TrainingSample.predict
              TrainingSample.metric TrainingSample.metric
              TrainingSample.metric TrainingSample.metric TrainingSample.start).1).
  apply surjective_pairing.
Defined.

Lemma successful_training_writes_the_fitted_model_witness :
  exists s',
    TrainingSample.run (fun _ => Ok ["MinTemp"; "MaxTemp"]) TrainingSample.start
    = (Ok tt, s') /\
    TrainingSample.fit [] (Some ["MinTemp"; "MaxTemp"]) (Some ["MinTemp"; "MaxTemp"])
    = (ModelTraining.model (list string) (list string) s', None) /\
    ModelTraining.files (list string) (list string) s'
    = [ ("artifacts/models/model.pkl", ModelTraining.model (list string) (list string) s') ] /\
    last (ModelTraining.log (list string) (list string) s')
    = Some (DataProcessing.Info "Model training and evaluation completed successfully.").
Proof.
  eexists. split; [vm_compute; reflexivity|].
  destruct (successful_training_writes_the_fitted_model (list string) (list string) unit
              (fun _ => Ok ["MinTemp"; "MaxTemp"])
              TrainingSample.fit TrainingSample.joblib_dump
              TrainingSample.score TrainingSample.predict
              TrainingSample.metric TrainingSample.metric
              TrainingSample.metric TrainingSample.metric
              TrainingSample.start _ ltac:(vm_compute; reflexivity))
    as (a1 & a2 & a3 & a4 & L1 & L2 & L3 & L4 & Hfit & Hfiles & Hlast).
  injection L1 as <-. injection L3 as <-.
  split; [exact Hfit|]. split; [exact Hfiles|exact Hlast].
Defined.

Lemma script_failure_origin_witness :
  exists s_i s0,
    TrainingPipeline.raised _ _ _
      (TrainingSample.main TrainingSample.makedirs PipelineSample.read_csv)
    = Some (CustomException (Text "Failed to preprocess data")
              (Some (KeyError "Date")) None (Some (KeyError "Date"))) /\
    TrainingPipeline.trainer _ _ _
      (TrainingSample.main TrainingSample.makedirs PipelineSample.read_csv) = None /\
    DataProcessing.run_steps (list string) (list string)
      (take 1 PipelineSample.STEPS) PipelineSample.start = (Ok tt, s_i) /\
    DataProcessing.preprocess_body (list string) (list string)
      PipelineSample.preprocess_frame s_i = (Raise (KeyError "Date"), s0).
Proof.
  destruct (script_failure_origin (list string) (list string) (list string) unit
              TrainingSample.makedirs
              PipelineSample.read_csv PipelineSample.preprocess_frame
              PipelineSample.fit_transform PipelineSample.split_target
              PipelineSample.train_test_split PipelineSample.joblib_dump
              TrainingSample.disk (Ok []) TrainingSample.fit TrainingSample.joblib_dump
              TrainingSample.score TrainingSample.predict
              TrainingSample.metric TrainingSample.metric
              TrainingSample.metric TrainingSample.metric
              (CustomException (Text "Failed to preprocess data")
                 (Some (KeyError "Date")) None (Some (KeyError "Date")))
              ltac:(vm_compute; reflexivity))
    as [(Hmk & _)
       |[(s1 & _ & _ & _ & Htr & i & step & body & ctx & msg & s_i & orig & s0 &
          Hi & Hb & Hpre & Hbody & He)
        |[(s1 & _ & Hrun & _)|(s1 & m & s2 & _ & Hrun & _)]]].
  - discriminate Hmk.
  - injection He as Hctx Ho _. subst ctx orig.
    destruct i as [|[|[|[|i]]]]; try discriminate Hi. injection Hi as <-.
    injection Hb as <- <-.
    exists s_i, s0. split; [vm_compute; reflexivity|]. split; [exact Htr|].
    split; [exact Hpre|exact Hbody].
  - vm_compute in Hrun. discriminate Hrun.
  - vm_compute in Hrun. discriminate Hrun.
Defined.

Lemma script_trains_on_the_written_splits_witness :
  exists s1 s2 a1 a3,
    TrainingPipeline.processor _ _ _
      (TrainingSample.main TrainingSample.makedirs PipelineRuns.read_csv) = Some s1 /\
    TrainingPipeline.trainer _ _ _
      (TrainingSample.main TrainingSample.makedirs PipelineRuns.read_csv) = Some s2 /\
    DataProcessing.files (list string) (list string) s1 !! 0%nat
    = Some ("artifacts/processed/X_train.pkl", a1) /\
    DataProcessing.files (list string) (list string) s1 !! 2%nat
    = Some ("artifacts/processed/y_train.pkl", a3) /\
    ModelTraining.X_train (list string) (list string) s2 = Some a1 /\
    ModelTraining.y_train (list string) (list string) s2 = Some a3 /\
    ModelTraining.model (list string) (list string) s2
    = (TrainingSample.fit [] (Some a1) (Some a3)).1.
Proof.
  destruct (script_trains_on_the_written_splits
              (list string) (list string) (list string) unit
              TrainingSample.makedirs
              PipelineRuns.read_csv PipelineSample.preprocess_frame
              PipelineSample.fit_transform PipelineSample.split_target
              PipelineSample.train_test_split PipelineSample.joblib_dump
              TrainingSample.disk (Ok []) TrainingSample.fit TrainingSample.joblib_dump
              TrainingSample.score TrainingSample.predict
              TrainingSample.metric TrainingSample.metric
              TrainingSample.metric TrainingSample.metric
              (PipelineRuns.run PipelineSample.start).2 []
              eq_refl ltac:(vm_compute; reflexivity) eq_refl eq_refl)
    as (d & x & y & a1 & a2 & a3 & a4 & s2 & Hdf & Hxy & Htts & Hp & Ht &
        X1 & X2 & Y1 & Y2 & Hm).
  exists (PipelineRuns.run PipelineSample.start).2, s2, a1, a3.
  split; [exact Hp|]. split; [exact Ht|].
  assert (d = [ "Date"; "Location"; "WindGustDir"; "WindDir9am"; "WindDir3pm";
                "RainToday"; "RainTomorrow" ]) as ->.
  { vm_compute in Hdf. injection Hdf as <-. reflexivity. }
  vm_compute in Hxy. injection Hxy as <- <-.
  vm_compute in Htts. injection Htts as <- <- <- <-.
  split; [vm_compute; reflexivity|]. split; [vm_compute; reflexivity|].
  split; [exact X1|]. split; [exact Y1|exact Hm].
Defined.
